(** * SystemEval: verdict cascade, content hash, command executor,
      output parser and configuration validation

    A shallow embedding of the Python sources

    - [systemeval/core/evaluation.py]   (module [evaluation])
    - [systemeval/types.py]             (module [types])
    - [systemeval/environments/executor.py] (module [executor])
    - [systemeval/config.py]            (module [config])
    - [systemeval/environments/browser.py]  (module [browser])
    - [systemeval/environments/docker_compose.py] (module [docker_compose])
    - [systemeval/utils/commands.py]    (module [commands])
    - [systemeval/utils/retry.py]       (module [retry])

    and of the parts of the Python library that these sources call:
    [json.dumps] (module [json]), [hashlib.sha256] (module [hashlib]), the
    regular expressions of the output parser (module [re]), [int] and
    [float] (module [builtins]) and a few built-ins (module [py]).

    Conventions of the embedding.

    - A Python [str] is a Rocq [string]; a character stands for the code
      point of the same number, so the strings covered are those over the
      code points 0..255.
    - A Python [int] is a [Z].  A Python [float] that holds a time or a
      duration is an exact rational [Q]; rounding of IEEE doubles is not
      modelled.
    - A method that mutates [self] or raises is a function from the object
      to an [Outcome] and the object after the call.
    - Reading the clock, running a process and waiting on a child
      environment are inputs of the functions that perform them.  Module
      [subprocess] gives one such machine, on which a child process takes
      time; it is used to say what a timeout does.
    - A value of type [Any] whose text depends on the process, and the
      delay computed and slept between two attempts of a retried call, are
      inputs as well: the text of the value, and whether the pause ends or
      raises. *)

From Stdlib Require Import String Ascii List Bool ZArith NArith QArith.
From Stdlib Require Import DecimalString Lia.
Import ListNotations.

Set Warnings "-register-all".

Local Open Scope list_scope.
Local Open Scope string_scope.

(* ================================================================== *)
(** * Python built-ins used by the sources                             *)
(* ================================================================== *)

Module py.

(** The double quote character, code point 34. *)
Definition dq : ascii := "034"%char.

(** The line feed character, code point 10. *)
Definition nl : ascii := "010"%char.

(** [sep.join(parts)] *)
Fixpoint join (sep : string) (parts : list string) : string :=
  match parts with
  | [] => ""
  | [p] => p
  | p :: rest => p ++ sep ++ join sep rest
  end.

(** [l.append(x)] *)
Definition append {A : Type} (l : list A) (x : A) : list A := (l ++ [x])%list.

(** [all(ok(c) for c in s)] *)
Fixpoint all_chars (ok : ascii -> bool) (s : string) : bool :=
  match s with
  | EmptyString => true
  | String c rest => ok c && all_chars ok rest
  end.

(** [needle in hay] for two strings. *)
Definition contains (hay needle : string) : Prop :=
  exists before after, hay = before ++ needle ++ after.

(** [str(n)] for an [int]. *)
Definition str_of_int (n : Z) : string := NilZero.string_of_int (Z.to_int n).

(** The values a metric can hold ([Any] in the source).  For an [int], a
    [str], a [bool] and [None] the text that [str()] gives is a function of
    the value.  An object of any other kind is held as the text that
    [str()] gives for it in the process at hand: for a set of strings, say,
    that text changes with the hash seed of the process, so the same set
    is held as one text on one host and as another text on another. *)
Inductive value : Type :=
| Int (n : Z)
| Str (s : string)
| Bool (b : bool)
| None_
| Object (text : string).

(** [str(v)] *)
Definition str (v : value) : string :=
  match v with
  | Int n => str_of_int n
  | Str s => s
  | Bool true => "True"
  | Bool false => "False"
  | None_ => "None"
  | Object text => text
  end.

(** Exceptions raised by the modelled code. *)
Inductive Exn : Type :=
| RuntimeError (msg : string)
| ValueError (msg : string).

(** How a call ends: it returns a value or raises. *)
Inductive Outcome (A : Type) : Type :=
| Return (a : A)
| Raise (e : Exn).
Arguments Return {A} a.
Arguments Raise {A} e.

(** A method on an object of type [S]: the outcome and the object after
    the call. *)
Definition Method (S A : Type) : Type := S -> Outcome A * S.

Definition bind {A B : Type} (o : Outcome A) (k : A -> Outcome B) : Outcome B :=
  match o with
  | Return a => k a
  | Raise e => Raise e
  end.

(** [d[k] = v] on a dictionary with string keys kept in insertion order:
    the value of a key already there is replaced in place, a new key goes
    to the end. *)
Fixpoint setitem {V : Type} (k : string) (v : V) (d : list (string * V))
  : list (string * V) :=
  match d with
  | [] => [(k, v)]
  | (k', v') :: rest =>
      if String.eqb k k' then (k, v) :: rest else (k', v') :: setitem k v rest
  end.

(** [d.get(k)] *)
Fixpoint get {V : Type} (k : string) (d : list (string * V)) : option V :=
  match d with
  | [] => None
  | (k', v) :: rest => if String.eqb k k' then Some v else get k rest
  end.

(** [{**d, **u}] *)
Definition merge {V : Type} (d u : list (string * V)) : list (string * V) :=
  fold_left (fun acc kv => setitem (fst kv) (snd kv) acc) u d.

End py.

Notation "x <- c ;; k" := (py.bind c (fun x => k))
  (at level 61, c at next level, right associativity).

(* ================================================================== *)
(** * [json.dumps(obj, sort_keys=True)]                                *)
(* ================================================================== *)

Module json.

Inductive t : Type :=
| Null
| Bool (b : bool)
| Str (s : string)
| List (items : list t)
| Dict (items : list (string * t)).

(** Lower-case hexadecimal digit of a number below 16. *)
Definition hex_digit (n : N) : ascii :=
  match n with
  | 0%N => "0" | 1%N => "1" | 2%N => "2" | 3%N => "3"
  | 4%N => "4" | 5%N => "5" | 6%N => "6" | 7%N => "7"
  | 8%N => "8" | 9%N => "9" | 10%N => "a" | 11%N => "b"
  | 12%N => "c" | 13%N => "d" | 14%N => "e" | _ => "f"
  end%char.

(** The replacement of one character by [encode_basestring_ascii]:
    the short escapes of [ESCAPE_DCT], the printable ASCII characters
    unchanged, and a [\u00xx] escape for everything else. *)
Definition escape_char (c : ascii) : string :=
  let n := N_of_ascii c in
  if (n =? 34)%N then String "\" (String py.dq "")
  else if (n =? 92)%N then "\\"
  else if (n =? 10)%N then "\n"
  else if (n =? 13)%N then "\r"
  else if (n =? 9)%N then "\t"
  else if (n =? 12)%N then "\f"
  else if (n =? 8)%N then "\b"
  else if ((32 <=? n) && (n <=? 126))%N then String c ""
  else "\u00" ++ String (hex_digit (n / 16)) (String (hex_digit (n mod 16)) "").

Fixpoint escape (s : string) : string :=
  match s with
  | EmptyString => ""
  | String c rest => escape_char c ++ escape rest
  end.

(** A string literal of the output. *)
Definition encode_string (s : string) : string :=
  String py.dq (escape s ++ String py.dq "").

(** Insertion of a rendered item into a list sorted by key. *)
Fixpoint insert_sorted (kv : string * string) (l : list (string * string))
  : list (string * string) :=
  match l with
  | [] => [kv]
  | kv' :: rest =>
      if String.leb (fst kv) (fst kv') then kv :: l
      else kv' :: insert_sorted kv rest
  end.

(** [sorted(items)] by key. *)
Definition sort_items (l : list (string * string)) : list (string * string) :=
  fold_right insert_sorted [] l.

Definition render_item (kv : string * string) : string :=
  encode_string (fst kv) ++ ": " ++ snd kv.

Definition bool_text (b : bool) : string := if b then "true" else "false".

(** [json.dumps(j, sort_keys=True)] with the default separators. *)
Fixpoint dumps (j : t) : string :=
  match j with
  | Null => "null"
  | Bool b => bool_text b
  | Str s => encode_string s
  | List items => "[" ++ py.join ", " (map dumps items) ++ "]"
  | Dict items =>
      "{" ++ py.join ", "
               (map render_item
                  (sort_items (map (fun kv => (fst kv, dumps (snd kv))) items)))
          ++ "}"
  end.

(** ** Reading back one escaped character

    The inverse of [escape_char], used to show that the output determines
    the strings written into it. *)

Definition hex_value (c : ascii) : option N :=
  let n := N_of_ascii c in
  if ((48 <=? n) && (n <=? 57))%N then Some (n - 48)%N
  else if ((97 <=? n) && (n <=? 102))%N then Some (n - 87)%N
  else None.

(** The character written at the head of [s] and the text after it; [None]
    at the closing quote, at the end of the text and at a malformed escape. *)
Definition read_escaped (s : string) : option (ascii * string) :=
  match s with
  | EmptyString => None
  | String c rest =>
      if (N_of_ascii c =? 34)%N then None
      else if (N_of_ascii c =? 92)%N then
        match rest with
        | String "u" (String "0" (String "0" (String h (String l rest')))) =>
            match hex_value h, hex_value l with
            | Some a, Some b => Some (ascii_of_N (16 * a + b), rest')
            | _, _ => None
            end
        | String e rest' =>
            if (N_of_ascii e =? 34)%N then Some (py.dq, rest')
            else if Ascii.eqb e "\" then Some ("\"%char, rest')
            else if Ascii.eqb e "n" then Some ("010"%char, rest')
            else if Ascii.eqb e "r" then Some ("013"%char, rest')
            else if Ascii.eqb e "t" then Some ("009"%char, rest')
            else if Ascii.eqb e "f" then Some ("012"%char, rest')
            else if Ascii.eqb e "b" then Some ("008"%char, rest')
            else None
        | EmptyString => None
        end
      else Some (c, rest)
  end.

End json.

(* ================================================================== *)
(** * [hashlib.sha256]                                                 *)
(* ================================================================== *)

Module hashlib.

Local Open Scope N_scope.

Definition mask32 : N := 0xffffffff.
Definition add32 (x y : N) : N := N.land (x + y) mask32.
Definition rotr (n x : N) : N :=
  N.lor (N.shiftr x n) (N.land (N.shiftl x (32 - n)) mask32).
Definition not32 (x : N) : N := N.lxor x mask32.

Definition ch (x y z : N) : N := N.lxor (N.land x y) (N.land (not32 x) z).
Definition maj (x y z : N) : N :=
  N.lxor (N.lxor (N.land x y) (N.land x z)) (N.land y z).
Definition big_sigma0 (x : N) : N :=
  N.lxor (N.lxor (rotr 2 x) (rotr 13 x)) (rotr 22 x).
Definition big_sigma1 (x : N) : N :=
  N.lxor (N.lxor (rotr 6 x) (rotr 11 x)) (rotr 25 x).
Definition small_sigma0 (x : N) : N :=
  N.lxor (N.lxor (rotr 7 x) (rotr 18 x)) (N.shiftr x 3).
Definition small_sigma1 (x : N) : N :=
  N.lxor (N.lxor (rotr 17 x) (rotr 19 x)) (N.shiftr x 10).

(** The round constants and the initial state are given by their
    definition in FIPS 180-4: the first 32 bits of the fractional parts of
    the cube roots of the first 64 primes, and of the square roots of the
    first 8 primes. *)

Definition is_prime (n : nat) : bool :=
  forallb (fun d => negb (Nat.eqb (n mod d) 0)) (seq 2 (n - 2)).

(** The primes up to 311, the 64th prime. *)
Definition primes : list N :=
  map N.of_nat (filter is_prime (seq 2 310)).

(** The largest [r] below [2 ^ bits] with [r ^ 3 <= n]. *)
Fixpoint cube_root (bits : nat) (n r : N) : N :=
  match bits with
  | O => r
  | S b =>
      let r' := r + N.shiftl 1 (N.of_nat b) in
      cube_root b n (if r' * r' * r' <=? n then r' else r)
  end.

Definition cube_root_fraction (p : N) : N :=
  N.land (cube_root 36 (N.shiftl p 96) 0) mask32.

Definition square_root_fraction (p : N) : N :=
  N.land (N.sqrt (N.shiftl p 64)) mask32.

Definition round_constants : list N :=
  Eval vm_compute in map cube_root_fraction primes.

Definition initial_state : list N :=
  Eval vm_compute in map square_root_fraction (firstn 8 primes).

(** Big-endian bytes of a number, [width] of them. *)
Fixpoint be_bytes (width : nat) (x : N) : list N :=
  match width with
  | O => []
  | S w => N.land (N.shiftr x (8 * N.of_nat w)) 0xff :: be_bytes w x
  end.

(** The message followed by the bit 1, zero bytes and its bit length, a
    multiple of 64 bytes long. *)
Definition pad (msg : list N) : list N :=
  let len := length msg in
  (msg ++ [0x80] ++ repeat 0 ((119 - len mod 64) mod 64)%nat
       ++ be_bytes 8 (8 * N.of_nat len))%list.

(** The number whose big-endian bytes are given. *)
Definition of_be_bytes (bs : list N) : N :=
  fold_left (fun acc b => N.lor (N.shiftl acc 8) b) bs 0.

(** The bytes cut into big-endian 32-bit words. *)
Fixpoint words_of (fuel : nat) (bs : list N) : list N :=
  match fuel, bs with
  | S f, _ :: _ => of_be_bytes (firstn 4 bs) :: words_of f (skipn 4 bs)
  | _, _ => []
  end.

(** The words cut into blocks of sixteen. *)
Fixpoint blocks_of (fuel : nat) (ws : list N) : list (list N) :=
  match fuel, ws with
  | S f, _ :: _ => firstn 16 ws :: blocks_of f (skipn 16 ws)
  | _, _ => []
  end.

(** The message schedule: [n] more words after those of [w]. *)
Fixpoint schedule (n : nat) (w : list N) : list N :=
  match n with
  | O => w
  | S n' =>
      let t := length w in
      let at_ (k : nat) := nth (t - k) w 0 in
      schedule n'
        (w ++ [add32 (add32 (small_sigma1 (at_ 2%nat)) (at_ 7%nat))
                     (add32 (small_sigma0 (at_ 15%nat)) (at_ 16%nat))])%list
  end.

Record state : Type := State
  { sa : N; sb : N; sc : N; sd : N; se : N; sf : N; sg : N; sh : N }.

Definition state_of (l : list N) : state :=
  State (nth 0 l 0) (nth 1 l 0) (nth 2 l 0) (nth 3 l 0)
        (nth 4 l 0) (nth 5 l 0) (nth 6 l 0) (nth 7 l 0).

Definition list_of (s : state) : list N :=
  [sa s; sb s; sc s; sd s; se s; sf s; sg s; sh s].

Definition round (s : state) (kw : N * N) : state :=
  let t1 := add32 (add32 (add32 (sh s) (big_sigma1 (se s)))
                         (add32 (ch (se s) (sf s) (sg s)) (fst kw))) (snd kw) in
  let t2 := add32 (big_sigma0 (sa s)) (maj (sa s) (sb s) (sc s)) in
  State (add32 t1 t2) (sa s) (sb s) (sc s) (add32 (sd s) t1) (se s) (sf s) (sg s).

Definition compress (h : list N) (block : list N) : list N :=
  let s := fold_left round (combine round_constants (schedule 48 block))
                     (state_of h) in
  map (fun p => add32 (fst p) (snd p)) (combine h (list_of s)).

(** The digest of a message, as eight 32-bit words. *)
Definition digest_words (msg : list N) : list N :=
  let bytes := pad msg in
  let ws := words_of (length bytes) bytes in
  fold_left compress (blocks_of (length ws) ws) initial_state.

Definition hex_word (w : N) : string :=
  fold_right (fun b acc =>
                String (json.hex_digit (b / 16))
                       (String (json.hex_digit (b mod 16)) acc))
             ""%string (be_bytes 4 w).

(** [s.encode()] : the UTF-8 bytes of a string of ASCII characters. *)
Definition encode (s : string) : list N :=
  map N_of_ascii (list_ascii_of_string s).

(** [hashlib.sha256(data).hexdigest()] *)
Definition sha256_hexdigest (data : list N) : string :=
  String.concat "" (map hex_word (digest_words data)).

End hashlib.

(* ================================================================== *)
(** * [systemeval/core/evaluation.py]                                  *)
(* ================================================================== *)

Module evaluation.

(** [class Verdict(str, Enum)] *)
Inductive Verdict : Type := PASS | FAIL | ERROR.

Definition Verdict_eqb (a b : Verdict) : bool :=
  match a, b with
  | PASS, PASS | FAIL, FAIL | ERROR, ERROR => true
  | _, _ => false
  end.

(** [Verdict.value] *)
Definition Verdict_value (v : Verdict) : string :=
  match v with
  | PASS => "PASS"
  | FAIL => "FAIL"
  | ERROR => "ERROR"
  end.

Module MetricResult.

Record t : Type := mk
  { name : string;
    value : py.value;
    expected : py.value;
    passed : bool;
    message : option string;
    severity : string;
    metadata : list (string * py.value) }.

End MetricResult.

Module SessionResult.

Record t : Type := mk
  { session_id : string;
    session_name : string;
    metrics : list MetricResult.t;
    started_at : option string;
    completed_at : option string;
    duration_seconds : Q;
    stdout : string;
    stderr : string;
    artifacts : list (string * string);
    metadata : list (string * py.value) }.

(** [SessionResult.verdict] *)
Definition verdict (self : t) : Verdict :=
  match metrics self with
  | [] => ERROR
  | _ :: _ =>
      if forallb MetricResult.passed (metrics self) then PASS else FAIL
  end.

(** [SessionResult.failed_metrics] *)
Definition failed_metrics (self : t) : list MetricResult.t :=
  filter (fun m => negb (MetricResult.passed m)) (metrics self).

(** [SessionResult.passed_metrics] *)
Definition passed_metrics (self : t) : list MetricResult.t :=
  filter MetricResult.passed (metrics self).

End SessionResult.

Module EvaluationMetadata.

Record t : Type := mk
  { evaluation_id : string;
    run_hash : string;
    timestamp_utc : string;
    duration_seconds : Q;
    environment : list (string * string);
    schema_version : string;
    adapter_type : string;
    category : option string;
    project_name : option string;
    command : option string }.

Definition set_duration_seconds (d : Q) (m : t) : t :=
  mk (evaluation_id m) (run_hash m) (timestamp_utc m) d (environment m)
     (schema_version m) (adapter_type m) (category m) (project_name m)
     (command m).

Definition set_run_hash (h : string) (m : t) : t :=
  mk (evaluation_id m) h (timestamp_utc m) (duration_seconds m)
     (environment m) (schema_version m) (adapter_type m) (category m)
     (project_name m) (command m).

End EvaluationMetadata.

Module EvaluationResult.

Record t : Type := mk
  { metadata : EvaluationMetadata.t;
    sessions : list SessionResult.t;
    diagnostics : list string;
    warnings : list string;
    _start_time : Q;
    _finalized : bool }.

(** [EvaluationResult.verdict] *)
Definition verdict (self : t) : Verdict :=
  match sessions self with
  | [] => ERROR
  | _ :: _ =>
      if existsb (fun s => Verdict_eqb (SessionResult.verdict s) ERROR)
                 (sessions self)
      then ERROR
      else if existsb (fun s => Verdict_eqb (SessionResult.verdict s) FAIL)
                      (sessions self)
      then FAIL
      else PASS
  end.

(** [EvaluationResult.exit_code] *)
Definition exit_code (self : t) : Z :=
  match verdict self with
  | PASS => 0
  | FAIL => 1
  | ERROR => 2
  end.

(** [EvaluationResult.add_session] *)
Definition add_session (session : SessionResult.t) : py.Method t unit :=
  fun self =>
    if _finalized self
    then (py.Raise (py.RuntimeError "Cannot add session to finalized evaluation"),
          self)
    else (py.Return tt,
          mk (metadata self) (py.append (sessions self) session)
             (diagnostics self) (warnings self)
             (_start_time self) (_finalized self)).

Definition optional_str (o : option string) : json.t :=
  match o with
  | Some s => json.Str s
  | None => json.Null
  end.

Definition metric_content (m : MetricResult.t) : json.t :=
  json.Dict
    [ ("name", json.Str (MetricResult.name m));
      ("value", json.Str (py.str (MetricResult.value m)));
      ("passed", json.Bool (MetricResult.passed m)) ].

Definition session_content (s : SessionResult.t) : json.t :=
  json.Dict
    [ ("session_name", json.Str (SessionResult.session_name s));
      ("verdict", json.Str (Verdict_value (SessionResult.verdict s)));
      ("metrics", json.List (map metric_content (SessionResult.metrics s))) ].

(** The dictionary [hash_content] of [_compute_hash]. *)
Definition hash_content (self : t) : json.t :=
  json.Dict
    [ ("adapter_type",
        json.Str (EvaluationMetadata.adapter_type (metadata self)));
      ("category", optional_str (EvaluationMetadata.category (metadata self)));
      ("project_name",
        optional_str (EvaluationMetadata.project_name (metadata self)));
      ("verdict", json.Str (Verdict_value (verdict self)));
      ("sessions", json.List (map session_content (sessions self))) ].

(** The string [hash_str] of [_compute_hash]. *)
Definition hash_str (self : t) : string := json.dumps (hash_content self).

(** [EvaluationResult._compute_hash] *)
Definition _compute_hash (self : t) : string :=
  substring 0 16 (hashlib.sha256_hexdigest (hashlib.encode (hash_str self))).

(** [EvaluationResult.finalize]; [now] is the value of [time.time()]. *)
Definition finalize (now : Q) : py.Method t unit :=
  fun self =>
    if _finalized self then (py.Return tt, self)
    else
      let md1 :=
        if negb (Qeq_bool (_start_time self) 0)
        then EvaluationMetadata.set_duration_seconds
               (now - _start_time self) (metadata self)
        else metadata self in
      let md2 := EvaluationMetadata.set_run_hash (_compute_hash self) md1 in
      (py.Return tt,
       mk md2 (sessions self) (diagnostics self) (warnings self)
          (_start_time self) true).

(** ** What the hash covers

    The part of a metric, of a session and of an evaluation that
    [_compute_hash] reads, apart from the verdicts, which the part
    determines. *)

Definition metric_key (m : MetricResult.t) : string * string * bool :=
  (MetricResult.name m, py.str (MetricResult.value m), MetricResult.passed m).

Definition session_key (s : SessionResult.t)
  : string * list (string * string * bool) :=
  (SessionResult.session_name s, map metric_key (SessionResult.metrics s)).

Definition content_key (self : t)
  : string * option string * option string
    * list (string * list (string * string * bool)) :=
  (EvaluationMetadata.adapter_type (metadata self),
   EvaluationMetadata.category (metadata self),
   EvaluationMetadata.project_name (metadata self),
   map session_key (sessions self)).

(** ** The summary and the lists derived from the sessions *)

(** [sum(xs)] for integers. *)
Definition sum_int (xs : list Z) : Z := fold_left Z.add xs 0%Z.

(** [sum(xs)] for durations. *)
Definition sum_float (xs : list Q) : Q := fold_left Qplus xs (inject_Z 0).

(** [sum(1 for s in self.sessions if s.verdict == v)] *)
Definition count_verdict (v : Verdict) (self : t) : Z :=
  sum_int (map (fun _ => 1%Z)
               (filter (fun s => Verdict_eqb (SessionResult.verdict s) v)
                       (sessions self))).

Module Summary.

(** The dictionary returned by [summary], one field for each key. *)
Record t : Type := mk
  { total_sessions : Z;
    passed_sessions : Z;
    failed_sessions : Z;
    error_sessions : Z;
    total_metrics : Z;
    passed_metrics : Z;
    failed_metrics : Z;
    total_duration_seconds : Q }.

End Summary.

(** [EvaluationResult.summary] *)
Definition summary (self : t) : Summary.t :=
  let total_metrics :=
    sum_int (map (fun s => Z.of_nat (length (SessionResult.metrics s)))
                 (sessions self)) in
  let passed_metrics :=
    sum_int (map (fun s => Z.of_nat (length (SessionResult.passed_metrics s)))
                 (sessions self)) in
  Summary.mk (Z.of_nat (length (sessions self)))
             (count_verdict PASS self)
             (count_verdict FAIL self)
             (count_verdict ERROR self)
             total_metrics
             passed_metrics
             (total_metrics - passed_metrics)
             (sum_float (map SessionResult.duration_seconds (sessions self))).

(** [EvaluationResult.failed_sessions] *)
Definition failed_sessions (self : t) : list SessionResult.t :=
  filter (fun s => negb (Verdict_eqb (SessionResult.verdict s) PASS))
         (sessions self).

(** The properties [passed], [failed], [errors], [skipped], [total] and
    [duration] kept for the callers of the older result type. *)
Definition passed (self : t) : Z := Summary.passed_metrics (summary self).
Definition failed (self : t) : Z := Summary.failed_metrics (summary self).
Definition errors (self : t) : Z := Summary.error_sessions (summary self).
Definition skipped (self : t) : Z := 0%Z.
Definition total (self : t) : Z := Summary.total_metrics (summary self).
Definition duration (self : t) : Q :=
  EvaluationMetadata.duration_seconds (metadata self).

(** The worse of two verdicts: ERROR before FAIL before PASS. *)
Definition worst (a b : Verdict) : Verdict :=
  match a, b with
  | ERROR, _ | _, ERROR => ERROR
  | FAIL, _ | _, FAIL => FAIL
  | PASS, PASS => PASS
  end.

(** The stored hash, [self.metadata.run_hash]. *)
Definition run_hash (self : t) : string :=
  EvaluationMetadata.run_hash (metadata self).

End EvaluationResult.

(** ** The factory functions *)

Definition SCHEMA_VERSION : string := "1.0.0".

(** What [create_evaluation] learns from the machine it runs on.  The two
    [git rev-parse] calls give their output with the white space at the
    ends removed, or [None] when the call raises. *)
Record Host : Type := MkHost
  { git_head : option string;
    git_branch : option string;
    gethostname : string;
    version_info : Z * Z * Z;
    platform : string }.

(** [f"{major}.{minor}.{micro}"] *)
Definition python_version (h : Host) : string :=
  let '(major, minor, micro) := version_info h in
  py.str_of_int major ++ "." ++ py.str_of_int minor ++ "."
    ++ py.str_of_int micro.

(** The dictionary [env_context] of [create_evaluation]. *)
Definition env_context (h : Host) (environment : option (list (string * string)))
  : list (string * string) :=
  let env := match environment with Some e => e | None => [] end in
  let env := match git_head h with
             | Some commit => py.setitem "git_commit" (substring 0 12 commit) env
             | None => env
             end in
  let env := match git_branch h with
             | Some branch => py.setitem "git_branch" branch env
             | None => env
             end in
  let env := py.setitem "hostname" (gethostname h) env in
  let env := py.setitem "python_version" (python_version h) env in
  py.setitem "platform" (platform h) env.

(** [create_evaluation]; [uuid4] is the value of [str(uuid.uuid4())],
    [now_iso] of [datetime.now(timezone.utc).isoformat()] and [now] of
    [time.time()]. *)
Definition create_evaluation (h : Host) (uuid4 now_iso : string) (now : Q)
    (adapter_type : string) (category project_name command : option string)
    (environment : option (list (string * string))) : EvaluationResult.t :=
  let metadata :=
    EvaluationMetadata.mk uuid4 "" now_iso 0 (env_context h environment)
                          SCHEMA_VERSION adapter_type category project_name
                          command in
  EvaluationResult.mk metadata [] [] [] now false.

(** [x or default] for an optional string. *)
Definition or_else (x : option string) (default : string) : string :=
  match x with
  | Some (String _ _ as s) => s
  | _ => default
  end.

(** [create_session] *)
Definition create_session (uuid4 now_iso : string) (name : string)
    (session_id : option string) : SessionResult.t :=
  SessionResult.mk (or_else session_id uuid4) name [] (Some now_iso) None 0
                   "" "" [] [].

(** [metric] *)
Definition metric (name : string) (value expected : py.value)
    (condition : bool) (message : option string) (severity : string)
    (metadata : list (string * py.value)) : MetricResult.t :=
  MetricResult.mk name value expected condition message severity metadata.

End evaluation.

(* ================================================================== *)
(** * [systemeval/types.py]                                            *)
(* ================================================================== *)

Module types.

Inductive Verdict : Type := PASS | FAIL | ERROR.

Module AdapterConfig.

(** The fields of [AdapterConfig]; [project_root] holds the string that
    [__post_init__] leaves there. *)
Record t : Type := mk
  { project_root : string;
    test_directory : option string;
    markers : list string;
    parallel : bool;
    coverage : bool;
    timeout : option Z;
    verbose : bool;
    extra : list (string * py.value) }.

(** [Path(p).is_absolute()] on a POSIX system. *)
Definition is_absolute (p : string) : bool := String.prefix "/" p.

(** [AdapterConfig(...)]: the fields as given, then [__post_init__]. *)
Definition init (fields : t) : py.Outcome t :=
  if negb (is_absolute (project_root fields)) then
    py.Raise (py.ValueError ("project_root must be an absolute path, got: "
                               ++ project_root fields))
  else py.Return fields.

(** [AdapterConfig.get] *)
Definition get (key : string) (default : py.value) (self : t) : py.value :=
  match py.get key (extra self) with
  | Some v => v
  | None => default
  end.

(** [AdapterConfig.with_extra] *)
Definition with_extra (kwargs : list (string * py.value)) (self : t)
  : py.Outcome t :=
  let new_extra := py.merge (extra self) kwargs in
  init (mk (project_root self) (test_directory self) (markers self)
           (parallel self) (coverage self) (timeout self) (verbose self)
           new_extra).

(** [AdapterConfig.from_project_root] *)
Definition from_project_root (project_root : string) : py.Outcome t :=
  init (mk project_root None [] false false None false []).

End AdapterConfig.

Module TestResult.

(** The fields of [TestResult] that the parser and the verdict read or
    write; [total] holds the value after [__post_init__]. *)
Record t : Type := mk
  { passed : Z;
    failed : Z;
    errors : Z;
    skipped : Z;
    duration : Q;
    total : Z;
    exit_code : Z;
    category : option string;
    parsing_warning : option string;
    parsed_from : option string }.

(** [TestResult(passed=..., failed=..., errors=..., skipped=...,
    duration=..., exit_code=...)]: the other fields take their defaults
    and [__post_init__] computes [total]. *)
Definition init (passed failed errors skipped : Z) (duration : Q)
    (exit_code : Z) : t :=
  mk passed failed errors skipped duration
     (passed + failed + errors + skipped) exit_code None None None.

Definition is_fallback (o : option string) : bool :=
  match o with
  | Some s => String.eqb s "fallback"
  | None => false
  end.

(** [TestResult.verdict] *)
Definition verdict (self : t) : Verdict :=
  if (exit_code self =? 2)%Z then ERROR
  else if (total self =? 0)%Z then ERROR
  else if is_fallback (parsed_from self) && negb (exit_code self =? 0)%Z
  then ERROR
  else if ((failed self >? 0) || (errors self >? 0))%Z then FAIL
  else PASS.

(** The values the calls made during [to_evaluation] return, in the order
    of the calls: those of [create_evaluation], those of [create_session]
    and the [time.time()] of [finalize]. *)
Record Calls : Type := MkCalls
  { host : evaluation.Host;
    evaluation_uuid : string;
    evaluation_now_iso : string;
    start_time : Q;
    session_uuid : string;
    session_now_iso : string;
    finalize_time : Q }.

(** [session.metrics.append(m)] *)
Definition append_metric (m : evaluation.MetricResult.t)
    (s : evaluation.SessionResult.t) : evaluation.SessionResult.t :=
  evaluation.SessionResult.mk
    (evaluation.SessionResult.session_id s)
    (evaluation.SessionResult.session_name s)
    (py.append (evaluation.SessionResult.metrics s) m)
    (evaluation.SessionResult.started_at s)
    (evaluation.SessionResult.completed_at s)
    (evaluation.SessionResult.duration_seconds s)
    (evaluation.SessionResult.stdout s)
    (evaluation.SessionResult.stderr s)
    (evaluation.SessionResult.artifacts s)
    (evaluation.SessionResult.metadata s).

(** [session.duration_seconds = d] *)
Definition set_session_duration (d : Q) (s : evaluation.SessionResult.t)
  : evaluation.SessionResult.t :=
  evaluation.SessionResult.mk
    (evaluation.SessionResult.session_id s)
    (evaluation.SessionResult.session_name s)
    (evaluation.SessionResult.metrics s)
    (evaluation.SessionResult.started_at s)
    (evaluation.SessionResult.completed_at s)
    d
    (evaluation.SessionResult.stdout s)
    (evaluation.SessionResult.stderr s)
    (evaluation.SessionResult.artifacts s)
    (evaluation.SessionResult.metadata s).

(** [result.metadata.duration_seconds = d] *)
Definition set_result_duration (d : Q) (r : evaluation.EvaluationResult.t)
  : evaluation.EvaluationResult.t :=
  evaluation.EvaluationResult.mk
    (evaluation.EvaluationMetadata.set_duration_seconds
       d (evaluation.EvaluationResult.metadata r))
    (evaluation.EvaluationResult.sessions r)
    (evaluation.EvaluationResult.diagnostics r)
    (evaluation.EvaluationResult.warnings r)
    (evaluation.EvaluationResult._start_time r)
    (evaluation.EvaluationResult._finalized r).

(** [f"{n} {what}" if n else None] *)
Definition message_if (n : Z) (what : string) : option string :=
  if (n =? 0)%Z then None else Some (py.str_of_int n ++ " " ++ what).

(** The session [to_evaluation] builds, for a result without a coverage
    figure and without failure records, the two fields that [t] leaves
    out: the coverage metric and the "failures" entry of the session
    metadata are then not added. *)
Definition to_session (calls : Calls) (self : t) : evaluation.SessionResult.t :=
  let session :=
    evaluation.create_session (session_uuid calls) (session_now_iso calls)
      (evaluation.or_else (category self) "tests") None in
  let session :=
    append_metric
      (evaluation.metric "tests_passed" (py.Int (passed self)) (py.Str ">0")
         ((passed self >? 0)%Z || (total self =? 0)%Z)
         (Some (py.str_of_int (passed self) ++ " tests passed")) "error" [])
      session in
  let session :=
    append_metric
      (evaluation.metric "tests_failed" (py.Int (failed self)) (py.Str "0")
         (failed self =? 0)%Z (message_if (failed self) "tests failed")
         "error" [])
      session in
  let session :=
    append_metric
      (evaluation.metric "tests_errors" (py.Int (errors self)) (py.Str "0")
         (errors self =? 0)%Z (message_if (errors self) "test errors")
         "error" [])
      session in
  set_session_duration (duration self) session.

(** [TestResult.to_evaluation], for such a result. *)
Definition to_evaluation (calls : Calls) (adapter_type : string)
    (project_name : option string) (self : t)
  : py.Outcome evaluation.EvaluationResult.t :=
  let result :=
    evaluation.create_evaluation (host calls) (evaluation_uuid calls)
      (evaluation_now_iso calls) (start_time calls)
      adapter_type (category self) project_name None None in
  let '(added, result) :=
    evaluation.EvaluationResult.add_session (to_session calls self) result in
  _ <- added ;;
  let result := set_result_duration (duration self) result in
  let '(finalized, result) :=
    evaluation.EvaluationResult.finalize (finalize_time calls) result in
  _ <- finalized ;;
  py.Return result.

End TestResult.

End types.

(* ================================================================== *)
(** * The regular expressions of [re] used by the output parser        *)
(* ================================================================== *)

Module re.

(** What matches one character. *)
Inductive atom : Type :=
| Chr (c : ascii)             (* a literal character *)
| Digit                       (* \d *)
| Space                       (* \s *)
| Dot                         (* .  : anything but a line feed *)
| OneOf (members : list atom) (* [...] *).

(** How often an atom is matched, and whether more or fewer repetitions
    are tried first. *)
Inductive quant : Type :=
| Once
| Optional   (* x?  *)
| Star       (* x*  *)
| Plus       (* x+  *)
| LazyStar   (* x*? *).

Inductive node : Type :=
| Item (a : atom) (q : quant)
| Open    (* the start of a capturing group *)
| Close   (* the end of a capturing group *).

Definition pattern : Type := list node.

(** ** Compilation of a pattern string *)

(** The class an escape [\c] stands for. *)
Definition escaped (c : ascii) : atom :=
  if Ascii.eqb c "d" then Digit
  else if Ascii.eqb c "s" then Space
  else Chr c.

(** The quantifier character [c] applied to the node read last. *)
Definition quantify (c : ascii) (out : list node) : option (list node) :=
  match out with
  | Item a Once :: before =>
      if Ascii.eqb c "*" then Some (Item a Star :: before)
      else if Ascii.eqb c "+" then Some (Item a Plus :: before)
      else Some (Item a Optional :: before)
  | Item a Star :: before =>
      if Ascii.eqb c "?" then Some (Item a LazyStar :: before) else None
  | _ => None
  end.

(** One pass over the pattern; [out] holds the nodes read so far, last
    first, and [cls] the members of the class being read, if any.
    Constructs the parser does not use (alternation, anchors, counted
    repetition, ranges and negated classes, quantified groups) are
    refused; no pattern of the parser nests its groups. *)
Fixpoint compile_loop (s : string) (out : list node) (cls : option (list atom))
  : option pattern :=
  match s, cls with
  | EmptyString, None => Some (rev out)
  | EmptyString, Some _ => None
  | String "\" (String c rest), None =>
      compile_loop rest (Item (escaped c) Once :: out) None
  | String "\" (String c rest), Some members =>
      compile_loop rest out (Some (escaped c :: members))
  | String c rest, Some members =>
      if Ascii.eqb c "]"
      then compile_loop rest (Item (OneOf (rev members)) Once :: out) None
      else if Ascii.eqb c "^" || Ascii.eqb c "-" || Ascii.eqb c "["
      then None
      else compile_loop rest out (Some (Chr c :: members))
  | String c rest, None =>
      if Ascii.eqb c "[" then compile_loop rest out (Some [])
      else if Ascii.eqb c "(" then compile_loop rest (Open :: out) None
      else if Ascii.eqb c ")" then compile_loop rest (Close :: out) None
      else if Ascii.eqb c "." then compile_loop rest (Item Dot Once :: out) None
      else if Ascii.eqb c "*" || Ascii.eqb c "+" || Ascii.eqb c "?"
      then match quantify c out with
           | Some out' => compile_loop rest out' None
           | None => None
           end
      else if Ascii.eqb c "|" || Ascii.eqb c "{" || Ascii.eqb c "^"
              || Ascii.eqb c "$"
      then None
      else compile_loop rest (Item (Chr c) Once :: out) None
  end.

(** [re.compile(p)] *)
Definition compile (p : string) : option pattern := compile_loop p [] None.

(** ** Matching *)

Definition is_digit (c : ascii) : bool :=
  let n := N_of_ascii c in ((48 <=? n) && (n <=? 57))%N.

(** The white space among the code points below 256. *)
Definition is_space (c : ascii) : bool :=
  let n := N_of_ascii c in
  (((9 <=? n) && (n <=? 13)) || ((28 <=? n) && (n <=? 32))
   || (n =? 133) || (n =? 160))%N.

(** The lower-case form of an ASCII letter. *)
Definition lower (c : ascii) : ascii :=
  let n := N_of_ascii c in
  if ((65 <=? n) && (n <=? 90))%N then ascii_of_N (n + 32) else c.

(** Does the atom accept the character?  [icase] is [re.IGNORECASE]. *)
Fixpoint accepts (icase : bool) (a : atom) (c : ascii) : bool :=
  match a with
  | Chr x => if icase then Ascii.eqb (lower x) (lower c) else Ascii.eqb x c
  | Digit => is_digit c
  | Space => is_space c
  | Dot => negb (Ascii.eqb c py.nl)
  | OneOf members => existsb (fun m => accepts icase m c) members
  end.

(** The groups closed so far, in order, and the text of the group that is
    open, if one is. *)
Record captures : Type := Captures
  { groups : list string;
    current : option string }.

Definition no_captures : captures := Captures [] None.

Definition take (c : ascii) (st : captures) : captures :=
  Captures (groups st)
           (option_map (fun s => s ++ String c "") (current st)).

Definition open_group (st : captures) : captures :=
  Captures (groups st) (Some "").

Definition close_group (st : captures) : captures :=
  match current st with
  | Some s => Captures (groups st ++ [s])%list None
  | None => st
  end.

(** A matcher takes the input left and the captures so far, and gives the
    captures and the input left after the match. *)
Definition matcher : Type := string -> captures -> option (captures * string).

(** One character accepted by [ok], then [k]. *)
Definition once (ok : ascii -> bool) (k : matcher) : matcher :=
  fun s st =>
    match s with
    | String c s' => if ok c then k s' (take c st) else None
    | EmptyString => None
    end.

(** As many characters accepted by [ok] as possible, then [k]; fewer when
    [k] fails. *)
Fixpoint star (ok : ascii -> bool) (k : matcher) (s : string) (st : captures)
  : option (captures * string) :=
  match s with
  | String c s' =>
      if ok c then
        match star ok k s' (take c st) with
        | Some r => Some r
        | None => k s st
        end
      else k s st
  | EmptyString => k s st
  end.

(** As few characters accepted by [ok] as possible, then [k]; more when
    [k] fails. *)
Fixpoint lazy_star (ok : ascii -> bool) (k : matcher) (s : string)
    (st : captures) : option (captures * string) :=
  match k s st with
  | Some r => Some r
  | None =>
      match s with
      | String c s' => if ok c then lazy_star ok k s' (take c st) else None
      | EmptyString => None
      end
  end.

(** The match of a pattern at the start of the input: the first success in
    the order in which a backtracking matcher tries the alternatives. *)
Fixpoint match_here (icase : bool) (p : pattern) : matcher :=
  match p with
  | [] => fun s st => Some (st, s)
  | Open :: rest => fun s st => match_here icase rest s (open_group st)
  | Close :: rest => fun s st => match_here icase rest s (close_group st)
  | Item a q :: rest =>
      let ok := accepts icase a in
      let k := match_here icase rest in
      match q with
      | Once => once ok k
      | Optional => fun s st => match once ok k s st with
                                | Some r => Some r
                                | None => k s st
                                end
      | Star => star ok k
      | Plus => once ok (star ok k)
      | LazyStar => lazy_star ok k
      end
  end.

(** The leftmost match: every start position is tried in turn. *)
Fixpoint search_at (icase : bool) (p : pattern) (s : string)
  : option (list string) :=
  match match_here icase p s no_captures with
  | Some (st, _) => Some (groups st)
  | None =>
      match s with
      | String _ s' => search_at icase p s'
      | EmptyString => None
      end
  end.

(** [re.search(p, s)], or [re.search(p, s, re.IGNORECASE)] when [icase];
    the result is the list of the groups of the match. *)
Definition search (p : string) (icase : bool) (s : string)
  : option (list string) :=
  match compile p with
  | Some cp => search_at icase cp s
  | None => None
  end.

(** The atom that the first character of every match must satisfy, when
    the pattern starts, after group marks, with an item matched once or
    once and more. *)
Fixpoint first_atom (p : pattern) : option atom :=
  match p with
  | Open :: rest | Close :: rest => first_atom rest
  | Item a Once :: _ | Item a Plus :: _ => Some a
  | _ => None
  end.

(** [s'] is what is left of [s] after some of its characters. *)
Definition suffix_of (s' s : string) : Prop := exists before, s = before ++ s'.

(** Every success of [m] is a success of [k] on what is left of the input
    after some characters. *)
Definition leads_to (m k : matcher) : Prop :=
  forall s st r,
    m s st = Some r -> exists s' st', suffix_of s' s /\ k s' st' = Some r.

(** The pattern matches at no position of [s], whatever was captured
    before. *)
Definition never_matches (icase : bool) (p : pattern) (s : string) : Prop :=
  forall s' st, suffix_of s' s -> match_here icase p s' st = None.

(** The nodes are group marks and items matched once, and each of the
    items rejects the character [c]: no part of a match of these nodes is
    a text that goes on with [c]. *)
Fixpoint all_reject (icase : bool) (c : ascii) (p : pattern) : bool :=
  match p with
  | [] => true
  | Open :: rest | Close :: rest => all_reject icase c rest
  | Item a Once :: rest => negb (accepts icase a c) && all_reject icase c rest
  | Item _ _ :: _ => false
  end.

(** [m.group(i)] for [i >= 1]. *)
Definition group (m : list string) (i : nat) : string := nth (i - 1) m "".

End re.

(* ================================================================== *)
(** * [int()] and [float()] on the text of a group                     *)
(* ================================================================== *)

Module builtins.

Definition digit_value (c : ascii) : option Z :=
  if re.is_digit c then Some (Z.of_N (N_of_ascii c) - 48)%Z else None.

(** The number written by a string of decimal digits, after [acc]. *)
Fixpoint digits_value (s : string) (acc : Z) : option Z :=
  match s with
  | EmptyString => Some acc
  | String c rest =>
      match digit_value c with
      | Some d => digits_value rest (10 * acc + d)%Z
      | None => None
      end
  end.

(** [int(s)] for the strings a group of digits can hold: a non-empty
    string of decimal digits; anything else raises [ValueError]. *)
Definition int (s : string) : py.Outcome Z :=
  match s, digits_value s 0 with
  | String _ _, Some n => py.Return n
  | _, _ =>
      py.Raise (py.ValueError ("invalid literal for int() with base 10: '"
                                 ++ s ++ "'"))
  end.

(** The text before the first dot, and the text after it if there is one. *)
Fixpoint split_dot (s : string) : string * option string :=
  match s with
  | EmptyString => ("", None)
  | String c rest =>
      if Ascii.eqb c "." then ("", Some rest)
      else let (a, b) := split_dot rest in (String c a, b)
  end.

(** [float(s)] for the strings a group of digits and dots can hold:
    digits with at most one dot and at least one digit give their decimal
    value; anything else raises [ValueError]. *)
Definition float (s : string) : py.Outcome Q :=
  let (int_part, after) := split_dot s in
  let frac_part := match after with Some f => f | None => "" end in
  match int_part ++ frac_part, digits_value (int_part ++ frac_part) 0 with
  | String _ _, Some n =>
      py.Return
        (Qred (Qmake n (Z.to_pos (10 ^ Z.of_nat (String.length frac_part)))))
  | _, _ =>
      py.Raise (py.ValueError ("could not convert string to float: '"
                                 ++ s ++ "'"))
  end.

End builtins.

(* ================================================================== *)
(** * [systemeval/environments/executor.py]                            *)
(* ================================================================== *)

Module executor.

Module ExecutionResult.

Record t : Type := mk
  { exit_code : Z;
    stdout : string;
    stderr : string;
    duration : Q;
    command : string }.

(** [ExecutionResult.success] *)
Definition success (self : t) : bool := (exit_code self =? 0)%Z.

End ExecutionResult.

(** ** The operating system, as the executor sees it *)

(** What [subprocess] is asked to run: a shell command line
    ([shell=True]), the words [shlex.split] makes of a command line, or a
    list of arguments. *)
Inductive program : Type :=
| Shell (command_line : string)
| Split (command_line : string)
| Argv (args : list string).

Record call : Type := Call
  { what : program;
    cwd : string;
    env : option (list (string * string));
    timeout : option Z }.

(** How [subprocess.Popen], the loop that reads its output line by line and
    [process.wait(timeout)] end. *)
Inductive streamed : Type :=
| StreamExit (lines : list string) (returncode : Z)
| StreamTimeout (lines : list string)
| StreamError (lines : list string) (msg : string).

(** How [subprocess.run(..., capture_output=True, timeout=...)] ends. *)
Inductive captured : Type :=
| CaptureExit (returncode : Z) (out err : string)
| CaptureTimeout
| CaptureError (msg : string).

(** The system calls of the executor over a state [World] of the machine. *)
Record System (World : Type) : Type := MkSystem
  { path_exists : string -> World -> bool;
    time : World -> Q;
    environ : World -> list (string * string);
    popen : call -> World -> streamed * World;
    run : call -> World -> captured * World }.
Arguments path_exists {World}.
Arguments time {World}.
Arguments environ {World}.
Arguments popen {World}.
Arguments run {World}.

(** [d[k] = v] on a dictionary kept in insertion order. *)
Fixpoint dict_set (k v : string) (d : list (string * string))
  : list (string * string) :=
  match d with
  | [] => [(k, v)]
  | (k', v') :: rest =>
      if String.eqb k k' then (k, v) :: rest else (k', v') :: dict_set k v rest
  end.

(** [d.update(u)] *)
Definition dict_update (d u : list (string * string)) : list (string * string) :=
  fold_left (fun acc kv => dict_set (fst kv) (snd kv) acc) u d.

(** [f"{timeout}"] for an optional integer. *)
Definition format_timeout (timeout : option Z) : string :=
  match timeout with
  | Some n => py.str_of_int n
  | None => "None"
  end.

(** [f"Command timed out after {timeout}s"] *)
Definition timed_out_message (timeout : option Z) : string :=
  "Command timed out after " ++ format_timeout timeout ++ "s".

Definition newline : string := String py.nl "".

(** [f"=== {cmd} ===\n{text}"] *)
Definition block (cmd text : string) : string :=
  "=== " ++ cmd ++ " ===" ++ newline ++ text.

(** [Union[str, List[str]]] *)
Inductive command : Type :=
| Single (cmd : string)
| Sequence (cmds : list string).

Module TestExecutor.

Record t : Type := mk
  { working_dir : string;
    base_env : list (string * string);
    verbose : bool;
    _output_buffer : list string }.

Definition set_output_buffer (lines : list string) (self : t) : t :=
  mk (working_dir self) (base_env self) (verbose self) lines.

Section WithSystem.

Context {World : Type} (os : System World).

(** The dictionary [full_env] of [_execute_single]. *)
Definition full_env (env : option (list (string * string))) (self : t)
    (w : World) : list (string * string) :=
  let full_env := dict_update (environ os w) (base_env self) in
  match env with
  | Some ((_ :: _) as e) => dict_update full_env e
  | _ => full_env
  end.

(** What [_execute_streaming] and [_execute_capture] ask [subprocess] for. *)
Definition subprocess_call (cmd : string) (timeout : option Z)
    (env : option (list (string * string))) (shell : bool)
    (self : t) (w : World) : call :=
  Call (if shell then Shell cmd else Split cmd)
       (working_dir self) (Some (full_env env self w)) timeout.

(** [TestExecutor._execute_single], with [_execute_streaming] and
    [_execute_capture] in place.  Printing the lines in verbose mode is not
    modelled. *)
Definition _execute_single (cmd : string) (timeout : option Z)
    (env : option (list (string * string))) (stream shell : bool)
    (self : t) (w : World) : ExecutionResult.t * t * World :=
  let start := time os w in
  if negb (path_exists os (working_dir self) w) then
    (ExecutionResult.mk 2 ""
       ("Working directory does not exist: " ++ working_dir self) 0 cmd,
     self, w)
  else
    let c := subprocess_call cmd timeout env shell self w in
    if stream then
      match popen os c w with
      | (StreamExit lines returncode, w') =>
          (ExecutionResult.mk returncode (String.concat "" lines) ""
             (time os w' - start) cmd,
           set_output_buffer lines self, w')
      | (StreamTimeout lines, w') =>
          (ExecutionResult.mk 124 (py.join newline lines)
             (timed_out_message timeout)
             (time os w' - start) cmd,
           set_output_buffer lines self, w')
      | (StreamError lines msg, w') =>
          (ExecutionResult.mk 1 "" msg (time os w' - start) cmd,
           set_output_buffer lines self, w')
      end
    else
      match run os c w with
      | (CaptureExit returncode out err, w') =>
          (ExecutionResult.mk returncode out err (time os w' - start) cmd,
           self, w')
      | (CaptureTimeout, w') =>
          (ExecutionResult.mk 124 (py.join newline (_output_buffer self))
             (timed_out_message timeout)
             (time os w' - start) cmd,
           self, w')
      | (CaptureError msg, w') =>
          (ExecutionResult.mk 1 "" msg (time os w' - start) cmd, self, w')
      end.

(** The [for cmd in commands] loop of [_execute_sequence] over the
    commands left, and the [return] after it. *)
Fixpoint sequence_loop (commands left : list string) (timeout : option Z)
    (env : option (list (string * string))) (stream shell : bool)
    (all_stdout all_stderr : list string) (total_duration : Q)
    (self : t) (w : World) : ExecutionResult.t * t * World :=
  match left with
  | [] =>
      (ExecutionResult.mk 0 (py.join newline all_stdout)
         (py.join newline all_stderr) total_duration
         (py.join " && " commands),
       self, w)
  | cmd :: left' =>
      let '(result, self', w') :=
        _execute_single cmd timeout env stream shell self w in
      let all_stdout :=
        py.append all_stdout (block cmd (ExecutionResult.stdout result)) in
      let all_stderr :=
        match ExecutionResult.stderr result with
        | EmptyString => all_stderr
        | err => py.append all_stderr (block cmd err)
        end in
      let total_duration :=
        (total_duration + ExecutionResult.duration result)%Q in
      if negb (ExecutionResult.success result) then
        (ExecutionResult.mk (ExecutionResult.exit_code result)
           (py.join newline all_stdout) (py.join newline all_stderr)
           total_duration (py.join " && " commands),
         self', w')
      else
        sequence_loop commands left' timeout env stream shell
                      all_stdout all_stderr total_duration self' w'
  end.

(** [TestExecutor._execute_sequence] *)
Definition _execute_sequence (commands : list string) (timeout : option Z)
    (env : option (list (string * string))) (stream shell : bool)
    (self : t) (w : World) : ExecutionResult.t * t * World :=
  sequence_loop commands commands timeout env stream shell [] [] 0 self w.

(** ** The commands of a sequence taken one by one

    Used to say what [_execute_sequence] returns. *)

(** The results of the commands run one after the other, each from the
    state the one before left, whether they fail or not. *)
Fixpoint run_each (cmds : list string) (timeout : option Z)
    (env : option (list (string * string))) (stream shell : bool)
    (self : t) (w : World) : list ExecutionResult.t * t * World :=
  match cmds with
  | [] => ([], self, w)
  | cmd :: rest =>
      let '(r, self', w') :=
        _execute_single cmd timeout env stream shell self w in
      let '(rs, self'', w'') :=
        run_each rest timeout env stream shell self' w' in
      (r :: rs, self'', w'')
  end.

(** The durations of the results added to [start], in order. *)
Definition total_duration (rs : list ExecutionResult.t) (start : Q) : Q :=
  fold_left (fun t r => (t + ExecutionResult.duration r)%Q) rs start.

(** The blocks of standard output of commands and their results. *)
Definition stdout_blocks (cmds : list string) (rs : list ExecutionResult.t)
  : list string :=
  map (fun cr => block (fst cr) (ExecutionResult.stdout (snd cr)))
      (combine cmds rs).

(** The blocks of standard error, for the results that have some. *)
Definition stderr_blocks (cmds : list string) (rs : list ExecutionResult.t)
  : list string :=
  flat_map (fun cr => match ExecutionResult.stderr (snd cr) with
                      | EmptyString => []
                      | err => [block (fst cr) err]
                      end)
           (combine cmds rs).

(** [TestExecutor.execute] *)
Definition execute (c : command) (timeout : option Z)
    (env : option (list (string * string))) (stream shell : bool)
    (self : t) (w : World) : ExecutionResult.t * t * World :=
  match c with
  | Sequence cmds => _execute_sequence cmds timeout env stream shell self w
  | Single cmd => _execute_single cmd timeout env stream shell self w
  end.

End WithSystem.

(** The local variables of [parse_test_results]. *)
Record counts : Type := Counts
  { passed : Z;
    failed : Z;
    errors : Z;
    skipped : Z;
    duration : Q }.

Definition set_passed (n : Z) (v : counts) : counts :=
  Counts n (failed v) (errors v) (skipped v) (duration v).
Definition set_failed (n : Z) (v : counts) : counts :=
  Counts (passed v) n (errors v) (skipped v) (duration v).
Definition set_errors (n : Z) (v : counts) : counts :=
  Counts (passed v) (failed v) n (skipped v) (duration v).
Definition set_skipped (n : Z) (v : counts) : counts :=
  Counts (passed v) (failed v) (errors v) n (duration v).
Definition set_duration (d : Q) (v : counts) : counts :=
  Counts (passed v) (failed v) (errors v) (skipped v) d.

(** [if match := re.search(p, output): x = int(match.group(1))] *)
Definition when_int (p : string) (output : string)
    (set : Z -> counts -> counts) (v : counts) : py.Outcome counts :=
  match re.search p false output with
  | Some m => n <- builtins.int (re.group m 1) ;; py.Return (set n v)
  | None => py.Return v
  end.

(** The pytest summary, or else the simpler patterns. *)
Definition pytest_step (output : string) (v : counts) : py.Outcome counts :=
  match re.search "(\d+) passed.*?(\d+) failed.*?(\d+) error.*?in ([\d.]+)s"
                  true output with
  | Some pytest_match =>
      p <- builtins.int (re.group pytest_match 1) ;;
      f <- builtins.int (re.group pytest_match 2) ;;
      e <- builtins.int (re.group pytest_match 3) ;;
      d <- builtins.float (re.group pytest_match 4) ;;
      py.Return (Counts p f e (skipped v) d)
  | None =>
      v <- when_int "(\d+) passed" output set_passed v ;;
      v <- when_int "(\d+) failed" output set_failed v ;;
      v <- when_int "(\d+) errors?" output set_errors v ;;
      v <- when_int "(\d+) skipped" output set_skipped v ;;
      match re.search "in ([\d.]+)s" false output with
      | Some m => d <- builtins.float (re.group m 1) ;;
                  py.Return (set_duration d v)
      | None => py.Return v
      end
  end.

(** The Jest summary. *)
Definition jest_step (output : string) (v : counts) : py.Outcome counts :=
  match re.search "Tests:\s*(\d+) passed,\s*(\d+) failed,\s*(\d+) total"
                  false output with
  | Some jest_match =>
      p <- builtins.int (re.group jest_match 1) ;;
      f <- builtins.int (re.group jest_match 2) ;;
      py.Return (set_failed f (set_passed p v))
  | None => py.Return v
  end.

(** The Playwright summary. *)
Definition playwright_step (output : string) (v : counts)
  : py.Outcome counts :=
  match re.search "(\d+) passed.*?\(([\d.]+)s\)" false output with
  | Some playwright_match =>
      p <- builtins.int (re.group playwright_match 1) ;;
      d <- builtins.float (re.group playwright_match 2) ;;
      py.Return (set_duration d (set_passed p v))
  | None => py.Return v
  end.

(** The last look for a failure count. *)
Definition failure_step (output : string) (v : counts) : py.Outcome counts :=
  match re.search "(\d+) failed" false output with
  | Some _ => when_int "(\d+) failed" output set_failed v
  | None => py.Return v
  end.

(** The inference from the exit code when nothing was counted. *)
Definition exit_code_step (exit_code : Z) (v : counts) : counts :=
  if ((passed v =? 0) && (failed v =? 0) && (errors v =? 0))%Z then
    if (exit_code =? 0)%Z then set_passed 1 v else set_failed 1 v
  else v.

(** The text ends with a decimal digit. *)
Fixpoint ends_with_digit (s : string) : bool :=
  match s with
  | EmptyString => false
  | String c EmptyString => re.is_digit c
  | String _ rest => ends_with_digit rest
  end.

(** The text has no decimal digit. *)
Definition no_digit (s : string) : bool :=
  py.all_chars (fun c => negb (re.is_digit c)) s.

(** The text has no decimal digit and no opening parenthesis. *)
Definition no_digit_no_paren (s : string) : bool :=
  py.all_chars (fun c => negb (re.is_digit c) && negb (Ascii.eqb "(" c)) s.

(** No pattern of the parser matches anywhere in the output. *)
Definition no_pattern_matches (output : string) : Prop :=
  re.search "(\d+) passed.*?(\d+) failed.*?(\d+) error.*?in ([\d.]+)s"
            true output = None
  /\ re.search "(\d+) passed" false output = None
  /\ re.search "(\d+) failed" false output = None
  /\ re.search "(\d+) errors?" false output = None
  /\ re.search "(\d+) skipped" false output = None
  /\ re.search "in ([\d.]+)s" false output = None
  /\ re.search "Tests:\s*(\d+) passed,\s*(\d+) failed,\s*(\d+) total"
               false output = None
  /\ re.search "(\d+) passed.*?\(([\d.]+)s\)" false output = None.

(** [TestExecutor.parse_test_results] *)
Definition parse_test_results (output : string) (exit_code : Z)
  : py.Outcome types.TestResult.t :=
  v <- pytest_step output (Counts 0 0 0 0 0) ;;
  v <- jest_step output v ;;
  v <- playwright_step output v ;;
  v <- failure_step output v ;;
  let v := exit_code_step exit_code v in
  py.Return
    (types.TestResult.init (passed v) (failed v) (errors v) (skipped v)
                           (duration v) exit_code).

End TestExecutor.

Module DockerExecutor.

Record t : Type := mk
  { base : TestExecutor.t;
    container : string;
    compose_file : string;
    project_name : option string }.

Section WithSystem.

Context {World : Type} (os : System World).

(** The [-e KEY=VALUE] arguments of [_docker_exec]. *)
Definition env_flags (env : option (list (string * string))) : list string :=
  match env with
  | Some e => flat_map (fun kv => ["-e"; fst kv ++ "=" ++ snd kv]) e
  | None => []
  end.

(** The list [docker_cmd] of [_docker_exec]. *)
Definition docker_cmd (self : t) (cmd : string)
    (env : option (list (string * string))) : list string :=
  (["docker"; "compose"; "-f"; compose_file self]
     ++ match project_name self with
        | Some (String _ _ as name) => ["-p"; name]
        | _ => []
        end
     ++ ["exec"; "-T"]
     ++ env_flags env
     ++ [container self]
     ++ ["sh"; "-c"; cmd])%list.

(** What [_docker_exec] asks [subprocess] for. *)
Definition subprocess_call (cmd : string) (timeout : option Z)
    (env : option (list (string * string))) (self : t) : call :=
  Call (Argv (docker_cmd self cmd env))
       (TestExecutor.working_dir (base self)) None timeout.

(** [DockerExecutor._docker_exec] *)
Definition _docker_exec (cmd : string) (timeout : option Z)
    (env : option (list (string * string))) (stream : bool)
    (self : t) (w : World) : ExecutionResult.t * World :=
  let start := time os w in
  let c := subprocess_call cmd timeout env self in
  if stream then
    match popen os c w with
    | (StreamExit lines returncode, w') =>
        (ExecutionResult.mk returncode (String.concat "" lines) ""
           (time os w' - start) cmd, w')
    | (StreamTimeout _, w') =>
        (ExecutionResult.mk 124 ""
           (timed_out_message timeout)
           (time os w' - start) cmd, w')
    | (StreamError _ msg, w') =>
        (ExecutionResult.mk 1 "" msg (time os w' - start) cmd, w')
    end
  else
    match run os c w with
    | (CaptureExit returncode out err, w') =>
        (ExecutionResult.mk returncode out err (time os w' - start) cmd, w')
    | (CaptureTimeout, w') =>
        (ExecutionResult.mk 124 ""
           (timed_out_message timeout)
           (time os w' - start) cmd, w')
    | (CaptureError msg, w') =>
        (ExecutionResult.mk 1 "" msg (time os w' - start) cmd, w')
    end.

(** The [for cmd in command] loop of [execute] with its [break];
    [results] is the list built so far. *)
Fixpoint exec_loop (left : list string) (timeout : option Z)
    (env : option (list (string * string))) (stream : bool)
    (results : list ExecutionResult.t) (self : t) (w : World)
  : list ExecutionResult.t * World :=
  match left with
  | [] => (results, w)
  | cmd :: left' =>
      let '(result, w') := _docker_exec cmd timeout env stream self w in
      let results := py.append results result in
      if negb (ExecutionResult.success result) then (results, w')
      else exec_loop left' timeout env stream results self w'
  end.

(** [results[-1].exit_code if results else 0] *)
Definition last_exit_code (results : list ExecutionResult.t) : Z :=
  match results with
  | [] => 0%Z
  | r :: rest => ExecutionResult.exit_code (List.last rest r)
  end.

(** [[r.stderr for r in results if r.stderr]] *)
Definition nonempty_stderr (results : list ExecutionResult.t) : list string :=
  map ExecutionResult.stderr
      (filter (fun r => match ExecutionResult.stderr r with
                        | EmptyString => false
                        | String _ _ => true
                        end)
              results).

(** [DockerExecutor.execute]; the argument [shell] is not used. *)
Definition execute (c : command) (timeout : option Z)
    (env : option (list (string * string))) (stream shell : bool)
    (self : t) (w : World) : ExecutionResult.t * World :=
  match c with
  | Sequence cmds =>
      let '(results, w') := exec_loop cmds timeout env stream [] self w in
      (ExecutionResult.mk
         (last_exit_code results)
         (py.join newline (map ExecutionResult.stdout results))
         (py.join newline (nonempty_stderr results))
         (TestExecutor.total_duration results 0)
         (py.join " && " cmds),
       w')
  | Single cmd => _docker_exec cmd timeout env stream self w
  end.

(** The results of the commands run in the container one after the other,
    whether they fail or not; used to say what [execute] returns. *)
Fixpoint exec_each (cmds : list string) (timeout : option Z)
    (env : option (list (string * string))) (stream : bool)
    (self : t) (w : World) : list ExecutionResult.t * World :=
  match cmds with
  | [] => ([], w)
  | cmd :: rest =>
      let '(r, w') := _docker_exec cmd timeout env stream self w in
      let '(rs, w'') := exec_each rest timeout env stream self w' in
      (r :: rs, w'')
  end.

End WithSystem.

End DockerExecutor.

End executor.

(* ================================================================== *)
(** * Child processes, as [subprocess] runs them                       *)
(* ================================================================== *)

(** A machine for the system calls of the executors in which a command
    takes time.  It follows the documentation of Python's [subprocess] on
    a POSIX system: reading a pipe comes to its end when the last holder
    of the write end has closed it; [Popen.wait(timeout)] raises
    TimeoutExpired when the child has not exited in time, and leaves the
    child running; [subprocess.run(..., timeout=...)] kills the child it
    started and waits for it before it raises TimeoutExpired.  The kill
    reaches the child that was started, a shell or the docker client, not
    the processes that child started in turn. *)
Module subprocess.

Import executor.

(** A child process as its parent sees it.  [lines] is what the pipe
    delivers line by line when standard error is sent to standard output;
    [out] and [err] are the two texts when they are captured apart.  The
    times are in seconds from the start of the child: [closes_after] is
    when the write end of its output is closed by its last holder and
    [exits_after] is when the child exits.  A command that writes until it
    ends has both at the same time; one that closes its output and goes on
    working has [closes_after] first; one that leaves a process of its own
    behind with the output open has [exits_after] first. *)
Record Process : Type := MkProcess
  { lines : list string;
    out : string;
    err : string;
    closes_after : Q;
    exits_after : Q;
    returncode : Z }.

(** The clock of the machine, the children killed so far, and the children
    that were still running when their parent gave up waiting, latest
    first. *)
Record Machine : Type := MkMachine
  { clock : Q;
    killed : list program;
    left_running : list program }.

Definition later (d : Q) (m : Machine) : Machine :=
  MkMachine (clock m + d) (killed m) (left_running m).

Definition kill (child : program) (m : Machine) : Machine :=
  MkMachine (clock m) (child :: killed m) (left_running m).

Definition leave (child : program) (m : Machine) : Machine :=
  MkMachine (clock m) (killed m) (child :: left_running m).

(** The time spent in a wait that times out; a timeout below zero has
    expired at once. *)
Definition waited (timeout : Z) : Q :=
  if (0 <=? timeout)%Z then inject_Z timeout else 0.

Section WithBehaviour.

(** The child that a call starts.  Every command can be started. *)
Context (behaviour : call -> Process).

(** [subprocess.Popen(...)], the loop over [process.stdout.readline] and
    [process.wait(timeout=timeout)], in this order: the loop returns when
    the output is closed, and the timeout counts from then. *)
Definition popen (c : call) (m : Machine) : streamed * Machine :=
  let p := behaviour c in
  let m := later (closes_after p) m in
  if Qle_bool (exits_after p) (closes_after p) then
    (StreamExit (lines p) (returncode p), m)
  else
    let rest := (exits_after p - closes_after p)%Q in
    match timeout c with
    | None => (StreamExit (lines p) (returncode p), later rest m)
    | Some t =>
        if Qle_bool (exits_after p) (closes_after p + inject_Z t)
        then (StreamExit (lines p) (returncode p), later rest m)
        else (StreamTimeout (lines p), leave (what c) (later (waited t) m))
    end.

(** [subprocess.run(..., capture_output=True, timeout=timeout)]: the
    timeout counts from the start of the child and covers its output and
    its exit. *)
Definition run (c : call) (m : Machine) : captured * Machine :=
  let p := behaviour c in
  let ends := if Qle_bool (exits_after p) (closes_after p)
              then closes_after p else exits_after p in
  match timeout c with
  | None => (CaptureExit (returncode p) (out p) (err p), later ends m)
  | Some t =>
      if Qle_bool ends (inject_Z t)
      then (CaptureExit (returncode p) (out p) (err p), later ends m)
      else (CaptureTimeout, kill (what c) (later (waited t) m))
  end.

(** The system calls on this machine; every directory exists and the
    environment is empty. *)
Definition system : System Machine :=
  MkSystem Machine (fun _ _ => true) clock (fun _ => []) popen run.

End WithBehaviour.

End subprocess.

(* ================================================================== *)
(** * [systemeval/utils/commands.py]                                   *)
(* ================================================================== *)

Module commands.

(** [s.startswith(prefix)] *)
Definition startswith (s prefix : string) : bool := String.prefix prefix s.

(** [needle in hay] for two strings, as a test. *)
Fixpoint has (hay needle : string) : bool :=
  String.prefix needle hay
  || match hay with
     | EmptyString => false
     | String _ rest => has rest needle
     end.

(** [if x:] for an optional string: the string when it is there and not
    empty. *)
Definition given (x : option string) : option string :=
  match x with
  | Some (String _ _ as s) => Some s
  | _ => None
  end.

(** The branch for a script, a command that starts with "./" or "/". *)
Definition script_command (cmd : string) (suite category : option string)
    (verbose : bool) : string :=
  let cmd := match given suite with
             | Some suite => "SUITE=" ++ suite ++ " " ++ cmd
             | None => cmd
             end in
  let cmd := match given category with
             | Some category => "CATEGORY=" ++ category ++ " " ++ cmd
             | None => cmd
             end in
  if verbose then cmd ++ " -v" else cmd.

(** The branch for the test frameworks. *)
Definition framework_command (cmd : string) (suite category : option string)
    (verbose : bool) : string :=
  if has cmd "pytest" then
    let cmd := match given suite with
               | Some suite => cmd ++ " -m " ++ suite
               | None => cmd
               end in
    let cmd := match given category with
               | Some category => cmd ++ " -m " ++ category
               | None => cmd
               end in
    if verbose && negb (has cmd "-v") then cmd ++ " -v" else cmd
  else if has cmd "npm test" || has cmd "jest" then
    match given suite with
    | Some suite => cmd ++ " --testPathPattern=" ++ suite
    | None => cmd
    end
  else if has cmd "playwright" then
    match given suite with
    | Some suite => cmd ++ " --grep " ++ suite
    | None => cmd
    end
  else cmd.

(** [build_test_command] *)
Definition build_test_command (base_command : executor.command)
    (suite category : option string) (verbose : bool) : executor.command :=
  match base_command with
  | executor.Sequence cmds => executor.Sequence cmds
  | executor.Single cmd =>
      if startswith cmd "./" || startswith cmd "/"
      then executor.Single (script_command cmd suite category verbose)
      else executor.Single (framework_command cmd suite category verbose)
  end.

End commands.

(* ================================================================== *)
(** * [systemeval/utils/retry.py]                                      *)
(* ================================================================== *)

Module retry.

Module RetryConfig.

(** The numbers of [RetryConfig], a finite float being held as the
    rational it stands for; the tuple [exceptions] is given to the
    functions below as the test [caught] it is used for. *)
Record t : Type := mk
  { max_attempts : Z;
    initial_delay : Q;
    max_delay : Q;
    exponential_base : Q }.

(** [RetryConfig()] *)
Definition default : t := mk 3 1 60 2.

End RetryConfig.

(** [range(n)] *)
Definition range (n : Z) : list Z := map Z.of_nat (seq 0 (Z.to_nat n)).

(** How a call of a retried function ends: with a value, with [None]
    because the end of the body was reached, or with an exception;
    [UnboundLocalError] is the one Python raises for a local variable
    read before it was assigned. *)
Inductive Result (A E : Type) : Type :=
| Returned (a : A)
| ReturnedNone
| Raised (e : E)
| UnboundLocalError.
Arguments Returned {A E} a.
Arguments ReturnedNone {A E}.
Arguments Raised {A E} e.
Arguments UnboundLocalError {A E}.

Section WithFunction.

(** The function that is retried, over a state [World] of the machine: it
    returns a value or raises an exception of the type [E], which holds
    the exceptions of the library as well.  [caught e] tells whether [e]
    is an instance of one of [config.exceptions].

    [pause config attempt] stands for the lines from
    [delay = config.calculate_delay(attempt)] to [time.sleep(delay)] as
    the machine performs them.  The arithmetic on floats is not modelled:
    the lines end, or one of them raises, as
    [exponential_base ** attempt] does with OverflowError when the power
    is out of the range of a float and [time.sleep] does with ValueError
    for a negative delay.

    The log line of the last attempt is not modelled: [func] is taken to
    be a function with a [__name__], as one made by [def] is, and its
    exceptions to have a text, so that the line can be written.  The
    argument [condition] of [retry_on_condition] is taken to answer
    without raising. *)
Context {World A E : Type}.
Context (func : World -> (A + E) * World).
Context (caught : E -> bool).
Context (pause : RetryConfig.t -> Z -> World -> option E * World).

(** The loop [for attempt in range(config.max_attempts)] of
    [execute_with_retry] and of the wrapper of [retry_with_backoff], over
    the attempts left, and the lines after it.  An exception raised
    during the pause leaves the handler it is raised in. *)
Fixpoint backoff_loop (config : RetryConfig.t) (attempts : list Z)
    (last_exception : option E) (w : World) : Result A E * World :=
  match attempts with
  | [] =>
      match last_exception with
      | Some e => (Raised e, w)
      | None => (ReturnedNone, w)
      end
  | attempt :: rest =>
      match func w with
      | (inl a, w) => (Returned a, w)
      | (inr e, w) =>
          if caught e then
            if (attempt + 1 >=? RetryConfig.max_attempts config)%Z
            then (Raised e, w)
            else
              match pause config attempt w with
              | (Some raised, w) => (Raised raised, w)
              | (None, w) => backoff_loop config rest (Some e) w
              end
          else (Raised e, w)
      end
  end.

(** [execute_with_retry] *)
Definition execute_with_retry (config : option RetryConfig.t) (w : World)
  : Result A E * World :=
  let config := match config with
                | Some c => c
                | None => RetryConfig.default
                end in
  backoff_loop config (range (RetryConfig.max_attempts config)) None w.

(** The wrapper that [retry_with_backoff] puts around [func]. *)
Definition retry_with_backoff (max_attempts : Z)
    (initial_delay max_delay exponential_base : Q) (w : World)
  : Result A E * World :=
  let config :=
    RetryConfig.mk max_attempts initial_delay max_delay exponential_base in
  backoff_loop config (range (RetryConfig.max_attempts config)) None w.

(** The loop of the wrapper of [retry_on_condition] and the [return
    result] after it; [result] is the local variable, unassigned before
    the first call.  An exception of [func] or of the pause is not
    caught. *)
Fixpoint condition_loop (condition : A -> bool) (config : RetryConfig.t)
    (attempts : list Z) (result : option A) (w : World)
  : Result A E * World :=
  match attempts with
  | [] =>
      match result with
      | Some a => (Returned a, w)
      | None => (UnboundLocalError, w)
      end
  | attempt :: rest =>
      match func w with
      | (inr e, w) => (Raised e, w)
      | (inl result, w) =>
          if negb (condition result) then (Returned result, w)
          else if (attempt + 1 >=? RetryConfig.max_attempts config)%Z
          then (Returned result, w)
          else
            match pause config attempt w with
            | (Some raised, w) => (Raised raised, w)
            | (None, w) =>
                condition_loop condition config rest (Some result) w
            end
      end
  end.

(** The wrapper that [retry_on_condition] puts around [func]. *)
Definition retry_on_condition (condition : A -> bool) (max_attempts : Z)
    (initial_delay max_delay exponential_base : Q) (w : World)
  : Result A E * World :=
  let config :=
    RetryConfig.mk max_attempts initial_delay max_delay exponential_base in
  condition_loop condition config (range (RetryConfig.max_attempts config))
                 None w.

(** The machine after [k] attempts that were followed by a new attempt,
    the first of them with the number [attempt]: each is a call of [func]
    and the pause before the next. *)
Fixpoint after_retries (config : RetryConfig.t) (k : nat) (attempt : Z)
    (w : World) : World :=
  match k with
  | O => w
  | S k' =>
      after_retries config k' (attempt + 1)%Z
        (snd (pause config attempt (snd (func w))))
  end.

End WithFunction.

End retry.

(* ================================================================== *)
(** * [systemeval/config.py]                                           *)
(* ================================================================== *)

Module config.

Record HealthCheckConfig : Type := MkHealthCheckConfig
  { hc_service : string;
    hc_endpoint : string;
    hc_port : Z;
    hc_timeout : Z }.

Record NgrokConfig : Type := MkNgrokConfig
  { ng_auth_token : option string;
    ng_port : Z;
    ng_region : string }.

(** The fields of the base class [EnvironmentConfig] besides [type]. *)
Record EnvironmentConfig : Type := MkEnvironmentConfig
  { test_command : string;
    working_dir : string;
    default : bool }.

(** [AnyEnvironmentConfig], the union of the five environment classes. *)
Inductive AnyEnvironmentConfig : Type :=
| StandaloneEnvConfig (common : EnvironmentConfig) (command ready_pattern : string)
    (port : Z) (env : list (string * string))
| DockerComposeEnvConfig (common : EnvironmentConfig) (compose_file : string)
    (services : list string) (test_service : string)
    (health_check : option HealthCheckConfig) (project_name : option string)
    (skip_build : bool)
| CompositeEnvConfig (common : EnvironmentConfig) (depends_on : list string)
| NgrokEnvConfig (common : EnvironmentConfig) (port : Z)
    (auth_token : option string) (region : string)
| BrowserEnvConfig (common : EnvironmentConfig)
    (server : option (list (string * py.value))) (tunnel : option NgrokConfig)
    (test_runner : string).

(** The field [type], which each class fixes. *)
Definition type (c : AnyEnvironmentConfig) : string :=
  match c with
  | StandaloneEnvConfig _ _ _ _ _ => "standalone"
  | DockerComposeEnvConfig _ _ _ _ _ _ _ => "docker-compose"
  | CompositeEnvConfig _ _ => "composite"
  | NgrokEnvConfig _ _ _ _ => "ngrok"
  | BrowserEnvConfig _ _ _ _ => "browser"
  end.

(** A dictionary of environments, in insertion order. *)
Definition environments_dict : Type := list (string * AnyEnvironmentConfig).

(** [name in environments] *)
Definition has_key (name : string) (environments : environments_dict) : bool :=
  existsb (fun kv => String.eqb name (fst kv)) environments.

Module SystemEvalConfig.

Record t : Type := mk
  { adapter : string;
    project_root : string;
    test_directory : string;
    project_name : option string;
    environments : environments_dict }.

(** The loop [for dep in deps] of [validate_composite_deps]. *)
Fixpoint check_deps (name : string) (deps : list string)
    (all : environments_dict) : py.Outcome unit :=
  match deps with
  | [] => py.Return tt
  | dep :: rest =>
      if has_key dep all then check_deps name rest all
      else py.Raise
             (py.ValueError ("Environment '" ++ name ++ "' depends on '"
                               ++ dep ++ "' which is not defined"))
  end.

(** The loop [for name, env_config in self.environments.items()]. *)
Fixpoint check_items (items all : environments_dict) : py.Outcome unit :=
  match items with
  | [] => py.Return tt
  | (name, env_config) :: rest =>
      _ <- (if String.eqb (type env_config) "composite" then
              match env_config with
              | CompositeEnvConfig _ deps => check_deps name deps all
              | _ => py.Return tt
              end
            else py.Return tt) ;;
      check_items rest all
  end.

(** [SystemEvalConfig.validate_composite_deps] *)
Definition validate_composite_deps (self : t) : py.Outcome t :=
  _ <- check_items (environments self) (environments self) ;;
  py.Return self.

(** [SystemEvalConfig.validate_adapter]; [allowed_adapters] is the result
    of [list_adapters()]. *)
Definition validate_adapter (allowed_adapters : list string) (v : string)
  : py.Outcome string :=
  match allowed_adapters with
  | [] => py.Return v
  | _ :: _ =>
      if existsb (String.eqb v) allowed_adapters then py.Return v
      else py.Raise (py.ValueError ("Adapter '" ++ v ++ "' not registered."))
  end.

(** [SystemEvalConfig(adapter=..., ..., environments=...)]: the field
    validators, then the model validator.  The environments are given as
    typed configurations. *)
Definition create (allowed_adapters : list string) (fields : t)
  : py.Outcome t :=
  _ <- validate_adapter allowed_adapters (adapter fields) ;;
  validate_composite_deps fields.

End SystemEvalConfig.

(** ** The dependency graph of a set of environments *)

(** [a] is a composite environment that lists [b] in [depends_on]. *)
Definition depends_on_edge (all : environments_dict) (a b : string) : Prop :=
  exists common deps, In (a, CompositeEnvConfig common deps) all /\ In b deps.

(** A chain of dependencies from [a] to [b], of one step or more. *)
Inductive depends_path (all : environments_dict) : string -> string -> Prop :=
| path_step a b : depends_on_edge all a b -> depends_path all a b
| path_more a b c :
    depends_on_edge all a b -> depends_path all b c -> depends_path all a c.

Definition cyclic (all : environments_dict) : Prop :=
  exists a, depends_path all a a.

(** Every name a composite environment depends on is a key. *)
Definition deps_defined (all : environments_dict) : Prop :=
  forall a b, depends_on_edge all a b -> has_key b all = true.

(** ** Looking for the configuration file *)

(** A path as [pathlib] holds it: the anchor ("/" for an absolute path,
    the empty string for a relative one) and the parts after it. *)
Record Path : Type := MkPath
  { anchor : string;
    parts : list string }.

(** [p == q] *)
Definition Path_eq_dec (p q : Path) : {p = q} + {p <> q}.
Proof.
  decide equality.
  - apply (list_eq_dec string_dec).
  - apply string_dec.
Defined.

(** [p.parent]: the path without its last part; the parent of a path
    without parts is the path itself. *)
Definition parent (p : Path) : Path := MkPath (anchor p) (removelast (parts p)).

(** [p / name] for a single relative name. *)
Definition joinpath (p : Path) (name : string) : Path :=
  MkPath (anchor p) (parts p ++ [name])%list.

(** The body of [for _ in range(n)] in [find_config_file]; [exists_] is
    [Path.exists] on the machine. *)
Fixpoint search_up (exists_ : Path -> bool) (n : nat) (current : Path)
  : option Path :=
  match n with
  | O => None
  | S n' =>
      let config_path := joinpath current "systemeval.yaml" in
      if exists_ config_path then Some config_path
      else
        let parent := parent current in
        if Path_eq_dec parent current then None
        else search_up exists_ n' parent
  end.

(** [find_config_file]; [cwd] is the value of [Path.cwd()]. *)
Definition find_config_file (exists_ : Path -> bool) (cwd : Path)
    (start_path : option Path) : option Path :=
  let current := match start_path with Some p => p | None => cwd end in
  search_up exists_ 5 current.

(** The directory [k] levels above [p]. *)
Fixpoint ancestor (k : nat) (p : Path) : Path :=
  match k with
  | O => p
  | S k' => ancestor k' (parent p)
  end.

End config.

(* ================================================================== *)
(** * [systemeval/environments/docker_compose.py]                      *)
(* ================================================================== *)

Module docker_compose.

(** [HealthCheckConfig] of the Docker manager. *)
Record HealthCheckConfig : Type := MkHealthCheckConfig
  { service : string;
    endpoint : string;
    port : Z;
    timeout : Z }.

(** What the environment reads of the result of [docker.build]: its
    [success], its [duration] and the text of its [error]. *)
Record BuildResult : Type := MkBuildResult
  { build_success : bool;
    build_duration : Q;
    build_error : string }.

(** What the environment reads of the result of [docker.up]. *)
Record CommandResult : Type := MkCommandResult
  { up_success : bool;
    up_duration : Q;
    up_stderr : string }.

(** The calls made on [DockerResourceManager], over a state [World] of
    the machine.  The class is outside the sources read here; nothing is
    assumed about what its methods do. *)
Record Manager (World : Type) : Type := MkManager
  { install_signal_handlers : World -> World;
    restore_signal_handlers : World -> World;
    build : option (list string) -> World -> BuildResult * World;
    up : option (list string) -> World -> CommandResult * World;
    down : World -> World;
    is_healthy : string -> World -> bool * World;
    wait_healthy : HealthCheckConfig -> World -> bool * World }.
Arguments install_signal_handlers {World}.
Arguments restore_signal_handlers {World}.
Arguments build {World}.
Arguments up {World}.
Arguments down {World}.
Arguments is_healthy {World}.
Arguments wait_healthy {World}.

(** [SetupResult]; [details] holds the success and the duration of each
    phase under its name. *)
Record SetupResult : Type := MkSetupResult
  { success : bool;
    message : string;
    duration : Q;
    details : list (string * (bool * Q)) }.

(** The timings recorded by the environment. *)
Record Timings : Type := MkTimings
  { t_build : Q;
    t_startup : Q;
    t_health_check : Q;
    t_tests : Q;
    t_cleanup : Q }.

Module DockerComposeEnvironment.

(** The fields of the environment; [test_timeout] and [test_env] are the
    entries of [self.config] read by [run_tests], and [working_dir] holds
    [str(self.working_dir)]. *)
Record t : Type := mk
  { compose_file : string;
    services : list string;
    test_service : string;
    test_command : executor.command;
    working_dir : string;
    skip_build : bool;
    project_name : option string;
    health_config : HealthCheckConfig;
    test_timeout : option Z;
    test_env : list (string * string);
    timings : Timings;
    _is_up : bool }.

Definition set_is_up (b : bool) (self : t) : t :=
  mk (compose_file self) (services self) (test_service self)
     (test_command self) (working_dir self) (skip_build self)
     (project_name self) (health_config self) (test_timeout self)
     (test_env self) (timings self) b.

Definition set_timings (tm : Timings) (self : t) : t :=
  mk (compose_file self) (services self) (test_service self)
     (test_command self) (working_dir self) (skip_build self)
     (project_name self) (health_config self) (test_timeout self)
     (test_env self) tm (_is_up self).

Definition set_build (d : Q) (tm : Timings) : Timings :=
  MkTimings d (t_startup tm) (t_health_check tm) (t_tests tm) (t_cleanup tm).
Definition set_startup (d : Q) (tm : Timings) : Timings :=
  MkTimings (t_build tm) d (t_health_check tm) (t_tests tm) (t_cleanup tm).
Definition set_health_check (d : Q) (tm : Timings) : Timings :=
  MkTimings (t_build tm) (t_startup tm) d (t_tests tm) (t_cleanup tm).
Definition set_tests (d : Q) (tm : Timings) : Timings :=
  MkTimings (t_build tm) (t_startup tm) (t_health_check tm) d (t_cleanup tm).
Definition set_cleanup (d : Q) (tm : Timings) : Timings :=
  MkTimings (t_build tm) (t_startup tm) (t_health_check tm) (t_tests tm) d.

(** [self.services if self.services else None] *)
Definition services_or_none (self : t) : option (list string) :=
  match services self with
  | [] => None
  | _ :: _ => Some (services self)
  end.

(** [f"Started {len(self.services) or 'all'} services"] *)
Definition started_message (self : t) : string :=
  "Started "
  ++ match services self with
     | [] => "all"
     | _ :: _ => py.str_of_int (Z.of_nat (length (services self)))
     end
  ++ " services".

(** [DockerComposeEnvironment._build_test_command] *)
Definition _build_test_command (suite category : option string)
    (verbose : bool) (self : t) : executor.command :=
  match test_command self with
  | executor.Sequence cmds => executor.Sequence cmds
  | executor.Single cmd =>
      if commands.startswith cmd "./" || commands.startswith cmd "/" then
        let cmd := match commands.given suite with
                   | Some suite => "SUITE=" ++ suite ++ " " ++ cmd
                   | None => cmd
                   end in
        let cmd := match commands.given category with
                   | Some category => "CATEGORY=" ++ category ++ " " ++ cmd
                   | None => cmd
                   end in
        executor.Single (if verbose then cmd ++ " -v" else cmd)
      else if commands.has cmd "pytest" then
        let cmd := match commands.given suite with
                   | Some suite => cmd ++ " -m " ++ suite
                   | None => cmd
                   end in
        let cmd := match commands.given category with
                   | Some category => cmd ++ " -m " ++ category
                   | None => cmd
                   end in
        executor.Single
          (if verbose && negb (commands.has cmd "-v") then cmd ++ " -v"
           else cmd)
      else if commands.has cmd "npm test" || commands.has cmd "jest" then
        executor.Single
          match commands.given suite with
          | Some suite => cmd ++ " --testPathPattern=" ++ suite
          | None => cmd
          end
      else if commands.has cmd "playwright" then
        executor.Single
          match commands.given suite with
          | Some suite => cmd ++ " --grep " ++ suite
          | None => cmd
          end
      else executor.Single cmd
  end.

(** [DockerComposeEnvironment._parse_test_output] *)
Definition _parse_test_output (output : string) (exit_code : Z) (self : t)
  : py.Outcome types.TestResult.t :=
  let v := executor.TestExecutor.Counts 0 0 0 0 (t_tests (timings self)) in
  v <- executor.TestExecutor.when_int "(\d+) passed" output
         executor.TestExecutor.set_passed v ;;
  v <- executor.TestExecutor.when_int "(\d+) failed" output
         executor.TestExecutor.set_failed v ;;
  v <- executor.TestExecutor.when_int "(\d+) error" output
         executor.TestExecutor.set_errors v ;;
  v <- executor.TestExecutor.when_int "(\d+) skipped" output
         executor.TestExecutor.set_skipped v ;;
  v <- match re.search "in ([\d.]+)s" false output with
       | Some m => d <- builtins.float (re.group m 1) ;;
                   py.Return (executor.TestExecutor.set_duration d v)
       | None => py.Return v
       end ;;
  py.Return
    (types.TestResult.init
       (executor.TestExecutor.passed v) (executor.TestExecutor.failed v)
       (executor.TestExecutor.errors v) (executor.TestExecutor.skipped v)
       (executor.TestExecutor.duration v) exit_code).

(** The executor [run_tests] creates. *)
Definition test_executor (verbose : bool) (self : t)
  : executor.DockerExecutor.t :=
  executor.DockerExecutor.mk
    (executor.TestExecutor.mk (working_dir self) [] verbose [])
    (test_service self) (compose_file self) (project_name self).

Section WithDocker.

Context {World : Type} (os : executor.System World) (docker : Manager World).

(** [DockerComposeEnvironment.setup] *)
Definition setup (self : t) (w : World) : SetupResult * t * World :=
  let total_start := executor.time os w in
  let w := install_signal_handlers docker w in
  let built :=
    if negb (skip_build self) then
      let build_start := executor.time os w in
      let '(build_result, w) := build docker (services_or_none self) w in
      let self :=
        set_timings (set_build (executor.time os w - build_start)
                               (timings self)) self in
      let details :=
        [("build", (build_success build_result, build_duration build_result))]
      in
      if negb (build_success build_result) then
        inl (MkSetupResult false
               ("Build failed: " ++ build_error build_result)
               (executor.time os w - total_start) details,
             self, w)
      else inr (details, self, w)
    else inr ([], self, w) in
  match built with
  | inl failed => failed
  | inr (details, self, w) =>
      let startup_start := executor.time os w in
      let '(up_result, w) := up docker (services_or_none self) w in
      let self :=
        set_timings (set_startup (executor.time os w - startup_start)
                                 (timings self)) self in
      let details :=
        py.append details
                  ("startup", (up_success up_result, up_duration up_result)) in
      if negb (up_success up_result) then
        (MkSetupResult false
           ("Failed to start containers: " ++ up_stderr up_result)
           (executor.time os w - total_start) details,
         self, w)
      else
        let self := set_is_up true self in
        (MkSetupResult true (started_message self)
           (executor.time os w - total_start) details,
         self, w)
  end.

(** [DockerComposeEnvironment.is_ready] *)
Definition is_ready (self : t) (w : World) : bool * World :=
  if negb (_is_up self) then (false, w)
  else is_healthy docker (service (health_config self)) w.

(** [DockerComposeEnvironment.wait_ready]; printing the progress is not
    modelled. *)
Definition wait_ready (timeout : Z) (self : t) (w : World)
  : bool * t * World :=
  if negb (_is_up self) then (false, self, w)
  else
    let start := executor.time os w in
    let config :=
      MkHealthCheckConfig (service (health_config self))
                          (endpoint (health_config self))
                          (port (health_config self)) timeout in
    let '(result, w) := wait_healthy docker config w in
    (result,
     set_timings (set_health_check (executor.time os w - start)
                                   (timings self)) self,
     w).

(** [DockerComposeEnvironment.run_tests] *)
Definition run_tests (suite category : option string) (verbose : bool)
    (self : t) (w : World) : py.Outcome types.TestResult.t * t * World :=
  if negb (_is_up self) then
    (py.Return (types.TestResult.init 0 0 1 0 0 2), self, w)
  else
    let start := executor.time os w in
    let ex := test_executor verbose self in
    let command := _build_test_command suite category verbose self in
    let '(result, w) :=
      executor.DockerExecutor.execute os command (test_timeout self)
        (Some (test_env self)) true true ex w in
    let self :=
      set_timings (set_tests (executor.time os w - start) (timings self))
                  self in
    (executor.TestExecutor.parse_test_results
       (executor.ExecutionResult.stdout result)
       (executor.ExecutionResult.exit_code result),
     self, w).

(** [DockerComposeEnvironment._cleanup] *)
Definition _cleanup (self : t) (w : World) : t * World :=
  if _is_up self then (set_is_up false self, down docker w) else (self, w).

(** [DockerComposeEnvironment.teardown] *)
Definition teardown (keep_running : bool) (self : t) (w : World)
  : t * World :=
  let start := executor.time os w in
  let '(self, w) :=
    if _is_up self && negb keep_running
    then (set_is_up false self, down docker w)
    else (self, w) in
  let w := restore_signal_handlers docker w in
  (set_timings (set_cleanup (executor.time os w - start) (timings self)) self,
   w).

End WithDocker.

End DockerComposeEnvironment.

End docker_compose.

(* ================================================================== *)
(** * [systemeval/environments/browser.py]                             *)
(* ================================================================== *)

Module browser.

(** A child environment (the server or the tunnel) over a state [World] of
    the machine: its [wait_ready(timeout)] and its [is_ready()]. *)
Record Environment (World : Type) : Type := MkEnvironment
  { wait_ready : Z -> World -> bool * World;
    is_ready : World -> bool }.
Arguments wait_ready {World}.
Arguments is_ready {World}.

(** [int(x)] for a float: the integer towards zero. *)
Definition int (x : Q) : Z := Z.quot (Qnum x) (Z.pos (Qden x)).

Module BrowserEnvironment.

Record t (World : Type) : Type := mk
  { _server : option (Environment World);
    _tunnel : option (Environment World);
    timings_health_check : Q }.
Arguments mk {World}.
Arguments _server {World}.
Arguments _tunnel {World}.
Arguments timings_health_check {World}.

Section WithClock.

Context {World : Type} (time : World -> Q).

(** The part of [wait_ready] under [if self._server]: [None] when the
    method returns [False] there, else the budget left. *)
Definition server_phase (self : t World) (remaining : Q) (w : World)
  : option Q * World :=
  match _server self with
  | Some server =>
      let server_start := time w in
      let (ready, w') := wait_ready server (int remaining) w in
      if negb ready then (None, w')
      else (Some (remaining - (time w' - server_start))%Q, w')
  | None => (Some remaining, w)
  end.

(** The part of [wait_ready] under [if self._tunnel and remaining > 0]. *)
Definition tunnel_phase (self : t World) (remaining : Q) (w : World)
  : option Q * World :=
  match _tunnel self with
  | Some tunnel =>
      if negb (Qle_bool remaining 0) then
        let tunnel_start := time w in
        let (ready, w') := wait_ready tunnel (int remaining) w in
        if negb ready then (None, w')
        else (Some (remaining - (time w' - tunnel_start))%Q, w')
      else (Some remaining, w)
  | None => (Some remaining, w)
  end.

(** [BrowserEnvironment.wait_ready] *)
Definition wait_ready (timeout : Z) (self : t World) (w : World)
  : bool * t World * World :=
  let start := time w in
  let remaining := inject_Z timeout in
  match server_phase self remaining w with
  | (None, w1) => (false, self, w1)
  | (Some remaining, w1) =>
      match tunnel_phase self remaining w1 with
      | (None, w2) => (false, self, w2)
      | (Some remaining, w2) =>
          (true, mk (_server self) (_tunnel self) (time w2 - start)%Q, w2)
      end
  end.

(** [BrowserEnvironment.is_ready] *)
Definition is_ready (self : t World) (w : World) : bool :=
  let server_ready :=
    match _server self with Some s => browser.is_ready s w | None => true end in
  let tunnel_ready :=
    match _tunnel self with Some t => browser.is_ready t w | None => true end in
  server_ready && tunnel_ready.

End WithClock.

End BrowserEnvironment.

(** ** Starting and stopping the children

    [BrowserEnvironment.setup] and [BrowserEnvironment.teardown] read
    [self._server], [self._tunnel], [self.test_runner] and the clock; each
    child is seen here through the two methods they call on it. *)

(** [SetupResult]; [details] holds the success, the message and the
    duration of each child under its name. *)
Record SetupResult : Type := MkSetupResult
  { success : bool;
    message : string;
    duration : Q;
    details : list (string * (bool * string * Q)) }.

Record Child (World : Type) : Type := MkChild
  { child_setup : World -> SetupResult * World;
    child_teardown : bool -> World -> World }.
Arguments child_setup {World}.
Arguments child_teardown {World}.

Module Lifecycle.

Section WithClock.

Context {World : Type} (time : World -> Q).

(** The entry of [details] for the result of a child. *)
Definition detail (result : SetupResult) : bool * string * Q :=
  (success result, message result, duration result).

(** [BrowserEnvironment.setup]: the result, the new value of
    [self.timings.startup] when it is set, and the machine. *)
Definition setup (_server _tunnel : option (Child World))
    (test_runner : string) (w : World) : SetupResult * option Q * World :=
  let total_start := time w in
  let served :=
    match _server with
    | Some server =>
        let '(result, w) := child_setup server w in
        let details := [("server", detail result)] in
        if negb (success result) then
          inl (MkSetupResult false
                 ("Server failed to start: " ++ message result)
                 (time w - total_start) details,
               w)
        else inr (details, w)
    | None => inr ([], w)
    end in
  match served with
  | inl (failed, w) => (failed, None, w)
  | inr (details, w) =>
      let tunnelled :=
        match _tunnel with
        | Some tunnel =>
            let '(result, w) := child_setup tunnel w in
            let details := py.append details ("tunnel", detail result) in
            if negb (success result) then
              let w := match _server with
                       | Some server => child_teardown server false w
                       | None => w
                       end in
              inl (MkSetupResult false
                     ("Tunnel failed to start: " ++ message result)
                     (time w - total_start) details,
                   w)
            else inr (details, w)
        | None => inr (details, w)
        end in
      match tunnelled with
      | inl (failed, w) => (failed, None, w)
      | inr (details, w) =>
          let startup := (time w - total_start)%Q in
          (MkSetupResult true
             ("Browser environment ready (runner: " ++ test_runner ++ ")")
             startup details,
           Some startup, w)
      end
  end.

(** [BrowserEnvironment.teardown]: the new value of
    [self.timings.cleanup] and the machine. *)
Definition teardown (_server _tunnel : option (Child World))
    (keep_running : bool) (w : World) : Q * World :=
  let start := time w in
  let w := match _tunnel with
           | Some tunnel => child_teardown tunnel keep_running w
           | None => w
           end in
  let w := match _server with
           | Some server => child_teardown server keep_running w
           | None => w
           end in
  (time w - start, w).

End WithClock.

End Lifecycle.

End browser.

(* ================================================================== *)
(** * Sample objects                                                   *)
(* ================================================================== *)

Module samples.

Import evaluation.

(** [metric("count", v, ">0", passed)] *)
Definition count_metric (v : py.value) (passed : bool) : MetricResult.t :=
  MetricResult.mk "count" v (py.Str ">0") passed None "error" [].

(** A session named "tests" with the given metrics. *)
Definition tests_session (ms : list MetricResult.t) : SessionResult.t :=
  SessionResult.mk "0001" "tests" ms (Some "2024-01-01T00:00:00+00:00") None 0
                   "" "" [] [].

(** What [create_evaluation("pytest")] makes at a given time on a given
    host, with the given sessions added. *)
Definition pytest_evaluation (started : Q) (timestamp hostname : string)
    (ss : list SessionResult.t) : EvaluationResult.t :=
  EvaluationResult.mk
    (EvaluationMetadata.mk "6f1c" "" timestamp 0 [("hostname", hostname)]
                           "1.0.0" "pytest" None None None)
    ss [] [] started false.

(** A Linux host in a git checkout, and the values of the calls made by
    one [to_evaluation]. *)
Definition linux_host : Host :=
  MkHost (Some "0123456789abcdef0123456789abcdef01234567") (Some "main")
         "ci-1" (3, 11, 4)%Z "linux".

Definition calls : types.TestResult.Calls :=
  types.TestResult.MkCalls linux_host "6f1c" "2024-01-01T00:00:00+00:00" 100
                           "0001" "2024-01-01T00:00:00+00:00" 101.

Definition passing_session : SessionResult.t :=
  tests_session [count_metric (py.Int 10) true].

Definition failing_session : SessionResult.t :=
  tests_session [count_metric (py.Int 10) true; count_metric (py.Int 0) false].

Definition empty_session : SessionResult.t := tests_session [].

(** A machine whose state is the list of the command lines run so far.
    "exit N" ends with the code N, "sleep 10" runs into the timeout when
    there is one, "echo X" prints X. *)
Definition logged (c : executor.call) (w : list string) : list string :=
  match executor.what c with
  | executor.Shell line | executor.Split line => py.append w line
  | executor.Argv args => py.append w (py.join " " args)
  end.

Definition shell_line (c : executor.call) : string :=
  match executor.what c with
  | executor.Shell line | executor.Split line => line
  | executor.Argv args => List.last args ""
  end.

Definition capture (c : executor.call) : executor.captured :=
  let line := shell_line c in
  if String.eqb line "exit 1" then executor.CaptureExit 1 "" ""
  else if String.eqb line "exit 124" then executor.CaptureExit 124 "" ""
  else if String.eqb line "sleep 10" then
    match executor.timeout c with
    | Some _ => executor.CaptureTimeout
    | None => executor.CaptureExit 0 "" ""
    end
  else if String.eqb (substring 0 5 line) "echo " then
    executor.CaptureExit 0 (substring 5 (String.length line) line
                              ++ executor.newline) ""
  else executor.CaptureExit 127 "" "command not found".

(** The same command read line by line.  The pipe is read to its end
    before the wait, so each of these commands has ended by itself when
    the wait begins, whatever the timeout: "sleep 10" ends with the code
    0. *)
Definition stream_of (c : executor.call) : executor.streamed :=
  match capture (executor.Call (executor.what c) (executor.cwd c)
                               (executor.env c) None) with
  | executor.CaptureExit rc out _ => executor.StreamExit [out] rc
  | executor.CaptureTimeout => executor.StreamExit [] 0
  | executor.CaptureError msg => executor.StreamError [] msg
  end.

Definition machine : executor.System (list string) :=
  executor.MkSystem (list string)
    (fun _ _ => true)
    (fun w => inject_Z (Z.of_nat (List.length w)))
    (fun _ => [("PATH", "/usr/bin")])
    (fun c w => (stream_of c, logged c w))
    (fun c w => (capture c, logged c w)).

(** The children on the machine with a clock: "sleep 10" takes ten
    seconds and prints nothing; "exec >&- 2>&-; sleep 10" closes its
    output at once and then takes ten seconds; every other command prints
    "ok" and ends at once. *)
Definition child (c : executor.call) : subprocess.Process :=
  let line := shell_line c in
  if String.eqb line "sleep 10" then
    subprocess.MkProcess [] "" "" 10 10 0
  else if String.eqb line "exec >&- 2>&-; sleep 10" then
    subprocess.MkProcess [] "" "" 0 10 0
  else
    subprocess.MkProcess ["ok" ++ executor.newline]
                         ("ok" ++ executor.newline) "" 0 0 0.

Definition idle : subprocess.Machine := subprocess.MkMachine 0 [] [].

Definition local_executor : executor.TestExecutor.t :=
  executor.TestExecutor.mk "." [] false [].

(** The same machine with the directory "." only, and an executor that
    was given a directory that is not there. *)
Definition small_machine : executor.System (list string) :=
  executor.MkSystem (list string)
    (fun path _ => String.eqb path ".")
    (executor.time machine) (executor.environ machine)
    (executor.popen machine) (executor.run machine).

Definition lost_executor : executor.TestExecutor.t :=
  executor.TestExecutor.mk "/srv/gone" [] false [].

Definition docker_executor : executor.DockerExecutor.t :=
  executor.DockerExecutor.mk local_executor "django" "docker-compose.yml" None.

(** A Docker manager on the sample machine that notes its calls; every
    call succeeds. *)
Definition manager : docker_compose.Manager (list string) :=
  docker_compose.MkManager (list string)
    (fun w => w)
    (fun w => w)
    (fun _ w => (docker_compose.MkBuildResult true 1 "",
                 py.append w "docker build"))
    (fun _ w => (docker_compose.MkCommandResult true 1 "",
                 py.append w "docker up"))
    (fun w => py.append w "docker down")
    (fun _ w => (true, w))
    (fun _ w => (true, w)).

(** A Docker Compose environment that has not been set up, whose test
    command is "sleep 10" with a timeout of one second. *)
Definition compose_env : docker_compose.DockerComposeEnvironment.t :=
  docker_compose.DockerComposeEnvironment.mk
    "docker-compose.yml" [] "django" (executor.Single "sleep 10") "." false
    None (docker_compose.MkHealthCheckConfig "django" "/api/v1/health/" 8000 120)
    (Some 1%Z) [] (docker_compose.MkTimings 0 0 0 0 0) false.

(** A call that fails with "busy" the first two times and returns "done"
    after that, on a machine that counts the calls and notes the pauses;
    and a call that never comes back with anything but "busy". *)
Definition flaky (w : nat * list Z) : (string + string) * (nat * list Z) :=
  (if Nat.ltb (fst w) 2 then inr "busy" else inl "done", (S (fst w), snd w)).

Definition busy (w : nat * list Z) : (string + string) * (nat * list Z) :=
  (inr "busy", (S (fst w), snd w)).

Definition pending (w : nat * list Z) : (string + string) * (nat * list Z) :=
  (inl "pending", (S (fst w), snd w)).

(** A pause that notes the number of the attempt it follows, and raises
    as [time.sleep] does when the initial delay, which is the delay after
    the first attempt, is negative. *)
Definition nap (config : retry.RetryConfig.t) (attempt : Z)
    (w : nat * list Z) : option string * (nat * list Z) :=
  if Qle_bool 0 (retry.RetryConfig.initial_delay config)
  then (None, (fst w, py.append (snd w) attempt))
  else (Some "sleep length must be non-negative", w).

(** A server that starts and a tunnel that does not, on a machine that
    notes what was done to the children. *)
Definition good_server : browser.Child (list string) :=
  browser.MkChild (list string)
    (fun w => (browser.MkSetupResult true "listening" 2 [],
               py.append w "server up"))
    (fun _ w => py.append w "server down").

Definition bad_tunnel : browser.Child (list string) :=
  browser.MkChild (list string)
    (fun w => (browser.MkSetupResult false "no auth token" 1 [],
               py.append w "tunnel failed"))
    (fun _ w => py.append w "tunnel down").

(** The summary line of the specification. *)
Definition summary_line : string := "12 passed, 3 failed, 1 error in 4.5s".

(** The environments of the test suite: "full" depends on "backend" and
    "frontend". *)
Definition plain : config.EnvironmentConfig :=
  config.MkEnvironmentConfig "" "." false.

Definition standalone : config.AnyEnvironmentConfig :=
  config.StandaloneEnvConfig plain "" "" 3000 [].

Definition full_stack : config.SystemEvalConfig.t :=
  config.SystemEvalConfig.mk "pytest" "." "tests" None
    [ ("full", config.CompositeEnvConfig plain ["backend"; "frontend"]);
      ("backend", standalone);
      ("frontend", standalone) ].

(** Two composite environments that depend on each other. *)
Definition two_cycle : config.SystemEvalConfig.t :=
  config.SystemEvalConfig.mk "pytest" "." "tests" None
    [ ("a", config.CompositeEnvConfig plain ["b"]);
      ("b", config.CompositeEnvConfig plain ["a"]) ].

(** A machine with a clock in seconds and the list of the children waited
    on.  The server takes the whole time it is given and is then ready; the
    tunnel is never ready. *)
Definition slow_server : browser.Environment (Z * list string) :=
  browser.MkEnvironment (Z * list string)
    (fun timeout w => (true, (fst w + timeout, py.append (snd w) "server"))%Z)
    (fun _ => true).

Definition dead_tunnel : browser.Environment (Z * list string) :=
  browser.MkEnvironment (Z * list string)
    (fun timeout w => (false, (fst w + timeout, py.append (snd w) "tunnel"))%Z)
    (fun _ => false).

Definition clock (w : Z * list string) : Q := inject_Z (fst w).

Definition browser_env : browser.BrowserEnvironment.t (Z * list string) :=
  browser.BrowserEnvironment.mk (Some slow_server) (Some dead_tunnel) 0.

End samples.

(* ================================================================== *)
(** * Properties                                                       *)
(* ================================================================== *)

(** ** The verdict cascade *)

Section VerdictCascade.

Import evaluation.

Lemma forallb_passed_false (ms : list MetricResult.t) :
  (exists m, In m ms /\ MetricResult.passed m = false) ->
  forallb MetricResult.passed ms = false.
Proof.
  intros [m [Hin Hm]].
  destruct (forallb MetricResult.passed ms) eqn:E; [|reflexivity].
  rewrite forallb_forall in E. rewrite (E m Hin) in Hm. discriminate.
Qed.

Lemma Verdict_eqb_eq (a b : Verdict) : Verdict_eqb a b = true <-> a = b.
Proof. destruct a, b; simpl; split; congruence. Qed.

Lemma existsb_verdict (v : Verdict) (ss : list SessionResult.t) :
  existsb (fun s => Verdict_eqb (SessionResult.verdict s) v) ss = true
  <-> exists s, In s ss /\ SessionResult.verdict s = v.
Proof.
  rewrite existsb_exists. split; intros [s [Hin H]]; exists s; split; auto;
    now apply Verdict_eqb_eq.
Qed.

Lemma existsb_verdict_false (v : Verdict) (ss : list SessionResult.t) :
  (forall s, In s ss -> SessionResult.verdict s <> v) ->
  existsb (fun s => Verdict_eqb (SessionResult.verdict s) v) ss = false.
Proof.
  intros H.
  destruct (existsb _ ss) eqn:E; [|reflexivity].
  apply existsb_verdict in E. destruct E as [s [Hin Hs]].
  now destruct (H s Hin).
Qed.

(** C1, sessions: the verdict of a session is ERROR when it has no metric,
    PASS when it has metrics and every one passed, FAIL when some metric did
    not pass. *)
Lemma session_verdict_cascade (s : SessionResult.t) :
  (SessionResult.metrics s = [] -> SessionResult.verdict s = ERROR)
  /\ (SessionResult.metrics s <> [] ->
      (forall m, In m (SessionResult.metrics s) ->
                 MetricResult.passed m = true) ->
      SessionResult.verdict s = PASS)
  /\ (SessionResult.metrics s <> [] ->
      (exists m, In m (SessionResult.metrics s)
                 /\ MetricResult.passed m = false) ->
      SessionResult.verdict s = FAIL).
Proof.
  unfold SessionResult.verdict.
  destruct (SessionResult.metrics s) as [|m ms] eqn:E.
  - repeat split; intros; congruence.
  - split; [discriminate|]. split; intros _ H.
    + apply forallb_forall in H. now rewrite H.
    + now rewrite (forallb_passed_false _ H).
Qed.

(** C1, evaluations: the verdict of an evaluation is ERROR when it has no
    session or some session is ERROR, else FAIL when some session is FAIL,
    else PASS. *)
Lemma evaluation_verdict_cascade (r : EvaluationResult.t) :
  (EvaluationResult.sessions r = []
   \/ (exists s, In s (EvaluationResult.sessions r)
                 /\ SessionResult.verdict s = ERROR) ->
   EvaluationResult.verdict r = ERROR)
  /\ (EvaluationResult.sessions r <> [] ->
      (forall s, In s (EvaluationResult.sessions r) ->
                 SessionResult.verdict s <> ERROR) ->
      (exists s, In s (EvaluationResult.sessions r)
                 /\ SessionResult.verdict s = FAIL) ->
      EvaluationResult.verdict r = FAIL)
  /\ (EvaluationResult.sessions r <> [] ->
      (forall s, In s (EvaluationResult.sessions r) ->
                 SessionResult.verdict s <> ERROR) ->
      (forall s, In s (EvaluationResult.sessions r) ->
                 SessionResult.verdict s <> FAIL) ->
      EvaluationResult.verdict r = PASS).
Proof.
  unfold EvaluationResult.verdict.
  destruct (EvaluationResult.sessions r) as [|s0 ss] eqn:E.
  - split; [reflexivity|]. split; intros H; now destruct H.
  - split; [|split].
    + intros [H|H]; [discriminate|].
      apply existsb_verdict in H. now rewrite H.
    + intros _ Hne Hf.
      rewrite (existsb_verdict_false _ _ Hne).
      apply existsb_verdict in Hf. now rewrite Hf.
    + intros _ Hne Hnf.
      rewrite (existsb_verdict_false _ _ Hne).
      now rewrite (existsb_verdict_false _ _ Hnf).
Qed.

(** C1: for every SessionResult the verdict is ERROR when the metrics list
    is empty, PASS when every metric passed, and FAIL otherwise; for every
    EvaluationResult the verdict is ERROR when the sessions list is empty or
    some session is ERROR, else FAIL when some session is FAIL, else PASS. *)
Theorem verdict_cascade :
  (forall s : SessionResult.t,
      (SessionResult.metrics s = [] -> SessionResult.verdict s = ERROR)
      /\ (SessionResult.metrics s <> [] ->
          (forall m, In m (SessionResult.metrics s) ->
                     MetricResult.passed m = true) ->
          SessionResult.verdict s = PASS)
      /\ (SessionResult.metrics s <> [] ->
          (exists m, In m (SessionResult.metrics s)
                     /\ MetricResult.passed m = false) ->
          SessionResult.verdict s = FAIL))
  /\ (forall r : EvaluationResult.t,
         (EvaluationResult.sessions r = []
          \/ (exists s, In s (EvaluationResult.sessions r)
                        /\ SessionResult.verdict s = ERROR) ->
          EvaluationResult.verdict r = ERROR)
         /\ (EvaluationResult.sessions r <> [] ->
             (forall s, In s (EvaluationResult.sessions r) ->
                        SessionResult.verdict s <> ERROR) ->
             (exists s, In s (EvaluationResult.sessions r)
                        /\ SessionResult.verdict s = FAIL) ->
             EvaluationResult.verdict r = FAIL)
         /\ (EvaluationResult.sessions r <> [] ->
             (forall s, In s (EvaluationResult.sessions r) ->
                        SessionResult.verdict s <> ERROR) ->
             (forall s, In s (EvaluationResult.sessions r) ->
                        SessionResult.verdict s <> FAIL) ->
             EvaluationResult.verdict r = PASS)).
Proof.
  split.
  - exact session_verdict_cascade.
  - exact evaluation_verdict_cascade.
Qed.

End VerdictCascade.

(** Witness of C1: a session with a failed metric is FAIL, and an evaluation
    of a passing and a failing session is FAIL. *)
Lemma verdict_cascade_witness :
  evaluation.SessionResult.verdict samples.failing_session = evaluation.FAIL
  /\ evaluation.EvaluationResult.verdict
       (samples.pytest_evaluation 1 "t" "h"
          [samples.passing_session; samples.failing_session])
     = evaluation.FAIL.
Proof.
  split.
  - apply (proj1 verdict_cascade samples.failing_session).
    + discriminate.
    + exists (samples.count_metric (py.Int 0) false). simpl. auto.
  - apply (proj2 verdict_cascade).
    + discriminate.
    + simpl. intros s [H|[H|[]]]; subst s; discriminate.
    + exists samples.failing_session. simpl. auto.
Defined.

(** ** Finalisation *)

Section Finalize.

Import evaluation.

Lemma finalize_sets_finalized (now : Q) (r : EvaluationResult.t) :
  EvaluationResult._finalized (snd (EvaluationResult.finalize now r)) = true.
Proof.
  unfold EvaluationResult.finalize.
  destruct (EvaluationResult._finalized r) eqn:E; simpl; auto.
Qed.

Lemma finalize_returns (now : Q) (r : EvaluationResult.t) :
  fst (EvaluationResult.finalize now r) = py.Return tt.
Proof.
  unfold EvaluationResult.finalize.
  now destruct (EvaluationResult._finalized r).
Qed.

Lemma finalize_keeps_sessions (now : Q) (r : EvaluationResult.t) :
  EvaluationResult.sessions (snd (EvaluationResult.finalize now r))
  = EvaluationResult.sessions r.
Proof.
  unfold EvaluationResult.finalize.
  now destruct (EvaluationResult._finalized r).
Qed.

(** The hash stored by the first [finalize] is the content hash. *)
Lemma finalize_stores_hash (now : Q) (r : EvaluationResult.t) :
  EvaluationResult._finalized r = false ->
  EvaluationResult.run_hash (snd (EvaluationResult.finalize now r))
  = EvaluationResult._compute_hash r.
Proof.
  intros H. unfold EvaluationResult.finalize, EvaluationResult.run_hash.
  rewrite H. reflexivity.
Qed.

(** C7: a second call of finalize() returns without raising and leaves the
    object, and so the stored run_hash, as the first call left it; and
    add_session() after finalize() raises RuntimeError and leaves the
    sessions list as it was. *)
Theorem finalize_idempotent_add_session_raises :
  forall (now1 now2 : Q) (r : EvaluationResult.t) (s : SessionResult.t),
    let r1 := snd (EvaluationResult.finalize now1 r) in
    EvaluationResult.finalize now2 r1 = (py.Return tt, r1)
    /\ EvaluationResult.run_hash (snd (EvaluationResult.finalize now2 r1))
       = EvaluationResult.run_hash r1
    /\ EvaluationResult.add_session s r1
       = (py.Raise (py.RuntimeError "Cannot add session to finalized evaluation"),
          r1)
    /\ EvaluationResult.sessions (snd (EvaluationResult.add_session s r1))
       = EvaluationResult.sessions r
    /\ fst (EvaluationResult.finalize now1 r) = py.Return tt.
Proof.
  intros now1 now2 r s r1.
  pose proof (finalize_sets_finalized now1 r) as Hf. fold r1 in Hf.
  assert (H2 : EvaluationResult.finalize now2 r1 = (py.Return tt, r1)).
  { unfold EvaluationResult.finalize at 1. now rewrite Hf. }
  assert (Ha : EvaluationResult.add_session s r1
               = (py.Raise (py.RuntimeError
                              "Cannot add session to finalized evaluation"),
                  r1)).
  { unfold EvaluationResult.add_session. now rewrite Hf. }
  repeat split.
  - exact H2.
  - now rewrite H2.
  - exact Ha.
  - rewrite Ha. simpl. apply finalize_keeps_sessions.
  - apply finalize_returns.
Qed.

End Finalize.

(** ** The verdict of a test result *)

Section TestResultVerdict.

Import types.

(** C4: a TestResult whose parsed_from is "fallback" and whose exit code is
    not zero has the verdict ERROR, so neither FAIL nor PASS. *)
Theorem fallback_failure_is_error :
  forall r : TestResult.t,
    TestResult.parsed_from r = Some "fallback" ->
    TestResult.exit_code r <> 0%Z ->
    TestResult.verdict r = ERROR
    /\ TestResult.verdict r <> FAIL
    /\ TestResult.verdict r <> PASS.
Proof.
  intros r Hp He.
  assert (H : TestResult.verdict r = ERROR).
  { unfold TestResult.verdict. rewrite Hp. simpl.
    destruct (TestResult.exit_code r =? 2)%Z; [reflexivity|].
    destruct (TestResult.total r =? 0)%Z; [reflexivity|].
    apply Z.eqb_neq in He. now rewrite He. }
  rewrite H. repeat split; discriminate.
Qed.

(** Witness of C4: one guessed failure, marked as a fallback, exit code 1. *)
Lemma fallback_failure_is_error_witness :
  TestResult.verdict
    (TestResult.mk 0 1 0 0 0 1 1 None None (Some "fallback")) = ERROR.
Proof.
  apply (fallback_failure_is_error
           (TestResult.mk 0 1 0 0 0 1 1 None None (Some "fallback"))).
  - reflexivity.
  - discriminate.
Defined.

End TestResultVerdict.

(** ** The content hash *)

(** The digests of the test vectors "abc" and "" of FIPS 180-4. *)
Example sha256_abc :
  hashlib.sha256_hexdigest (hashlib.encode "abc")
  = "ba7816bf8f01cfea414140de5dae2223b00361a396177a9cb410ff61f20015ad".
Proof. vm_compute. reflexivity. Qed.

Example sha256_empty :
  hashlib.sha256_hexdigest (hashlib.encode "")
  = "e3b0c44298fc1c149afbf4c8996fb92427ae41e4649b934ca495991b7852b855".
Proof. vm_compute. reflexivity. Qed.

(** The hash of a pytest evaluation with one session "tests" and one passed
    metric "count" of value 10, as Python computes it. *)
Example compute_hash_sample :
  evaluation.EvaluationResult._compute_hash
    (samples.pytest_evaluation 1 "t" "h" [samples.passing_session])
  = "60f69fda3b7b7414".
Proof. vm_compute. reflexivity. Qed.

Section StringFacts.

Lemma append_assoc (a b c : string) : (a ++ b) ++ c = a ++ (b ++ c).
Proof. induction a as [|x a IH]; simpl; [reflexivity | now rewrite IH]. Qed.

Lemma append_nil_r (a : string) : a ++ "" = a.
Proof. induction a as [|x a IH]; simpl; [reflexivity | now rewrite IH]. Qed.

Lemma append_inv_head (a b c : string) : a ++ b = a ++ c -> b = c.
Proof.
  induction a as [|x a IH]; simpl; intros H; [exact H|].
  injection H as H. now apply IH.
Qed.

Lemma string_cons_inv (x : ascii) (a b : string) :
  String x a = String x b -> a = b.
Proof. now intros H; injection H. Qed.

End StringFacts.

(** Removes the characters that two equal texts start with. *)
Ltac peel H :=
  repeat (first [ apply string_cons_inv in H
                | apply append_inv_head in H ]).

Section JsonText.

(** Reading back what [escape_char] wrote gives the character. *)
Lemma read_escaped_escape_char (c : ascii) (r : string) :
  json.read_escaped (json.escape_char c ++ r) = Some (c, r).
Proof.
  destruct c as [[] [] [] [] [] [] [] []]; reflexivity.
Qed.

Lemma read_escaped_quote (r : string) :
  json.read_escaped (String py.dq r) = None.
Proof. reflexivity. Qed.

(** The escaped text up to the closing quote determines the string. *)
Lemma escape_delimited (s1 s2 r1 r2 : string) :
  json.escape s1 ++ String py.dq r1 = json.escape s2 ++ String py.dq r2 ->
  s1 = s2 /\ r1 = r2.
Proof.
  revert s2. induction s1 as [|c1 s1 IH]; intros [|c2 s2]; simpl; intros H.
  - injection H as H. auto.
  - apply (f_equal json.read_escaped) in H.
    rewrite append_assoc, read_escaped_escape_char in H. discriminate.
  - apply (f_equal json.read_escaped) in H.
    rewrite append_assoc, read_escaped_escape_char in H. discriminate.
  - apply (f_equal json.read_escaped) in H.
    rewrite !append_assoc, !read_escaped_escape_char in H.
    injection H as Hc H. apply IH in H. destruct H. subst. auto.
Qed.

Lemma encode_string_append (s r : string) :
  json.encode_string s ++ r = String py.dq (json.escape s ++ String py.dq r).
Proof.
  unfold json.encode_string. simpl. now rewrite append_assoc.
Qed.

(** A string literal followed by any text determines the string and the
    text. *)
Lemma encode_string_delimited (s1 s2 r1 r2 : string) :
  json.encode_string s1 ++ r1 = json.encode_string s2 ++ r2 ->
  s1 = s2 /\ r1 = r2.
Proof.
  rewrite !encode_string_append. intros H. injection H as H.
  now apply escape_delimited.
Qed.

Lemma join_cons (sep x : string) (l : list string) :
  py.join sep (x :: l)
  = x ++ match l with [] => "" | _ :: _ => sep ++ py.join sep l end.
Proof. destruct l; simpl; [now rewrite append_nil_r | reflexivity]. Qed.

(** A list written between brackets determines the keys of its items, when
    each item followed by any text determines its key and starts with an
    opening brace. *)
Lemma list_delimited {A K : Type} (f : A -> string) (key : A -> K) :
  (forall a1 a2 r1 r2, f a1 ++ r1 = f a2 ++ r2 -> key a1 = key a2 /\ r1 = r2) ->
  (forall a, exists r, f a = String "{" r) ->
  forall l1 l2 r1 r2,
    py.join ", " (map f l1) ++ String "]" r1
    = py.join ", " (map f l2) ++ String "]" r2 ->
    map key l1 = map key l2 /\ r1 = r2.
Proof.
  intros Hf Hbrace.
  induction l1 as [|a1 l1 IH]; intros [|a2 l2] r1 r2 H.
  - simpl in H. injection H as H. auto.
  - exfalso. cbn [map] in H. rewrite join_cons, append_assoc in H.
    destruct (Hbrace a2) as [r Hr]. rewrite Hr in H. discriminate.
  - exfalso. cbn [map] in H. rewrite join_cons, append_assoc in H.
    destruct (Hbrace a1) as [r Hr]. rewrite Hr in H. discriminate.
  - cbn [map] in H. rewrite !join_cons, !append_assoc in H.
    apply Hf in H. destruct H as [Hk H].
    destruct l1 as [|b1 l1], l2 as [|b2 l2].
    + simpl in H. injection H as H. subst. simpl. now rewrite Hk.
    + exfalso. simpl in H. discriminate.
    + exfalso. simpl in H. discriminate.
    + cbn [map] in H. rewrite !append_assoc in H. peel H.
      apply (IH (b2 :: l2)) in H. destruct H as [Hl Hr]. split; [|exact Hr].
      cbn [map] in *. now rewrite Hk, Hl.
Qed.

End JsonText.

Section HashContent.

Import evaluation.

Lemma dict3_text (k1 v1 k2 v2 k3 v3 r : string) :
  ("{" ++ py.join ", " (map json.render_item [(k1, v1); (k2, v2); (k3, v3)])
       ++ "}") ++ r
  = "{" ++ json.encode_string k1 ++ ": " ++ v1 ++ ", "
        ++ json.encode_string k2 ++ ": " ++ v2 ++ ", "
        ++ json.encode_string k3 ++ ": " ++ v3 ++ "}" ++ r.
Proof.
  cbn [map py.join]. unfold json.render_item. cbn [fst snd].
  now rewrite !append_assoc.
Qed.

Lemma dict5_text (k1 v1 k2 v2 k3 v3 k4 v4 k5 v5 r : string) :
  ("{" ++ py.join ", "
            (map json.render_item
                 [(k1, v1); (k2, v2); (k3, v3); (k4, v4); (k5, v5)])
       ++ "}") ++ r
  = "{" ++ json.encode_string k1 ++ ": " ++ v1 ++ ", "
        ++ json.encode_string k2 ++ ": " ++ v2 ++ ", "
        ++ json.encode_string k3 ++ ": " ++ v3 ++ ", "
        ++ json.encode_string k4 ++ ": " ++ v4 ++ ", "
        ++ json.encode_string k5 ++ ": " ++ v5 ++ "}" ++ r.
Proof.
  cbn [map py.join]. unfold json.render_item. cbn [fst snd].
  now rewrite !append_assoc.
Qed.

Lemma bool_text_delimited (b1 b2 : bool) (r1 r2 : string) :
  json.bool_text b1 ++ r1 = json.bool_text b2 ++ r2 -> b1 = b2 /\ r1 = r2.
Proof.
  destruct b1, b2; simpl; intros H; try discriminate; peel H; auto.
Qed.

(** The text of a metric, keys sorted. *)
Lemma metric_text (m : MetricResult.t) (r : string) :
  json.dumps (EvaluationResult.metric_content m) ++ r
  = "{" ++ json.encode_string "name" ++ ": "
        ++ json.encode_string (MetricResult.name m) ++ ", "
        ++ json.encode_string "passed" ++ ": "
        ++ json.bool_text (MetricResult.passed m) ++ ", "
        ++ json.encode_string "value" ++ ": "
        ++ json.encode_string (py.str (MetricResult.value m)) ++ "}" ++ r.
Proof.
  unfold EvaluationResult.metric_content.
  cbn [json.dumps map fst snd].
  change (json.sort_items
            [("name", json.encode_string (MetricResult.name m));
             ("value", json.encode_string (py.str (MetricResult.value m)));
             ("passed", json.bool_text (MetricResult.passed m))])
    with [("name", json.encode_string (MetricResult.name m));
          ("passed", json.bool_text (MetricResult.passed m));
          ("value", json.encode_string (py.str (MetricResult.value m)))].
  apply dict3_text.
Qed.

(** The text of a metric followed by any text determines the name, the
    string form of the value and the flag. *)
Lemma metric_delimited (m1 m2 : MetricResult.t) (r1 r2 : string) :
  json.dumps (EvaluationResult.metric_content m1) ++ r1
  = json.dumps (EvaluationResult.metric_content m2) ++ r2 ->
  EvaluationResult.metric_key m1 = EvaluationResult.metric_key m2 /\ r1 = r2.
Proof.
  rewrite !metric_text. intros H.
  do 3 apply append_inv_head in H.
  apply encode_string_delimited in H. destruct H as [Hn H].
  do 3 apply append_inv_head in H.
  apply bool_text_delimited in H. destruct H as [Hp H].
  do 3 apply append_inv_head in H.
  apply encode_string_delimited in H. destruct H as [Hv H].
  apply append_inv_head in H.
  unfold EvaluationResult.metric_key. now rewrite Hn, Hp, Hv.
Qed.

Lemma metric_starts_with_brace (m : MetricResult.t) :
  exists r, json.dumps (EvaluationResult.metric_content m) = String "{" r.
Proof.
  pose proof (metric_text m "") as H. rewrite append_nil_r in H.
  rewrite H. eexists. reflexivity.
Qed.

End HashContent.

Section HashContentSessions.

Import evaluation.

Lemma Verdict_value_inj (a b : Verdict) :
  Verdict_value a = Verdict_value b -> a = b.
Proof. destruct a, b; simpl; intros H; congruence. Qed.

(** The text of a session, keys sorted. *)
Lemma session_text (s : SessionResult.t) (r : string) :
  json.dumps (EvaluationResult.session_content s) ++ r
  = "{" ++ json.encode_string "metrics" ++ ": "
        ++ ("[" ++ py.join ", "
                     (map (fun m => json.dumps (EvaluationResult.metric_content m))
                          (SessionResult.metrics s))
                ++ "]") ++ ", "
        ++ json.encode_string "session_name" ++ ": "
        ++ json.encode_string (SessionResult.session_name s) ++ ", "
        ++ json.encode_string "verdict" ++ ": "
        ++ json.encode_string (Verdict_value (SessionResult.verdict s))
        ++ "}" ++ r.
Proof.
  unfold EvaluationResult.session_content.
  cbn [json.dumps map fst snd]. rewrite map_map.
  set (ms := "[" ++ _ ++ "]").
  set (n := json.encode_string (SessionResult.session_name s)).
  set (v := json.encode_string (Verdict_value (SessionResult.verdict s))).
  change (json.sort_items [("session_name", n); ("verdict", v); ("metrics", ms)])
    with [("metrics", ms); ("session_name", n); ("verdict", v)].
  apply dict3_text.
Qed.

(** The text of a session followed by any text determines its name and,
    for each metric, the name, the string form of the value and the flag. *)
Lemma session_delimited (s1 s2 : SessionResult.t) (r1 r2 : string) :
  json.dumps (EvaluationResult.session_content s1) ++ r1
  = json.dumps (EvaluationResult.session_content s2) ++ r2 ->
  EvaluationResult.session_key s1 = EvaluationResult.session_key s2 /\ r1 = r2.
Proof.
  rewrite !session_text. intros H.
  do 3 apply append_inv_head in H.
  rewrite !append_assoc in H. apply append_inv_head in H.
  change ("]" ++ ?x) with (String "]" x) in H.
  apply (list_delimited _ EvaluationResult.metric_key
                        metric_delimited metric_starts_with_brace) in H.
  destruct H as [Hm H].
  do 3 apply append_inv_head in H.
  apply encode_string_delimited in H. destruct H as [Hn H].
  do 3 apply append_inv_head in H.
  apply encode_string_delimited in H. destruct H as [_ H].
  apply append_inv_head in H.
  unfold EvaluationResult.session_key. now rewrite Hn, Hm.
Qed.

Lemma session_starts_with_brace (s : SessionResult.t) :
  exists r, json.dumps (EvaluationResult.session_content s) = String "{" r.
Proof.
  pose proof (session_text s "") as H. rewrite append_nil_r in H.
  rewrite H. eexists. reflexivity.
Qed.

Lemma optional_str_delimited (o1 o2 : option string) (r1 r2 : string) :
  json.dumps (EvaluationResult.optional_str o1) ++ r1
  = json.dumps (EvaluationResult.optional_str o2) ++ r2 ->
  o1 = o2 /\ r1 = r2.
Proof.
  destruct o1 as [a|], o2 as [b|]; cbn [EvaluationResult.optional_str json.dumps].
  - intros H. apply encode_string_delimited in H. destruct H. subst. auto.
  - rewrite encode_string_append. discriminate.
  - rewrite encode_string_append. discriminate.
  - intros H. apply append_inv_head in H. auto.
Qed.

(** The text that is hashed, keys sorted. *)
Lemma hash_str_text (r : EvaluationResult.t) :
  EvaluationResult.hash_str r
  = "{" ++ json.encode_string "adapter_type" ++ ": "
        ++ json.encode_string
             (EvaluationMetadata.adapter_type (EvaluationResult.metadata r))
        ++ ", "
        ++ json.encode_string "category" ++ ": "
        ++ json.dumps (EvaluationResult.optional_str
                         (EvaluationMetadata.category
                            (EvaluationResult.metadata r)))
        ++ ", "
        ++ json.encode_string "project_name" ++ ": "
        ++ json.dumps (EvaluationResult.optional_str
                         (EvaluationMetadata.project_name
                            (EvaluationResult.metadata r)))
        ++ ", "
        ++ json.encode_string "sessions" ++ ": "
        ++ ("[" ++ py.join ", "
                     (map (fun s => json.dumps (EvaluationResult.session_content s))
                          (EvaluationResult.sessions r))
                ++ "]") ++ ", "
        ++ json.encode_string "verdict" ++ ": "
        ++ json.encode_string (Verdict_value (EvaluationResult.verdict r))
        ++ "}".
Proof.
  unfold EvaluationResult.hash_str, EvaluationResult.hash_content.
  cbn [json.dumps map fst snd]. rewrite map_map.
  set (ss := "[" ++ _ ++ "]").
  set (a := json.encode_string _).
  set (c := json.dumps (EvaluationResult.optional_str
                          (EvaluationMetadata.category _))).
  set (p := json.dumps (EvaluationResult.optional_str
                          (EvaluationMetadata.project_name _))).
  set (v := json.encode_string (Verdict_value _)).
  change (json.sort_items
            [("adapter_type", a); ("category", c); ("project_name", p);
             ("verdict", v); ("sessions", ss)])
    with [("adapter_type", a); ("category", c); ("project_name", p);
          ("sessions", ss); ("verdict", v)].
  rewrite <- (append_nil_r (_ ++ _ ++ "}")).
  rewrite dict5_text. now rewrite !append_nil_r.
Qed.

(** The hashed text determines what the hash covers. *)
Lemma hash_str_determines_content (r1 r2 : EvaluationResult.t) :
  EvaluationResult.hash_str r1 = EvaluationResult.hash_str r2 ->
  EvaluationResult.content_key r1 = EvaluationResult.content_key r2.
Proof.
  rewrite !hash_str_text. intros H.
  do 3 apply append_inv_head in H.
  apply encode_string_delimited in H. destruct H as [Ha H].
  do 3 apply append_inv_head in H.
  apply optional_str_delimited in H. destruct H as [Hc H].
  do 3 apply append_inv_head in H.
  apply optional_str_delimited in H. destruct H as [Hp H].
  do 3 apply append_inv_head in H.
  rewrite !append_assoc in H. apply append_inv_head in H.
  change ("]" ++ ?x) with (String "]" x) in H.
  apply (list_delimited _ EvaluationResult.session_key
                        session_delimited session_starts_with_brace) in H.
  destruct H as [Hs _].
  unfold EvaluationResult.content_key. now rewrite Ha, Hc, Hp, Hs.
Qed.

End HashContentSessions.

Section HashReproducible.

Import evaluation.

Lemma map_key_ext {A K B : Type} (key : A -> K) (f : A -> B) :
  (forall a1 a2, key a1 = key a2 -> f a1 = f a2) ->
  forall l1 l2, map key l1 = map key l2 -> map f l1 = map f l2.
Proof.
  intros Hf. induction l1 as [|a1 l1 IH]; intros [|a2 l2]; simpl; intros H;
    try discriminate; [reflexivity|].
  injection H as Ha Hl. now rewrite (Hf _ _ Ha), (IH _ Hl).
Qed.

Lemma forallb_map_id {A : Type} (f : A -> bool) (l : list A) :
  forallb f l = forallb (fun b => b) (map f l).
Proof. induction l as [|a l IH]; simpl; [reflexivity | now rewrite IH]. Qed.

Lemma existsb_map {A B : Type} (f : A -> B) (g : B -> bool) (l : list A) :
  existsb (fun a => g (f a)) l = existsb g (map f l).
Proof. induction l as [|a l IH]; simpl; [reflexivity | now rewrite IH]. Qed.

Lemma metric_key_passed (m1 m2 : MetricResult.t) :
  EvaluationResult.metric_key m1 = EvaluationResult.metric_key m2 ->
  MetricResult.passed m1 = MetricResult.passed m2.
Proof. unfold EvaluationResult.metric_key. congruence. Qed.

Lemma metric_key_content (m1 m2 : MetricResult.t) :
  EvaluationResult.metric_key m1 = EvaluationResult.metric_key m2 ->
  EvaluationResult.metric_content m1 = EvaluationResult.metric_content m2.
Proof.
  unfold EvaluationResult.metric_key, EvaluationResult.metric_content.
  intros H. injection H as Hn Hv Hp. now rewrite Hn, Hv, Hp.
Qed.

(** The verdict of a session is a function of the flags of its metrics. *)
Lemma session_verdict_ext (s1 s2 : SessionResult.t) :
  map EvaluationResult.metric_key (SessionResult.metrics s1)
  = map EvaluationResult.metric_key (SessionResult.metrics s2) ->
  SessionResult.verdict s1 = SessionResult.verdict s2.
Proof.
  intros H. apply (map_key_ext _ MetricResult.passed metric_key_passed) in H.
  unfold SessionResult.verdict.
  rewrite (forallb_map_id _ (SessionResult.metrics s1)).
  rewrite (forallb_map_id _ (SessionResult.metrics s2)).
  rewrite H.
  destruct (SessionResult.metrics s1), (SessionResult.metrics s2);
    simpl in H; try discriminate; reflexivity.
Qed.

Lemma session_key_verdict (s1 s2 : SessionResult.t) :
  EvaluationResult.session_key s1 = EvaluationResult.session_key s2 ->
  SessionResult.verdict s1 = SessionResult.verdict s2.
Proof.
  unfold EvaluationResult.session_key. intros H. injection H as _ Hm.
  now apply session_verdict_ext.
Qed.

Lemma session_key_content (s1 s2 : SessionResult.t) :
  EvaluationResult.session_key s1 = EvaluationResult.session_key s2 ->
  EvaluationResult.session_content s1 = EvaluationResult.session_content s2.
Proof.
  intros H. pose proof (session_key_verdict _ _ H) as Hv.
  unfold EvaluationResult.session_key in H. injection H as Hn Hm.
  unfold EvaluationResult.session_content.
  rewrite Hn, Hv.
  now rewrite (map_key_ext _ EvaluationResult.metric_content
                           metric_key_content _ _ Hm).
Qed.

(** The verdict of an evaluation is a function of the verdicts of its
    sessions. *)
Lemma evaluation_verdict_ext (r1 r2 : EvaluationResult.t) :
  map EvaluationResult.session_key (EvaluationResult.sessions r1)
  = map EvaluationResult.session_key (EvaluationResult.sessions r2) ->
  EvaluationResult.verdict r1 = EvaluationResult.verdict r2.
Proof.
  intros H. apply (map_key_ext _ SessionResult.verdict session_key_verdict) in H.
  unfold EvaluationResult.verdict.
  rewrite !(existsb_map SessionResult.verdict (fun v => Verdict_eqb v _)).
  rewrite H.
  destruct (EvaluationResult.sessions r1), (EvaluationResult.sessions r2);
    simpl in H; try discriminate; reflexivity.
Qed.

(** What the hash covers determines the hashed text. *)
Lemma content_determines_hash_str (r1 r2 : EvaluationResult.t) :
  EvaluationResult.content_key r1 = EvaluationResult.content_key r2 ->
  EvaluationResult.hash_str r1 = EvaluationResult.hash_str r2.
Proof.
  unfold EvaluationResult.content_key. intros H. injection H as Ha Hc Hp Hs.
  unfold EvaluationResult.hash_str, EvaluationResult.hash_content.
  rewrite Ha, Hc, Hp, (evaluation_verdict_ext _ _ Hs).
  now rewrite (map_key_ext _ EvaluationResult.session_content
                           session_key_content _ _ Hs).
Qed.

(** C2, as amended: two evaluations that are not yet finalized get the same
    run_hash from finalize() whenever they have the same adapter type,
    category and project name, the same session names and, for each
    metric, the same name, the same string form str(value) of the value
    and the same flag, whatever their clocks, timestamps, identifiers and
    environment maps.  A metric value counts by its string form alone.
    When what the hash covers differs, the hashed text differs, and each
    run_hash is the first 16 hexadecimal digits of the SHA-256 digest of
    its text. *)
Theorem run_hash_reproducible :
  forall (r1 r2 : EvaluationResult.t) (now1 now2 : Q),
    EvaluationResult._finalized r1 = false ->
    EvaluationResult._finalized r2 = false ->
    let f1 := snd (EvaluationResult.finalize now1 r1) in
    let f2 := snd (EvaluationResult.finalize now2 r2) in
    (EvaluationResult.content_key r1 = EvaluationResult.content_key r2 ->
     EvaluationResult.run_hash f1 = EvaluationResult.run_hash f2)
    /\ (EvaluationResult.content_key r1 <> EvaluationResult.content_key r2 ->
        EvaluationResult.hash_str r1 <> EvaluationResult.hash_str r2)
    /\ EvaluationResult.run_hash f1
       = substring 0 16 (hashlib.sha256_hexdigest
                           (hashlib.encode (EvaluationResult.hash_str r1)))
    /\ EvaluationResult.run_hash f2
       = substring 0 16 (hashlib.sha256_hexdigest
                           (hashlib.encode (EvaluationResult.hash_str r2))).
Proof.
  intros r1 r2 now1 now2 H1 H2 f1 f2. subst f1 f2.
  rewrite !finalize_stores_hash by assumption.
  split; [|split; [|split]].
  - intros H. unfold EvaluationResult._compute_hash.
    now rewrite (content_determines_hash_str _ _ H).
  - intros Hne Heq. apply Hne. now apply hash_str_determines_content.
  - reflexivity.
  - reflexivity.
Qed.

End HashReproducible.

(** Witness of C2: the same content at two times on two hosts. *)
Lemma run_hash_reproducible_witness :
  evaluation.EvaluationResult.run_hash
    (snd (evaluation.EvaluationResult.finalize 12
            (samples.pytest_evaluation 10 "2024-01-01T00:00:00" "alpha"
                                       [samples.passing_session])))
  = evaluation.EvaluationResult.run_hash
      (snd (evaluation.EvaluationResult.finalize 99
              (samples.pytest_evaluation 95 "2024-06-30T12:00:00" "beta"
                                         [samples.passing_session]))).
Proof.
  exact (proj1 (run_hash_reproducible
                  (samples.pytest_evaluation 10 "2024-01-01T00:00:00" "alpha"
                                             [samples.passing_session])
                  (samples.pytest_evaluation 95 "2024-06-30T12:00:00" "beta"
                                             [samples.passing_session])
                  12 99 eq_refl eq_refl)
               eq_refl).
Defined.

(** Counterexample to C2 as stated: the metric value 1 changed to the string
    "1" leaves the run_hash as it was. *)
Lemma run_hash_blind_to_value_type :
  py.Int 1 <> py.Str "1"
  /\ evaluation.EvaluationResult.run_hash
       (snd (evaluation.EvaluationResult.finalize 12
               (samples.pytest_evaluation 10 "t" "h"
                  [samples.tests_session [samples.count_metric (py.Int 1) true]])))
     = evaluation.EvaluationResult.run_hash
         (snd (evaluation.EvaluationResult.finalize 12
                 (samples.pytest_evaluation 10 "t" "h"
                    [samples.tests_session
                       [samples.count_metric (py.Str "1") true]]))).
Proof.
  split; [discriminate|]. vm_compute. reflexivity.
Qed.

(** The values 10 and 20 of the test suite give different hashes. *)
Example run_hash_10_20 :
  evaluation.EvaluationResult.run_hash
    (snd (evaluation.EvaluationResult.finalize 12
            (samples.pytest_evaluation 10 "t" "h"
               [samples.tests_session [samples.count_metric (py.Int 10) true]])))
  <> evaluation.EvaluationResult.run_hash
       (snd (evaluation.EvaluationResult.finalize 12
               (samples.pytest_evaluation 10 "t" "h"
                  [samples.tests_session
                     [samples.count_metric (py.Int 20) true]]))).
Proof. vm_compute. discriminate. Qed.

(** A set of two strings that one process prints as {'a', 'b'} and another
    as {'b', 'a'} gives two hashes. *)
Example run_hash_of_a_set :
  evaluation.EvaluationResult.run_hash
    (snd (evaluation.EvaluationResult.finalize 12
            (samples.pytest_evaluation 10 "t" "h"
               [samples.tests_session
                  [samples.count_metric (py.Object "{'a', 'b'}") true]])))
  <> evaluation.EvaluationResult.run_hash
       (snd (evaluation.EvaluationResult.finalize 12
               (samples.pytest_evaluation 10 "t" "h"
                  [samples.tests_session
                     [samples.count_metric (py.Object "{'b', 'a'}") true]]))).
Proof. vm_compute. discriminate. Qed.

(** ** Sequences of commands *)

Section Containment.

Lemma contains_refl (s : string) : py.contains s s.
Proof. exists "", "". simpl. now rewrite append_nil_r. Qed.

Lemma contains_append_l (a hay needle : string) :
  py.contains hay needle -> py.contains (a ++ hay) needle.
Proof.
  intros [x [y H]]. exists (a ++ x), y. now rewrite H, append_assoc.
Qed.

Lemma contains_append_r (hay b needle : string) :
  py.contains hay needle -> py.contains (hay ++ b) needle.
Proof.
  intros [x [y H]]. exists x, (y ++ b). now rewrite H, !append_assoc.
Qed.

(** A joined text contains each of its parts. *)
Lemma contains_join (sep x : string) (l : list string) :
  In x l -> py.contains (py.join sep l) x.
Proof.
  induction l as [|y l IH]; intros H; [destruct H|].
  rewrite join_cons. destruct H as [H|H].
  - subst y. apply contains_append_r, contains_refl.
  - apply contains_append_l. destruct l as [|z l]; [destruct H|].
    apply contains_append_l. now apply IH.
Qed.

Lemma contains_trans (a b c : string) :
  py.contains a b -> py.contains b c -> py.contains a c.
Proof.
  intros [x [y H]] [u [v G]]. subst a b.
  exists (x ++ u), (v ++ y). now rewrite !append_assoc.
Qed.

Lemma block_contains (cmd text : string) :
  py.contains (executor.block cmd text) text.
Proof.
  unfold executor.block. do 4 apply contains_append_l. apply contains_refl.
Qed.

End Containment.

Section Sequence.

Import executor.

Context {World : Type} (os : System World).
Variables (timeout : option Z) (env : option (list (string * string)))
          (stream shell : bool).


Lemma stdout_blocks_cons cmd cmds r rs :
  TestExecutor.stdout_blocks (cmd :: cmds) (r :: rs)
  = block cmd (ExecutionResult.stdout r) :: TestExecutor.stdout_blocks cmds rs.
Proof. reflexivity. Qed.

Lemma stderr_blocks_cons cmd cmds r rs :
  TestExecutor.stderr_blocks (cmd :: cmds) (r :: rs)
  = (match ExecutionResult.stderr r with
     | EmptyString => []
     | err => [block cmd err]
     end ++ TestExecutor.stderr_blocks cmds rs)%list.
Proof. reflexivity. Qed.

Lemma run_each_length cmds : forall self w rs self' w',
  TestExecutor.run_each os cmds timeout env stream shell self w
  = (rs, self', w') ->
  length rs = length cmds.
Proof.
  induction cmds as [|cmd cmds IH]; simpl; intros self w rs self' w' H.
  - now inversion H.
  - destruct (TestExecutor._execute_single os cmd timeout env stream shell
                                           self w) as [[r s1] w1].
    destruct (TestExecutor.run_each os cmds timeout env stream shell s1 w1)
      as [[rs' s2] w2] eqn:E.
    inversion H; subst. simpl. f_equal. eapply IH; eauto.
Qed.

(** The loop over commands that all succeed goes on with what is left. *)
Lemma loop_through_successes (cmds pre rest : list string) :
  forall out err tot self w rs self1 w1,
    TestExecutor.run_each os pre timeout env stream shell self w
    = (rs, self1, w1) ->
    forallb ExecutionResult.success rs = true ->
    TestExecutor.sequence_loop os cmds (pre ++ rest)%list timeout env stream
                               shell out err tot self w
    = TestExecutor.sequence_loop os cmds rest timeout env stream shell
        (out ++ TestExecutor.stdout_blocks pre rs)%list
        (err ++ TestExecutor.stderr_blocks pre rs)%list
        (TestExecutor.total_duration rs tot) self1 w1.
Proof.
  induction pre as [|cmd pre IH]; intros out err tot self w rs self1 w1 H Hok.
  - simpl in H. inversion H; subst. simpl.
    unfold TestExecutor.stdout_blocks, TestExecutor.stderr_blocks. simpl.
    now rewrite !app_nil_r.
  - simpl in H.
    destruct (TestExecutor._execute_single os cmd timeout env stream shell
                                           self w) as [[r s1] w'] eqn:E1.
    destruct (TestExecutor.run_each os pre timeout env stream shell s1 w')
      as [[rs' s2] w2] eqn:E2.
    inversion H; subst. simpl in Hok. apply andb_true_iff in Hok.
    destruct Hok as [Hr Hrs].
    cbn [app TestExecutor.sequence_loop]. rewrite E1. rewrite Hr. cbn [negb].
    rewrite (IH _ _ _ _ _ _ _ _ E2 Hrs).
    rewrite stdout_blocks_cons, stderr_blocks_cons.
    unfold py.append.
    destruct (ExecutionResult.stderr r); rewrite <- ?app_assoc; reflexivity.
Qed.

Lemma combine_snoc {A B : Type} (l : list A) (l' : list B) (x : A) (y : B) :
  length l = length l' ->
  combine (l ++ [x]) (l' ++ [y]) = (combine l l' ++ [(x, y)])%list.
Proof.
  revert l'. induction l as [|a l IH]; intros [|b l'] H; simpl in *;
    try discriminate; [reflexivity|].
  injection H as H. now rewrite IH.
Qed.

Lemma in_combine_exists {A B : Type} (l : list A) (l' : list B) (y : B) :
  length l = length l' -> In y l' -> exists x, In (x, y) (combine l l').
Proof.
  revert l'. induction l as [|a l IH]; intros [|b l'] H Hin; simpl in *;
    try discriminate; [destruct Hin|].
  injection H as H. destruct Hin as [Hin|Hin].
  - subst. eauto.
  - destruct (IH _ H Hin) as [x Hx]. eauto.
Qed.

(** The joined blocks contain the standard output of each result. *)
Lemma blocks_contain_each (cmds : list string) (rs : list ExecutionResult.t) :
  length cmds = length rs ->
  forall r, In r rs ->
    py.contains (py.join newline (TestExecutor.stdout_blocks cmds rs))
                (ExecutionResult.stdout r).
Proof.
  intros Hlen r Hin.
  destruct (in_combine_exists _ _ _ Hlen Hin) as [cmd Hc].
  apply contains_trans with (b := block cmd (ExecutionResult.stdout r)).
  - apply contains_join. unfold TestExecutor.stdout_blocks.
    apply in_map_iff. exists (cmd, r). auto.
  - apply block_contains.
Qed.

Lemma stdout_blocks_snoc cmds rs c rc :
  length cmds = length rs ->
  TestExecutor.stdout_blocks (cmds ++ [c]) (rs ++ [rc])
  = (TestExecutor.stdout_blocks cmds rs
       ++ [block c (ExecutionResult.stdout rc)])%list.
Proof.
  intros H. unfold TestExecutor.stdout_blocks.
  now rewrite (combine_snoc _ _ _ _ H), map_app.
Qed.

Lemma contains_empty (hay : string) : py.contains hay "".
Proof. exists "", hay. reflexivity. Qed.

(** The joined blocks contain the standard error of each result. *)
Lemma stderr_blocks_contain_each (cmds : list string)
    (rs : list ExecutionResult.t) :
  length cmds = length rs ->
  forall r, In r rs ->
    py.contains (py.join newline (TestExecutor.stderr_blocks cmds rs))
                (ExecutionResult.stderr r).
Proof.
  intros Hlen r Hin.
  destruct (ExecutionResult.stderr r) as [|x err] eqn:E;
    [apply contains_empty|].
  destruct (in_combine_exists _ _ _ Hlen Hin) as [cmd Hc].
  apply contains_trans with (b := block cmd (String x err)).
  - apply contains_join. unfold TestExecutor.stderr_blocks.
    apply in_flat_map. exists (cmd, r). split; [exact Hc|].
    cbn [fst snd]. rewrite E. simpl. auto.
  - apply block_contains.
Qed.

Lemma stderr_blocks_snoc cmds rs c rc :
  length cmds = length rs ->
  TestExecutor.stderr_blocks (cmds ++ [c]) (rs ++ [rc])
  = (TestExecutor.stderr_blocks cmds rs
       ++ match ExecutionResult.stderr rc with
          | EmptyString => []
          | err => [block c err]
          end)%list.
Proof.
  intros H. unfold TestExecutor.stderr_blocks.
  rewrite (combine_snoc _ _ _ _ H), flat_map_app. cbn [flat_map fst snd].
  now rewrite app_nil_r.
Qed.

(** The sequence whose first failing command is [c], after the commands
    [pre] that succeed and before the commands [post]. *)
Lemma sequence_first_failure (pre : list string) (c : string)
    (post : list string) (self : TestExecutor.t) (w : World)
    (rs : list ExecutionResult.t) (self1 : TestExecutor.t) (w1 : World)
    (rc : ExecutionResult.t) (self2 : TestExecutor.t) (w2 : World) :
  TestExecutor.run_each os pre timeout env stream shell self w
  = (rs, self1, w1) ->
  forallb ExecutionResult.success rs = true ->
  TestExecutor._execute_single os c timeout env stream shell self1 w1
  = (rc, self2, w2) ->
  ExecutionResult.success rc = false ->
  exists R,
    TestExecutor._execute_sequence os (pre ++ c :: post) timeout env stream
                                   shell self w = (R, self2, w2)
    /\ ExecutionResult.exit_code R = ExecutionResult.exit_code rc
    /\ ExecutionResult.exit_code R <> 0%Z
    /\ ExecutionResult.stdout R
       = py.join newline
           (TestExecutor.stdout_blocks (pre ++ [c]) (rs ++ [rc]))
    /\ ExecutionResult.stderr R
       = py.join newline
           (TestExecutor.stderr_blocks (pre ++ [c]) (rs ++ [rc]))
    /\ (forall r, In r (rs ++ [rc]) ->
                  py.contains (ExecutionResult.stdout R)
                              (ExecutionResult.stdout r)
                  /\ py.contains (ExecutionResult.stderr R)
                                 (ExecutionResult.stderr r)).
Proof.
  intros Hpre Hok Hc Hfail.
  pose proof (run_each_length _ _ _ _ _ _ Hpre) as Hlen.
  assert (Hlen' : length (pre ++ [c]) = length (rs ++ [rc])).
  { rewrite !length_app. simpl. now rewrite Hlen. }
  unfold TestExecutor._execute_sequence.
  rewrite (loop_through_successes _ pre (c :: post) _ _ _ _ _ _ _ _ Hpre Hok).
  cbn [TestExecutor.sequence_loop]. rewrite Hc, Hfail. cbn [negb].
  eexists. split; [reflexivity|]. cbn [ExecutionResult.exit_code
                                         ExecutionResult.stdout
                                         ExecutionResult.stderr].
  assert (Hout : py.append ([] ++ TestExecutor.stdout_blocks pre rs)
                           (block c (ExecutionResult.stdout rc))
                 = TestExecutor.stdout_blocks (pre ++ [c]) (rs ++ [rc])).
  { unfold py.append. simpl. now rewrite stdout_blocks_snoc by auto. }
  assert (Herr : match ExecutionResult.stderr rc with
                 | EmptyString => ([] ++ TestExecutor.stderr_blocks pre rs)%list
                 | String x err =>
                     py.append ([] ++ TestExecutor.stderr_blocks pre rs)
                               (block c (String x err))
                 end
                 = TestExecutor.stderr_blocks (pre ++ [c]) (rs ++ [rc])).
  { rewrite stderr_blocks_snoc by auto. unfold py.append. simpl.
    destruct (ExecutionResult.stderr rc); [now rewrite app_nil_r | reflexivity]. }
  rewrite Hout, Herr.
  split; [reflexivity|]. split.
  { unfold ExecutionResult.success in Hfail. now apply Z.eqb_neq. }
  split; [reflexivity|]. split; [reflexivity|].
  intros r Hr. split.
  - now apply blocks_contain_each.
  - now apply stderr_blocks_contain_each.
Qed.

(** The sequence whose commands all succeed. *)
Lemma sequence_all_succeed (cmds : list string) (self : TestExecutor.t)
    (w : World) (rs : list ExecutionResult.t) (self1 : TestExecutor.t)
    (w1 : World) :
  TestExecutor.run_each os cmds timeout env stream shell self w
  = (rs, self1, w1) ->
  forallb ExecutionResult.success rs = true ->
  exists R,
    TestExecutor._execute_sequence os cmds timeout env stream shell self w
    = (R, self1, w1)
    /\ ExecutionResult.exit_code R = 0%Z
    /\ ExecutionResult.stdout R
       = py.join newline (TestExecutor.stdout_blocks cmds rs)
    /\ (forall r, In r rs ->
                  py.contains (ExecutionResult.stdout R)
                              (ExecutionResult.stdout r)
                  /\ py.contains (ExecutionResult.stderr R)
                                 (ExecutionResult.stderr r)).
Proof.
  intros Hall Hok.
  pose proof (run_each_length _ _ _ _ _ _ Hall) as Hlen.
  unfold TestExecutor._execute_sequence.
  pose proof (loop_through_successes cmds cmds [] [] [] 0 _ _ _ _ _ Hall Hok)
    as Hloop.
  rewrite app_nil_r in Hloop. rewrite Hloop.
  cbn [TestExecutor.sequence_loop app].
  eexists. split; [reflexivity|].
  cbn [ExecutionResult.exit_code ExecutionResult.stdout ExecutionResult.stderr].
  split; [reflexivity|]. split; [reflexivity|].
  intros r Hr. split.
  - apply blocks_contain_each; auto.
  - apply stderr_blocks_contain_each; auto.
Qed.

(** C5: a sequence of commands stops at the first command whose exit code is
    not zero.  When the commands [pre] exit with zero and the next command
    [c] does not, the sequence [pre ++ c :: post] returns the exit code of
    [c]; its standard output is made of the blocks of [pre] and [c] and so
    contains the output of each of them; and the executor and the machine
    are left as [c] left them, so no command of [post] was run and none of
    their output is in the result.  When all commands exit with zero the
    exit code is 0. *)
Theorem sequence_stops_at_first_failure :
  (forall (pre : list string) (c : string) (post : list string)
          (self : TestExecutor.t) (w : World) (rs : list ExecutionResult.t)
          (self1 : TestExecutor.t) (w1 : World) (rc : ExecutionResult.t)
          (self2 : TestExecutor.t) (w2 : World),
      TestExecutor.run_each os pre timeout env stream shell self w
      = (rs, self1, w1) ->
      forallb ExecutionResult.success rs = true ->
      TestExecutor._execute_single os c timeout env stream shell self1 w1
      = (rc, self2, w2) ->
      ExecutionResult.success rc = false ->
      exists R,
        TestExecutor.execute os (Sequence (pre ++ c :: post)) timeout env
                             stream shell self w = (R, self2, w2)
        /\ ExecutionResult.exit_code R = ExecutionResult.exit_code rc
        /\ ExecutionResult.exit_code R <> 0%Z
        /\ ExecutionResult.stdout R
           = py.join newline
               (TestExecutor.stdout_blocks (pre ++ [c]) (rs ++ [rc]))
        /\ ExecutionResult.stderr R
           = py.join newline
               (TestExecutor.stderr_blocks (pre ++ [c]) (rs ++ [rc]))
        /\ (forall r, In r (rs ++ [rc]) ->
                      py.contains (ExecutionResult.stdout R)
                                  (ExecutionResult.stdout r)
                      /\ py.contains (ExecutionResult.stderr R)
                                     (ExecutionResult.stderr r)))
  /\ (forall (cmds : list string) (self : TestExecutor.t) (w : World)
             (rs : list ExecutionResult.t) (self1 : TestExecutor.t)
             (w1 : World),
         TestExecutor.run_each os cmds timeout env stream shell self w
         = (rs, self1, w1) ->
         forallb ExecutionResult.success rs = true ->
         exists R,
           TestExecutor.execute os (Sequence cmds) timeout env stream shell
                                self w = (R, self1, w1)
           /\ ExecutionResult.exit_code R = 0%Z
           /\ (forall r, In r rs ->
                         py.contains (ExecutionResult.stdout R)
                                     (ExecutionResult.stdout r)
                         /\ py.contains (ExecutionResult.stderr R)
                                        (ExecutionResult.stderr r))).
Proof.
  split.
  - intros. cbn [TestExecutor.execute]. eapply sequence_first_failure; eauto.
  - intros cmds self w rs self1 w1 Hall Hok. cbn [TestExecutor.execute].
    destruct (sequence_all_succeed _ _ _ _ _ _ Hall Hok) as [R [H1 [H2 [_ H4]]]].
    exists R. auto.
Qed.

End Sequence.

(** Witness of C5: "echo first", "exit 1", "echo never" on the sample
    machine ends with the exit code 1, the machine has run the first two
    commands only, and the output has "first" in it. *)
Lemma sequence_stops_at_first_failure_witness :
  exists R,
    executor.TestExecutor.execute samples.machine
      (executor.Sequence ["echo first"; "exit 1"; "echo never"])
      None None false true samples.local_executor []
    = (R, samples.local_executor, ["echo first"; "exit 1"])
    /\ executor.ExecutionResult.exit_code R = 1%Z
    /\ py.contains (executor.ExecutionResult.stdout R)
                   ("first" ++ executor.newline).
Proof.
  destruct (proj1 (sequence_stops_at_first_failure samples.machine
                     None None false true)
                  ["echo first"] "exit 1" ["echo never"]
                  samples.local_executor []
                  [executor.ExecutionResult.mk 0 ("first" ++ executor.newline)
                                               "" (1 - 0) "echo first"]
                  samples.local_executor ["echo first"]
                  (executor.ExecutionResult.mk 1 "" "" (2 - 1) "exit 1")
                  samples.local_executor ["echo first"; "exit 1"]
                  eq_refl eq_refl eq_refl eq_refl)
    as [R [H1 [H2 [_ [_ [_ H5]]]]]].
  exists R. split; [exact H1|]. split; [exact H2|].
  apply (H5 (executor.ExecutionResult.mk 0 ("first" ++ executor.newline)
                                         "" (1 - 0) "echo first")).
  simpl. auto.
Defined.

(** ** Timeouts *)

Section Children.

Import executor.

Context (behaviour : call -> subprocess.Process).

Lemma Qle_bool_lt (x y : Q) : (y < x)%Q -> Qle_bool x y = false.
Proof.
  intros H. destruct (Qle_bool x y) eqn:E; [|reflexivity].
  apply Qle_bool_iff in E. exfalso. exact (Qlt_not_le _ _ H E).
Qed.

(** A child that has exited when its output is closed is not waited for:
    the streamed call returns its lines and its return code when the
    output ends, whatever the timeout. *)
Lemma popen_output_held (c : call) (m : subprocess.Machine) :
  (subprocess.exits_after (behaviour c)
   <= subprocess.closes_after (behaviour c))%Q ->
  subprocess.popen behaviour c m
  = (StreamExit (subprocess.lines (behaviour c))
                (subprocess.returncode (behaviour c)),
     subprocess.later (subprocess.closes_after (behaviour c)) m).
Proof.
  intros H. unfold subprocess.popen.
  apply Qle_bool_iff in H. now rewrite H.
Qed.

(** A child that goes on for longer than the timeout after it closed its
    output is left running. *)
Lemma popen_gives_up (c : call) (t : Z) (m : subprocess.Machine) :
  timeout c = Some t ->
  (subprocess.closes_after (behaviour c)
   < subprocess.exits_after (behaviour c))%Q ->
  (subprocess.closes_after (behaviour c) + inject_Z t
   < subprocess.exits_after (behaviour c))%Q ->
  subprocess.popen behaviour c m
  = (StreamTimeout (subprocess.lines (behaviour c)),
     subprocess.leave (what c)
       (subprocess.later (subprocess.waited t)
          (subprocess.later (subprocess.closes_after (behaviour c)) m))).
Proof.
  intros Ht H1 H2. unfold subprocess.popen.
  rewrite (Qle_bool_lt _ _ H1), Ht, (Qle_bool_lt _ _ H2).
  reflexivity.
Qed.

(** A buffered child that takes longer than the timeout is killed. *)
Lemma run_kills (c : call) (t : Z) (m : subprocess.Machine) :
  timeout c = Some t ->
  (inject_Z t < subprocess.exits_after (behaviour c))%Q ->
  subprocess.run behaviour c m
  = (CaptureTimeout,
     subprocess.kill (what c) (subprocess.later (subprocess.waited t) m)).
Proof.
  intros Ht H. unfold subprocess.run. rewrite Ht.
  destruct (Qle_bool (subprocess.exits_after (behaviour c))
                     (subprocess.closes_after (behaviour c))) eqn:E.
  - apply Qle_bool_iff in E.
    now rewrite (Qle_bool_lt _ _ (Qlt_le_trans _ _ _ H E)).
  - now rewrite (Qle_bool_lt _ _ H).
Qed.

End Children.

Section Timeout.

Import executor.

(** C6, what the code does: on the machine with a clock, take a command
    that runs for longer than the timeout.  In streaming mode, which is
    the default, the timeout is given to [process.wait] only, after the
    output has been read to its end.  So a command that has exited when
    its output ends is never stopped: [execute] returns its own return
    code and its whole output with an empty stderr, after the whole
    running time, and nothing is killed.  When the command closes its output and goes on for longer
    than the timeout, [execute] returns the exit code 124 and the text
    "Command timed out after <timeout>s", and the child is left running,
    not killed.  In buffered mode [execute] returns 124 and that text, and
    the child that was started has been killed. *)
Theorem timeout_enforced_only_when_buffered :
  forall (behaviour : call -> subprocess.Process) (cmd : string)
         (timeout : Z) (env : option (list (string * string)))
         (shell : bool) (self : TestExecutor.t) (m : subprocess.Machine),
    let os := subprocess.system behaviour in
    let c :=
      TestExecutor.subprocess_call os cmd (Some timeout) env shell self m in
    let p := behaviour c in
    (inject_Z timeout < subprocess.exits_after p)%Q ->
    let streamed :=
      TestExecutor.execute os (Single cmd) (Some timeout) env true shell
                           self m in
    let buffered :=
      TestExecutor.execute os (Single cmd) (Some timeout) env false shell
                           self m in
    ((subprocess.exits_after p <= subprocess.closes_after p)%Q ->
     ExecutionResult.exit_code (fst (fst streamed)) = subprocess.returncode p
     /\ ExecutionResult.stdout (fst (fst streamed))
        = String.concat "" (subprocess.lines p)
     /\ ExecutionResult.stderr (fst (fst streamed)) = ""
     /\ (ExecutionResult.duration (fst (fst streamed))
         == subprocess.closes_after p)%Q
     /\ (inject_Z timeout
         < ExecutionResult.duration (fst (fst streamed)))%Q
     /\ subprocess.killed (snd streamed) = subprocess.killed m
     /\ subprocess.left_running (snd streamed) = subprocess.left_running m)
    /\ ((subprocess.closes_after p < subprocess.exits_after p)%Q ->
        (subprocess.closes_after p + inject_Z timeout
         < subprocess.exits_after p)%Q ->
        ExecutionResult.exit_code (fst (fst streamed)) = 124%Z
        /\ ExecutionResult.stderr (fst (fst streamed))
           = timed_out_message (Some timeout)
        /\ subprocess.killed (snd streamed) = subprocess.killed m
        /\ subprocess.left_running (snd streamed)
           = what c :: subprocess.left_running m)
    /\ (ExecutionResult.exit_code (fst (fst buffered)) = 124%Z
        /\ ExecutionResult.stderr (fst (fst buffered))
           = timed_out_message (Some timeout)
        /\ subprocess.killed (snd buffered) = what c :: subprocess.killed m
        /\ subprocess.left_running (snd buffered)
           = subprocess.left_running m).
Proof.
  intros behaviour cmd timeout env shell self m os c p Hlong streamed buffered.
  subst streamed buffered.
  unfold TestExecutor.execute, TestExecutor._execute_single.
  change (path_exists os (TestExecutor.working_dir self) m) with true.
  cbn [negb]. fold c.
  change (popen os c m) with (subprocess.popen behaviour c m).
  change (run os c m) with (subprocess.run behaviour c m).
  split; [|split].
  - intros Hheld. rewrite (popen_output_held behaviour c m Hheld). fold p.
    cbn [fst snd ExecutionResult.exit_code ExecutionResult.stdout
         ExecutionResult.stderr ExecutionResult.duration
         subprocess.later subprocess.killed subprocess.left_running].
    assert (Hd : (time os (subprocess.later (subprocess.closes_after p) m)
                  - time os m == subprocess.closes_after p)%Q).
    { cbn [time os subprocess.system subprocess.later subprocess.clock].
      ring. }
    repeat split; try reflexivity.
    + exact Hd.
    + rewrite Hd. exact (Qlt_le_trans _ _ _ Hlong Hheld).
  - intros Hopen Hlonger.
    rewrite (popen_gives_up behaviour c timeout m eq_refl Hopen Hlonger).
    repeat split; reflexivity.
  - rewrite (run_kills behaviour c timeout m eq_refl Hlong).
    repeat split; reflexivity.
Qed.

End Timeout.

(** Witness of C6: "sleep 10" with a timeout of one second, streamed, on
    the machine with a clock: the exit code is 0, the call takes ten
    seconds and nothing is killed. *)
Lemma timeout_enforced_only_when_buffered_witness :
  let streamed :=
    executor.TestExecutor.execute (subprocess.system samples.child)
      (executor.Single "sleep 10") (Some 1%Z) None true true
      samples.local_executor samples.idle in
  executor.ExecutionResult.exit_code (fst (fst streamed)) = 0%Z
  /\ executor.ExecutionResult.stdout (fst (fst streamed)) = ""
  /\ executor.ExecutionResult.stderr (fst (fst streamed)) = ""
  /\ (executor.ExecutionResult.duration (fst (fst streamed)) == 10)%Q
  /\ (inject_Z 1 < executor.ExecutionResult.duration (fst (fst streamed)))%Q
  /\ subprocess.killed (snd streamed) = []
  /\ subprocess.left_running (snd streamed) = [].
Proof.
  exact (proj1 (timeout_enforced_only_when_buffered samples.child "sleep 10"
                  1 None true samples.local_executor samples.idle
                  eq_refl)
               (fun H => match H with eq_refl => I end)).
Defined.

(** The same command in buffered mode, and a command that closes its
    output before it sleeps in streaming mode: both give 124 after one
    second; the first child is killed, the second is left running. *)
Example timeout_reported :
  let result_of cmd stream :=
    executor.TestExecutor.execute (subprocess.system samples.child)
      (executor.Single cmd) (Some 1%Z) None stream true
      samples.local_executor samples.idle in
  let buffered := result_of "sleep 10" false in
  let streamed := result_of "exec >&- 2>&-; sleep 10" true in
  executor.ExecutionResult.exit_code (fst (fst buffered)) = 124%Z
  /\ executor.ExecutionResult.stderr (fst (fst buffered))
     = "Command timed out after 1s"
  /\ subprocess.killed (snd buffered) = [executor.Shell "sleep 10"]
  /\ subprocess.clock (snd buffered) == 1
  /\ executor.ExecutionResult.exit_code (fst (fst streamed)) = 124%Z
  /\ subprocess.killed (snd streamed) = []
  /\ subprocess.left_running (snd streamed)
     = [executor.Shell "exec >&- 2>&-; sleep 10"]
  /\ subprocess.clock (snd streamed) == 1.
Proof. vm_compute. repeat split; reflexivity. Qed.

(** Counterexample to C6 as stated: the exit code 124 is not set apart for
    timeouts.  On the sample machine "exit 124" runs to its end and
    "sleep 10" runs into the timeout in buffered mode, and both give the
    exit code 124. *)
Lemma timeout_code_not_reserved :
  let run_of cmd :=
    executor.run samples.machine
      (executor.TestExecutor.subprocess_call samples.machine cmd (Some 1%Z)
         None true samples.local_executor [])
      [] in
  let result_of cmd :=
    fst (fst (executor.TestExecutor.execute samples.machine
                (executor.Single cmd) (Some 1%Z) None false true
                samples.local_executor [])) in
  fst (run_of "exit 124") = executor.CaptureExit 124 "" ""
  /\ fst (run_of "sleep 10") = executor.CaptureTimeout
  /\ executor.ExecutionResult.exit_code (result_of "exit 124")
     = executor.ExecutionResult.exit_code (result_of "sleep 10").
Proof. repeat split. Qed.

(** ** Validation of composite dependencies *)

Section CompositeDeps.

Import config.

Lemma check_deps_spec (name : string) (deps : list string)
    (all : environments_dict) :
  (SystemEvalConfig.check_deps name deps all = py.Return tt
   /\ forall d, In d deps -> has_key d all = true)
  \/ (exists msg d,
         SystemEvalConfig.check_deps name deps all
         = py.Raise (py.ValueError msg)
         /\ In d deps /\ has_key d all = false).
Proof.
  induction deps as [|dep deps IH]; simpl.
  - left. split; [reflexivity|]. intros d [].
  - destruct (has_key dep all) eqn:E.
    + destruct IH as [[H1 H2]|[msg [d [H1 [H2 H3]]]]].
      * left. split; [exact H1|]. intros d [Hd|Hd]; subst; auto.
      * right. exists msg, d. auto.
    + right. eexists. exists dep. split; [reflexivity|]. auto.
Qed.

Lemma check_items_spec (items all : environments_dict) :
  (SystemEvalConfig.check_items items all = py.Return tt
   /\ forall name common deps d,
        In (name, CompositeEnvConfig common deps) items -> In d deps ->
        has_key d all = true)
  \/ (exists msg name common deps d,
         SystemEvalConfig.check_items items all
         = py.Raise (py.ValueError msg)
         /\ In (name, CompositeEnvConfig common deps) items
         /\ In d deps /\ has_key d all = false).
Proof.
  induction items as [|[name cfg] items IH]; simpl.
  - left. split; [reflexivity|]. intros ? ? ? ? [].
  - assert (Hother :
      (forall common deps, cfg <> CompositeEnvConfig common deps) ->
      (if (type cfg =? "composite")%string
       then match cfg with
            | CompositeEnvConfig _ deps =>
                SystemEvalConfig.check_deps name deps all
            | _ => py.Return tt
            end
       else py.Return tt) = py.Return tt).
    { intros Hn. destruct cfg; try reflexivity. now destruct (Hn common depends_on). }
    destruct cfg as [c a b p e|c a b d h pn sb|c deps|c p a r|c sv t tr];
      try (rewrite Hother by (intros; discriminate); simpl;
           destruct IH as [[H1 H2]|[msg [n [cm [ds [d' [H1 [H2 [H3 H4]]]]]]]]];
           [ left; split; [exact H1|];
             intros n cm ds d' [Hin|Hin] Hd; [discriminate|eauto]
           | right; exists msg, n, cm, ds, d'; auto ]).
    clear Hother. cbn [type]. change ("composite" =? "composite")%string with true.
    cbv iota.
    destruct (check_deps_spec name deps all) as [[H1 H2]|[msg [d [H1 [H2 H3]]]]].
    + rewrite H1. simpl.
      destruct IH as [[G1 G2]|[msg [n [cm [ds [d' [G1 [G2 [G3 G4]]]]]]]]].
      * left. split; [exact G1|].
        intros n cm ds d' [Hin|Hin] Hd; [|eauto].
        injection Hin as -> -> ->. auto.
      * right. exists msg, n, cm, ds, d'. auto.
    + rewrite H1. simpl. right. exists msg, name, c, deps, d. auto.
Qed.

(** C8, as amended: validation at construction time accepts a set of
    environments exactly when every name that a composite environment lists
    in depends_on is the name of an environment of the set, and raises
    ValueError otherwise.  Nothing else about the dependency graph is
    checked: every set whose dependency names are defined is accepted. *)
Theorem composite_deps_checked_for_existence_only :
  forall (allowed_adapters : list string) (fields : SystemEvalConfig.t),
    SystemEvalConfig.validate_adapter allowed_adapters
                                      (SystemEvalConfig.adapter fields)
    = py.Return (SystemEvalConfig.adapter fields) ->
    (deps_defined (SystemEvalConfig.environments fields) ->
     SystemEvalConfig.create allowed_adapters fields = py.Return fields)
    /\ (~ deps_defined (SystemEvalConfig.environments fields) ->
        exists msg,
          SystemEvalConfig.create allowed_adapters fields
          = py.Raise (py.ValueError msg))
    /\ (SystemEvalConfig.create allowed_adapters fields = py.Return fields ->
        deps_defined (SystemEvalConfig.environments fields)).
Proof.
  intros allowed fields Ha.
  unfold SystemEvalConfig.create, SystemEvalConfig.validate_composite_deps.
  rewrite Ha. cbn [py.bind].
  destruct (check_items_spec (SystemEvalConfig.environments fields)
                             (SystemEvalConfig.environments fields))
    as [[H1 H2]|[msg [n [cm [ds [d [H1 [H2 [H3 H4]]]]]]]]]; rewrite H1;
    cbn [py.bind].
  - assert (Hd : deps_defined (SystemEvalConfig.environments fields)).
    { intros a b [cm [ds [Hin Hb]]]. eauto. }
    split; [reflexivity|]. split; [intros Hn; now destruct Hn|]. auto.
  - assert (Hd : ~ deps_defined (SystemEvalConfig.environments fields)).
    { intros Hd. assert (has_key d (SystemEvalConfig.environments fields) = true).
      { apply (Hd n d). exists cm, ds. auto. }
      congruence. }
    split; [intros H; now destruct Hd|]. split; [eauto|]. discriminate.
Qed.

End CompositeDeps.

(** Witness of C8: the environments of the test suite are accepted. *)
Lemma composite_deps_checked_for_existence_only_witness :
  config.SystemEvalConfig.create ["pytest"; "pipeline"] samples.full_stack
  = py.Return samples.full_stack.
Proof.
  apply (composite_deps_checked_for_existence_only
           ["pytest"; "pipeline"] samples.full_stack eq_refl).
  intros a b [cm [ds [Hin Hb]]]. simpl in Hin.
  destruct Hin as [Hin|[Hin|[Hin|[]]]]; try discriminate.
  injection Hin as <- <- <-.
  simpl in Hb. destruct Hb as [<-|[<-|[]]]; reflexivity.
Defined.

(** Counterexample to C8 as stated: two composite environments that depend
    on each other form a cycle, and the configuration is constructed. *)
Lemma cyclic_configuration_accepted :
  config.cyclic (config.SystemEvalConfig.environments samples.two_cycle)
  /\ config.SystemEvalConfig.create ["pytest"] samples.two_cycle
     = py.Return samples.two_cycle.
Proof.
  split; [|reflexivity].
  exists "a". apply config.path_more with (b := "b").
  - exists samples.plain, ["b"]. simpl. auto.
  - apply config.path_step. exists samples.plain, ["a"]. simpl. auto.
Qed.

(** ** Waiting for the browser environment *)

Section BrowserWait.

Import browser.

Context {World : Type} (time : World -> Q).

Lemma int_inject_Z (n : Z) : int (inject_Z n) = n.
Proof. unfold int, inject_Z. simpl. apply Z.quot_1_r. Qed.

Lemma Qle_bool_true (x : Q) : (x <= 0)%Q -> Qle_bool x 0 = true.
Proof. intros H. now apply Qle_bool_iff. Qed.

Lemma Qle_bool_false (x : Q) : (0 < x)%Q -> Qle_bool x 0 = false.
Proof.
  intros H. destruct (Qle_bool x 0) eqn:E; [|reflexivity].
  apply Qle_bool_iff in E. exfalso. eapply Qlt_not_le; eauto.
Qed.

(** C10: wait_ready(timeout) waits on the server first, with the whole
    budget.  When the server is not ready the result is false.  When the
    server is ready and has used up the budget, the result is true and the
    machine is as the server left it: the tunnel is not waited on, and when
    the tunnel is not ready then, the environment reports ready although
    is_ready() is false.  When some budget is left, the tunnel is waited on
    with the whole seconds of what is left, and its answer is the result. *)
Theorem wait_ready_skips_tunnel_without_budget :
  forall (self : BrowserEnvironment.t World) (server : Environment World)
         (timeout : Z) (w w1 : World) (ready : bool),
    BrowserEnvironment._server self = Some server ->
    wait_ready server timeout w = (ready, w1) ->
    let remaining := (inject_Z timeout - (time w1 - time w))%Q in
    (ready = false ->
     BrowserEnvironment.wait_ready time timeout self w = (false, self, w1))
    /\ (ready = true -> (remaining <= 0)%Q ->
        BrowserEnvironment.wait_ready time timeout self w
        = (true,
           BrowserEnvironment.mk (BrowserEnvironment._server self)
                                 (BrowserEnvironment._tunnel self)
                                 (time w1 - time w)%Q,
           w1)
        /\ forall tunnel,
             BrowserEnvironment._tunnel self = Some tunnel ->
             is_ready tunnel w1 = false ->
             BrowserEnvironment.is_ready
               (snd (fst (BrowserEnvironment.wait_ready time timeout self w)))
               w1 = false)
    /\ (ready = true -> (0 < remaining)%Q ->
        forall tunnel tunnel_ready w2,
          BrowserEnvironment._tunnel self = Some tunnel ->
          wait_ready tunnel (int remaining) w1 = (tunnel_ready, w2) ->
          fst (fst (BrowserEnvironment.wait_ready time timeout self w))
          = tunnel_ready
          /\ snd (BrowserEnvironment.wait_ready time timeout self w) = w2).
Proof.
  intros self server timeout w w1 ready Hs Hw remaining.
  unfold BrowserEnvironment.wait_ready, BrowserEnvironment.server_phase.
  rewrite Hs, int_inject_Z, Hw.
  split; [|split].
  - intros ->. reflexivity.
  - intros -> Hle. cbn [negb]. fold remaining.
    assert (Ht : BrowserEnvironment.tunnel_phase time self remaining w1
                 = (Some remaining, w1)).
    { unfold BrowserEnvironment.tunnel_phase.
      destruct (BrowserEnvironment._tunnel self); [|reflexivity].
      now rewrite (Qle_bool_true _ Hle). }
    rewrite Ht. split; [reflexivity|].
    intros tunnel Htun Hnot. cbn [fst snd].
    unfold BrowserEnvironment.is_ready.
    cbn [BrowserEnvironment._server BrowserEnvironment._tunnel].
    rewrite Htun, Hnot. apply andb_false_r.
  - intros -> Hlt tunnel tunnel_ready w2 Htun Hwt. cbn [negb]. fold remaining.
    unfold BrowserEnvironment.tunnel_phase.
    rewrite Htun, (Qle_bool_false _ Hlt). cbn [negb]. rewrite Hwt.
    destruct tunnel_ready; cbn [negb fst snd]; auto.
Qed.

End BrowserWait.

(** Witness of C10: a server that takes the whole 5 seconds and a tunnel
    that is never ready; wait_ready(5) answers true, only the server was
    waited on, and is_ready() is false afterwards. *)
Lemma wait_ready_skips_tunnel_without_budget_witness :
  browser.BrowserEnvironment.wait_ready samples.clock 5 samples.browser_env
                                        (0%Z, [])
  = (true,
     browser.BrowserEnvironment.mk (Some samples.slow_server)
                                   (Some samples.dead_tunnel) (5 - 0)%Q,
     (5%Z, ["server"]))
  /\ browser.BrowserEnvironment.is_ready
       (snd (fst (browser.BrowserEnvironment.wait_ready
                    samples.clock 5 samples.browser_env (0%Z, []))))
       (5%Z, ["server"]) = false.
Proof.
  destruct (proj1 (proj2 (wait_ready_skips_tunnel_without_budget
                            samples.clock samples.browser_env
                            samples.slow_server 5 (0%Z, []) (5%Z, ["server"])
                            true eq_refl eq_refl))
                  eq_refl) as [H1 H2].
  - vm_compute. discriminate.
  - split; [exact H1|]. apply (H2 samples.dead_tunnel); reflexivity.
Defined.

(** ** The matcher *)

Section Matcher.

Import re.

Lemma suffix_of_refl (s : string) : suffix_of s s.
Proof. now exists "". Qed.

Lemma suffix_of_cons (c : ascii) (s' s : string) :
  suffix_of s' s -> suffix_of s' (String c s).
Proof. intros [a H]. exists (String c a). simpl. now rewrite H. Qed.

Lemma suffix_of_trans (a b c : string) :
  suffix_of a b -> suffix_of b c -> suffix_of a c.
Proof.
  intros [x H] [y G]. exists (y ++ x). now rewrite G, H, append_assoc.
Qed.

Lemma suffix_of_append (a s : string) : suffix_of s (a ++ s).
Proof. now exists a. Qed.

(** A suffix of [String c s] is the string itself or a suffix of [s]. *)
Lemma suffix_of_inv (s' : string) (c : ascii) (s : string) :
  suffix_of s' (String c s) -> s' = String c s \/ suffix_of s' s.
Proof.
  intros [[|x a] H]; simpl in H.
  - left. auto.
  - right. injection H as _ H. now exists a.
Qed.

Lemma suffix_of_empty (s' : string) : suffix_of s' "" -> s' = "".
Proof.
  intros [[|x a] H]; simpl in H; [auto | discriminate].
Qed.

Lemma leads_to_refl (k : matcher) : leads_to k k.
Proof. intros s st r H. exists s, st. split; [apply suffix_of_refl | exact H]. Qed.

Lemma leads_to_trans (a b c : matcher) :
  leads_to a b -> leads_to b c -> leads_to a c.
Proof.
  intros Hab Hbc s st r H.
  destruct (Hab _ _ _ H) as [s1 [st1 [S1 H1]]].
  destruct (Hbc _ _ _ H1) as [s2 [st2 [S2 H2]]].
  exists s2, st2. split; [|exact H2]. eapply suffix_of_trans; eauto.
Qed.

Lemma once_leads_to (ok : ascii -> bool) (k : matcher) : leads_to (once ok k) k.
Proof.
  intros [|c s] st r H; simpl in H; [discriminate|].
  destruct (ok c); [|discriminate].
  exists s, (take c st). split; [|exact H].
  apply suffix_of_cons, suffix_of_refl.
Qed.

Lemma star_leads_to (ok : ascii -> bool) (k : matcher) : leads_to (star ok k) k.
Proof.
  intros s. induction s as [|c s IH]; intros st r H; simpl in H.
  - exists "", st. split; [apply suffix_of_refl | exact H].
  - destruct (ok c).
    + destruct (star ok k s (take c st)) as [r'|] eqn:E.
      * injection H as <-. destruct (IH _ _ E) as [s' [st' [S K]]].
        exists s', st'. split; [now apply suffix_of_cons | exact K].
      * exists (String c s), st. split; [apply suffix_of_refl | exact H].
    + exists (String c s), st. split; [apply suffix_of_refl | exact H].
Qed.

Lemma lazy_star_leads_to (ok : ascii -> bool) (k : matcher) :
  leads_to (lazy_star ok k) k.
Proof.
  intros s. induction s as [|c s IH]; intros st r H; simpl in H.
  - destruct (k "" st) as [r'|] eqn:E; [|discriminate].
    exists "", st. split; [apply suffix_of_refl | now rewrite E].
  - destruct (k (String c s) st) as [r'|] eqn:E.
    + exists (String c s), st. split; [apply suffix_of_refl | now rewrite E].
    + destruct (ok c); [|discriminate].
      destruct (IH _ _ H) as [s' [st' [S K]]].
      exists s', st'. split; [now apply suffix_of_cons | exact K].
Qed.

(** A match of a pattern ends with a match of each of its tails. *)
Lemma match_here_tail (icase : bool) (p1 p2 : pattern) :
  leads_to (match_here icase (p1 ++ p2)%list) (match_here icase p2).
Proof.
  induction p1 as [|n p1 IH]; [apply leads_to_refl|].
  destruct n as [a q| |]; cbn [app match_here].
  - destruct q.
    + eapply leads_to_trans; [apply once_leads_to | exact IH].
    + intros s st r H.
      destruct (once (accepts icase a) (match_here icase (p1 ++ p2)%list) s st)
        as [r'|] eqn:E.
      * injection H as <-.
        apply (leads_to_trans _ _ _ (once_leads_to _ _) IH _ _ _ E).
      * apply (IH _ _ _ H).
    + eapply leads_to_trans; [apply star_leads_to | exact IH].
    + eapply leads_to_trans; [apply once_leads_to|].
      eapply leads_to_trans; [apply star_leads_to | exact IH].
    + eapply leads_to_trans; [apply lazy_star_leads_to | exact IH].
  - intros s st r H. apply (IH _ _ _ H).
  - intros s st r H. apply (IH _ _ _ H).
Qed.

(** A match starts with a character that the first atom accepts. *)
Lemma match_here_first (icase : bool) (p : pattern) (a : atom) :
  first_atom p = Some a ->
  forall s st r,
    match_here icase p s st = Some r ->
    exists c s', s = String c s' /\ accepts icase a c = true.
Proof.
  induction p as [|n p IH]; [discriminate|].
  destruct n as [b q| |]; cbn [first_atom match_here]; intros Hf s st r H.
  - destruct q; try discriminate; injection Hf as ->;
      destruct s as [|c s']; simpl in H; try discriminate;
      destruct (accepts icase a c) eqn:E; try discriminate; eauto.
  - eapply IH; eauto.
  - eapply IH; eauto.
Qed.

Lemma match_here_rejects (icase : bool) (p : pattern) (a : atom) (c : ascii)
    (s : string) (st : captures) :
  first_atom p = Some a -> accepts icase a c = false ->
  match_here icase p (String c s) st = None.
Proof.
  intros Hf Hc. destruct (match_here icase p (String c s) st) as [r|] eqn:E;
    [|reflexivity].
  destruct (match_here_first _ _ _ Hf _ _ _ E) as [c' [s' [Hs Ha]]].
  injection Hs as <- <-. congruence.
Qed.

Lemma match_here_empty (icase : bool) (p : pattern) (a : atom)
    (st : captures) :
  first_atom p = Some a -> match_here icase p "" st = None.
Proof.
  intros Hf. destruct (match_here icase p "" st) as [r|] eqn:E; [|reflexivity].
  destruct (match_here_first _ _ _ Hf _ _ _ E) as [c' [s' [Hs _]]].
  discriminate.
Qed.

(** A search that finds something found it at some position. *)
Lemma search_at_found (icase : bool) (p : pattern) (s : string)
    (g : list string) :
  search_at icase p s = Some g ->
  exists s0 r, suffix_of s0 s /\ match_here icase p s0 no_captures = Some r.
Proof.
  induction s as [|c s IH]; simpl; intros H.
  - destruct (match_here icase p "" no_captures) as [r|] eqn:E;
      [|discriminate].
    exists "", r. split; [apply suffix_of_refl | exact E].
  - destruct (match_here icase p (String c s) no_captures) as [r|] eqn:E.
    + exists (String c s), r. split; [apply suffix_of_refl | exact E].
    + destruct (IH H) as [s0 [r [S M]]]. exists s0, r.
      split; [now apply suffix_of_cons | exact M].
Qed.

(** The search goes past a character that the first atom rejects. *)
Lemma search_at_skip (icase : bool) (p : pattern) (a : atom) (c : ascii)
    (s : string) :
  first_atom p = Some a -> accepts icase a c = false ->
  search_at icase p (String c s) = search_at icase p s.
Proof.
  intros Hf Hc. cbn [search_at].
  now rewrite (match_here_rejects _ _ _ _ _ _ Hf Hc).
Qed.

End Matcher.

Section Searches.

Import re.

Lemma all_chars_impl (f g : ascii -> bool) (s : string) :
  (forall c, f c = true -> g c = true) ->
  py.all_chars f s = true -> py.all_chars g s = true.
Proof.
  intros Hfg. induction s as [|c s IH]; simpl; [auto|].
  intros H. apply andb_true_iff in H. destruct H as [Hc Hs].
  now rewrite (Hfg _ Hc), (IH Hs).
Qed.

(** The search goes past a text of characters that the first atom
    rejects. *)
Lemma search_at_skip_prefix (icase : bool) (p : pattern) (a : atom)
    (prefix rest : string) :
  first_atom p = Some a ->
  py.all_chars (fun c => negb (accepts icase a c)) prefix = true ->
  search_at icase p (prefix ++ rest) = search_at icase p rest.
Proof.
  intros Hf. induction prefix as [|c prefix IH]; [reflexivity|].
  cbn [py.all_chars append]. intros H. apply andb_true_iff in H.
  destruct H as [Hc Hp]. apply negb_true_iff in Hc.
  rewrite (search_at_skip _ _ _ _ _ Hf Hc). now apply IH.
Qed.

Lemma never_matches_cons (icase : bool) (p : pattern) (c : ascii) (s : string) :
  (forall st, match_here icase p (String c s) st = None) ->
  never_matches icase p s -> never_matches icase p (String c s).
Proof.
  intros Hc Hs s' st Hsuf. destruct (suffix_of_inv _ _ _ Hsuf) as [->|H].
  - apply Hc.
  - now apply Hs.
Qed.

Lemma never_matches_rejected (icase : bool) (p : pattern) (a : atom)
    (s : string) :
  first_atom p = Some a ->
  py.all_chars (fun c => negb (accepts icase a c)) s = true ->
  never_matches icase p s.
Proof.
  intros Hf. induction s as [|c s IH]; cbn [py.all_chars]; intros H.
  - intros s' st Hsuf. rewrite (suffix_of_empty _ Hsuf).
    eapply match_here_empty; eauto.
  - apply andb_true_iff in H. destruct H as [Hc Hs]. apply negb_true_iff in Hc.
    apply never_matches_cons; [|now apply IH].
    intros st. eapply match_here_rejects; eauto.
Qed.

Lemma never_matches_prefix (icase : bool) (p : pattern) (a : atom)
    (prefix rest : string) :
  first_atom p = Some a ->
  py.all_chars (fun c => negb (accepts icase a c)) prefix = true ->
  never_matches icase p rest -> never_matches icase p (prefix ++ rest).
Proof.
  intros Hf. induction prefix as [|c prefix IH]; cbn [py.all_chars append];
    intros H Hr; [exact Hr|].
  apply andb_true_iff in H. destruct H as [Hc Hp]. apply negb_true_iff in Hc.
  apply never_matches_cons; [|now apply IH].
  intros st. eapply match_here_rejects; eauto.
Qed.

(** A pattern whose tail matches nowhere in the text is not found in it. *)
Lemma search_at_none_of_tail (icase : bool) (p : pattern) (n : nat)
    (s : string) :
  never_matches icase (skipn n p) s -> search_at icase p s = None.
Proof.
  intros Hn. destruct (search_at icase p s) as [g|] eqn:E; [|reflexivity].
  destruct (search_at_found _ _ _ _ E) as [s0 [r [S0 M0]]].
  rewrite <- (firstn_skipn n p) in M0.
  destruct (match_here_tail _ _ _ _ _ _ M0) as [s1 [st1 [S1 M1]]].
  rewrite (Hn s1 st1) in M1; [discriminate|].
  eapply suffix_of_trans; eauto.
Qed.

End Searches.

(** Replaces the compilation of a pattern by its result. *)
Ltac compile_patterns :=
  unfold re.search;
  repeat match goal with
         | |- context [re.compile ?p] =>
             let c := eval vm_compute in (re.compile p) in
             change (re.compile p) with c
         end;
  cbv iota beta.

(** ** A count that starts before the summary line *)

Section Boundary.

Import re.

Variable icase : bool.
Variable c0 : ascii.
Variable rest : string.
Variables counted more : pattern.
Hypothesis counted_rejects : all_reject icase c0 counted = true.

(** A match of group marks and literal characters, in a text that goes on
    with a character they reject, lies in that text. *)
Lemma match_here_local :
  forall (p : pattern),
    all_reject icase c0 p = true ->
    forall (v : string) (st : captures) r,
      match_here icase (p ++ more)%list (v ++ String c0 rest) st = Some r ->
      match_here icase p v st <> None.
Proof.
  induction p as [|n p IH]; intros Hp v st r H; [discriminate|].
  destruct n as [a q| |]; cbn [all_reject] in Hp.
  - destruct q; try discriminate.
    apply andb_true_iff in Hp. destruct Hp as [Ha Hp].
    apply negb_true_iff in Ha.
    cbn [app match_here] in H |- *.
    destruct v as [|c v]; cbn [append once] in H |- *.
    + rewrite Ha in H. discriminate.
    + destruct (accepts icase a c); [|discriminate].
      exact (IH Hp _ _ _ H).
  - cbn [app match_here] in H |- *. exact (IH Hp _ _ _ H).
  - cbn [app match_here] in H |- *. exact (IH Hp _ _ _ H).
Qed.

(** The digits of a count stop before the end of a text that has a
    character that is no digit, and what follows them lies in that text
    as well. *)
Lemma star_local :
  forall (v : string) (st : captures) r,
    py.all_chars is_digit v = false ->
    star (accepts icase Digit) (match_here icase (counted ++ more)%list)
         (v ++ String c0 rest) st = Some r ->
    star (accepts icase Digit) (match_here icase counted) v st <> None.
Proof.
  induction v as [|c v IH]; intros st r Hv H; [discriminate|].
  cbn [append star] in H |- *. cbn [py.all_chars] in Hv.
  change (accepts icase Digit c) with (is_digit c) in H |- *.
  destruct (is_digit c) eqn:Hc.
  - cbn [andb] in Hv.
    destruct (star (accepts icase Digit)
                   (match_here icase (counted ++ more)%list)
                   (v ++ String c0 rest) (take c st)) as [r'|] eqn:E.
    + pose proof (IH _ _ Hv E) as G.
      destruct (star (accepts icase Digit) (match_here icase counted) v
                     (take c st)); [discriminate | now destruct G].
    + destruct (star (accepts icase Digit) (match_here icase counted) v
                     (take c st)); [discriminate|].
      exact (match_here_local counted counted_rejects (String c v) st r H).
  - exact (match_here_local counted counted_rejects (String c v) st r H).
Qed.

Lemma all_digits_end (v : string) (c : ascii) :
  is_digit c = true -> py.all_chars is_digit v = true ->
  executor.TestExecutor.ends_with_digit (String c v) = true.
Proof.
  revert c. induction v as [|d v IH]; intros c Hc Hv; [exact Hc|].
  cbn [py.all_chars] in Hv. apply andb_true_iff in Hv. destruct Hv as [Hd Hv].
  change (executor.TestExecutor.ends_with_digit (String d v) = true).
  now apply IH.
Qed.

(** A match of the pattern "(\d+)" and literal characters, and more after
    them, that starts in a text which does not end with a digit and goes
    on with a character the literal ones reject, has its count and its
    literal characters in that text. *)
Lemma match_here_counted :
  forall (c : ascii) (v : string) (st : captures) r,
    executor.TestExecutor.ends_with_digit (String c v) = false ->
    match_here icase (Open :: Item Digit Plus :: counted ++ more)%list
               (String c v ++ String c0 rest) st = Some r ->
    match_here icase (Open :: Item Digit Plus :: counted) (String c v) st
    <> None.
Proof.
  intros c v st r Hend H.
  cbn [match_here append once] in H |- *.
  change (accepts icase Digit c) with (is_digit c) in H |- *.
  destruct (is_digit c) eqn:Hc; [|discriminate].
  apply (star_local v _ r); [|exact H].
  destruct (py.all_chars is_digit v) eqn:Hv; [|reflexivity].
  rewrite (all_digits_end v c Hc Hv) in Hend. discriminate.
Qed.

Lemma ends_with_digit_tail (c : ascii) (v : string) :
  executor.TestExecutor.ends_with_digit (String c v) = false ->
  executor.TestExecutor.ends_with_digit v = false.
Proof. destruct v; [reflexivity | exact (fun H => H)]. Qed.

(** The search goes past a text that does not end with a digit and in
    which the count and its literal characters are not found. *)
Lemma search_at_counted :
  forall (prefix : string),
    executor.TestExecutor.ends_with_digit prefix = false ->
    search_at icase (Open :: Item Digit Plus :: counted) prefix = None ->
    search_at icase (Open :: Item Digit Plus :: counted ++ more)%list
              (prefix ++ String c0 rest)
    = search_at icase (Open :: Item Digit Plus :: counted ++ more)%list
                (String c0 rest).
Proof.
  induction prefix as [|c v IH]; intros Hend Hnone; [reflexivity|].
  cbn [search_at] in Hnone.
  destruct (match_here icase (Open :: Item Digit Plus :: counted)
                       (String c v) no_captures) as [[st s]|] eqn:E;
    [discriminate|].
  change (String c v ++ String c0 rest)
    with (String c (v ++ String c0 rest)).
  cbn [search_at].
  destruct (match_here icase (Open :: Item Digit Plus :: counted ++ more)%list
                       (String c (v ++ String c0 rest)) no_captures)
    as [[st s]|] eqn:G.
  - destruct (match_here_counted c v no_captures _ Hend G). exact E.
  - apply IH; [exact (ends_with_digit_tail c v Hend) | exact Hnone].
Qed.

End Boundary.

(** ** The output parser on the summary line *)

Section SummaryLine.

Import executor.

Variables prefix suffix : string.

Let output : string := prefix ++ samples.summary_line ++ suffix.

Hypothesis prefix_end : TestExecutor.ends_with_digit prefix = false.
Hypothesis no_passed_before : re.search "(\d+) passed" true prefix = None.
Hypothesis no_failed_before : re.search "(\d+) failed" false prefix = None.

Lemma pytest_search :
  re.search "(\d+) passed.*?(\d+) failed.*?(\d+) error.*?in ([\d.]+)s"
            true output
  = Some ["12"; "3"; "1"; "4.5"].
Proof.
  pose proof no_passed_before as H. revert H.
  unfold output. compile_patterns. intros H.
  etransitivity.
  - apply (search_at_counted true "1"
             ("2 passed, 3 failed, 1 error in 4.5s" ++ suffix)
             (re.Close :: map (fun c => re.Item (re.Chr c) re.Once)
                              (list_ascii_of_string " passed"))
             _ eq_refl prefix prefix_end H).
  - reflexivity.
Qed.

Lemma failed_search :
  re.search "(\d+) failed" false output = Some ["3"].
Proof.
  pose proof no_failed_before as H. revert H.
  unfold output. compile_patterns. intros H.
  etransitivity.
  - apply (search_at_counted false "1"
             ("2 passed, 3 failed, 1 error in 4.5s" ++ suffix)
             (re.Close :: map (fun c => re.Item (re.Chr c) re.Once)
                              (list_ascii_of_string " failed"))
             [] eq_refl prefix prefix_end H).
  - reflexivity.
Qed.

Hypothesis no_jest :
  re.search "Tests:\s*(\d+) passed,\s*(\d+) failed,\s*(\d+) total"
            false output = None.
Hypothesis no_playwright :
  re.search "(\d+) passed.*?\(([\d.]+)s\)" false output = None.

(** The parser on the summary line, when the text before it has no count
    of its own and the output has no Jest and no Playwright summary. *)
Lemma parse_summary_line (exit_code : Z) :
  TestExecutor.parse_test_results output exit_code
  = py.Return (types.TestResult.init 12 3 1 0 (9 # 2) exit_code).
Proof.
  unfold TestExecutor.parse_test_results, TestExecutor.pytest_step,
    TestExecutor.jest_step, TestExecutor.playwright_step,
    TestExecutor.failure_step, TestExecutor.when_int.
  rewrite pytest_search. cbn [py.bind].
  change (builtins.int (re.group ["12"; "3"; "1"; "4.5"] 1)) with (py.Return 12%Z).
  change (builtins.int (re.group ["12"; "3"; "1"; "4.5"] 2)) with (py.Return 3%Z).
  change (builtins.int (re.group ["12"; "3"; "1"; "4.5"] 3)) with (py.Return 1%Z).
  change (builtins.float (re.group ["12"; "3"; "1"; "4.5"] 4))
    with (py.Return (9 # 2)).
  cbn [py.bind]. rewrite no_jest. cbn [py.bind].
  rewrite no_playwright. cbn [py.bind].
  rewrite failed_search. cbn [py.bind].
  change (builtins.int (re.group ["3"] 1)) with (py.Return 3%Z).
  reflexivity.
Qed.

End SummaryLine.



(** ** Plain text around the summary line *)

Section PlainText.

Import executor.

Variables prefix suffix : string.
Hypothesis prefix_plain : TestExecutor.no_digit prefix = true.
Hypothesis suffix_plain : TestExecutor.no_digit_no_paren suffix = true.

Let output : string := prefix ++ samples.summary_line ++ suffix.

Lemma suffix_no_digit :
  py.all_chars (fun c => negb (re.accepts false re.Digit c)) suffix = true.
Proof.
  apply (all_chars_impl _ _ _ (fun c H => proj1 (proj1 (andb_true_iff _ _) H))
                        suffix_plain).
Qed.

Lemma suffix_no_paren :
  py.all_chars (fun c => negb (re.accepts false (re.Chr "(") c)) suffix = true.
Proof.
  apply (all_chars_impl _ _ _ (fun c H => proj2 (proj1 (andb_true_iff _ _) H))
                        suffix_plain).
Qed.

Lemma plain_prefix_end : TestExecutor.ends_with_digit prefix = false.
Proof.
  revert prefix_plain. unfold TestExecutor.no_digit.
  induction prefix as [|c v IH]; [reflexivity|].
  cbn [py.all_chars]. intros H. apply andb_true_iff in H.
  destruct H as [Hc Hv]. apply negb_true_iff in Hc.
  destruct v as [|d v]; [exact Hc | exact (IH Hv)].
Qed.

(** A pattern that starts with a count is not found in a text without
    digits. *)
Lemma plain_prefix_search (icase : bool) (p : re.pattern) :
  re.first_atom p = Some re.Digit ->
  re.search_at icase p prefix = None.
Proof.
  intros Hf. rewrite <- (append_nil_r prefix).
  rewrite (search_at_skip_prefix icase p re.Digit prefix "" Hf prefix_plain).
  cbn [re.search_at]. now rewrite (match_here_empty icase p re.Digit _ Hf).
Qed.

(** Goes through the characters of a text that is known up to its end. *)
Ltac never_in_known_text :=
  repeat (apply never_matches_cons; [intros ?; reflexivity|]).

Lemma plain_jest_search :
  re.search "Tests:\s*(\d+) passed,\s*(\d+) failed,\s*(\d+) total"
            false output = None.
Proof.
  unfold output. compile_patterns.
  apply (search_at_none_of_tail false _ 31). cbn [skipn].
  apply (never_matches_prefix false _ re.Digit);
    [reflexivity | exact prefix_plain |].
  unfold samples.summary_line. cbn [append].
  never_in_known_text.
  apply (never_matches_rejected false _ re.Digit);
    [reflexivity | exact suffix_no_digit].
Qed.

Lemma plain_playwright_search :
  re.search "(\d+) passed.*?\(([\d.]+)s\)" false output = None.
Proof.
  unfold output. compile_patterns.
  rewrite (search_at_skip_prefix false _ re.Digit);
    [| reflexivity | exact prefix_plain].
  apply (search_at_none_of_tail false _ 11). cbn [skipn].
  unfold samples.summary_line. cbn [append].
  never_in_known_text.
  apply (never_matches_rejected false _ (re.Chr "("));
    [reflexivity | exact suffix_no_paren].
Qed.

(** A text without digits before the summary line and a text without
    digits and opening parentheses after it meet the conditions under
    which the line is parsed. *)
Lemma plain_text_has_no_other_counts :
  TestExecutor.ends_with_digit prefix = false
  /\ re.search "(\d+) passed" true prefix = None
  /\ re.search "(\d+) failed" false prefix = None
  /\ re.search "Tests:\s*(\d+) passed,\s*(\d+) failed,\s*(\d+) total"
               false (prefix ++ "12 passed, 3 failed, 1 error in 4.5s"
                             ++ suffix) = None
  /\ re.search "(\d+) passed.*?\(([\d.]+)s\)"
               false (prefix ++ "12 passed, 3 failed, 1 error in 4.5s"
                             ++ suffix) = None.
Proof.
  split; [exact plain_prefix_end|].
  split; [compile_patterns; now apply plain_prefix_search|].
  split; [compile_patterns; now apply plain_prefix_search|].
  split; [exact plain_jest_search | exact plain_playwright_search].
Qed.

End PlainText.


(** ** The output parser on unrecognized output *)

(** C3, what the code does: for every output in which no pattern of the
    parser matches, the parser returns passed=1, failed=0 when the exit code
    is 0 and failed=1, passed=0 otherwise, and in both cases parsed_from is
    None: the mark "fallback" is not set. *)
Theorem fallback_counts_without_marker :
  forall (output : string) (exit_code : Z),
    executor.TestExecutor.no_pattern_matches output ->
    exists r,
      executor.TestExecutor.parse_test_results output exit_code = py.Return r
      /\ (exit_code = 0%Z ->
          types.TestResult.passed r = 1%Z /\ types.TestResult.failed r = 0%Z)
      /\ (exit_code <> 0%Z ->
          types.TestResult.failed r = 1%Z /\ types.TestResult.passed r = 0%Z)
      /\ types.TestResult.parsed_from r = None
      /\ types.TestResult.parsed_from r <> Some "fallback".
Proof.
  intros output exit_code [H1 [H2 [H3 [H4 [H5 [H6 [H7 H8]]]]]]].
  unfold executor.TestExecutor.parse_test_results,
    executor.TestExecutor.pytest_step, executor.TestExecutor.jest_step,
    executor.TestExecutor.playwright_step, executor.TestExecutor.failure_step,
    executor.TestExecutor.when_int.
  rewrite H1, H2, H3, H4, H5, H6, H7, H8. cbn [py.bind].
  unfold executor.TestExecutor.exit_code_step.
  cbn [executor.TestExecutor.passed executor.TestExecutor.failed
       executor.TestExecutor.errors Z.eqb andb].
  destruct (exit_code =? 0)%Z eqn:E; eexists; (split; [reflexivity|]).
  - apply Z.eqb_eq in E. cbn.
    split; [intros _; split; reflexivity|].
    split; [intros Hne; now destruct Hne|].
    split; [reflexivity | discriminate].
  - apply Z.eqb_neq in E. cbn.
    split; [intros Heq; now destruct E|].
    split; [intros _; split; reflexivity|].
    split; [reflexivity | discriminate].
Qed.

(** Witness of C3: the unrecognized output of the test suite with the exit
    code 1. *)
Lemma fallback_counts_without_marker_witness :
  exists r,
    executor.TestExecutor.parse_test_results "Something went wrong" 1
    = py.Return r
    /\ types.TestResult.failed r = 1%Z
    /\ types.TestResult.passed r = 0%Z
    /\ types.TestResult.parsed_from r = None.
Proof.
  destruct (fallback_counts_without_marker "Something went wrong" 1)
    as [r [H1 [_ [H3 [H4 _]]]]].
  - repeat split.
  - exists r. destruct H3 as [Hf Hp]; [discriminate|]. auto.
Defined.

(** The verdict of that result is FAIL, where a result marked as a fallback
    has the verdict ERROR. *)
Example unrecognized_failure_verdict :
  exists r,
    executor.TestExecutor.parse_test_results "Something went wrong" 1
    = py.Return r
    /\ types.TestResult.verdict r = types.FAIL.
Proof. eexists. split; [vm_compute; reflexivity | reflexivity]. Qed.

(** A duration that is not a number makes the parser raise. *)
Example malformed_duration_raises :
  executor.TestExecutor.parse_test_results "built in ..s" 0
  = py.Raise (py.ValueError "could not convert string to float: '..'").
Proof. vm_compute. reflexivity. Qed.

(* ================================================================== *)
(** * Further properties of the evaluation result                      *)
(* ================================================================== *)

Section SessionMetrics.

Import evaluation.

Lemma filter_split_length {A : Type} (f : A -> bool) (l : list A) :
  (length (filter f l) + length (filter (fun a => negb (f a)) l))%nat = length l.
Proof.
  induction l as [|a l IH]; simpl; [reflexivity|].
  destruct (f a); simpl.
  - now rewrite IH.
  - now rewrite Nat.add_succ_r, IH.
Qed.

Lemma filter_nil_iff {A : Type} (f : A -> bool) (l : list A) :
  filter f l = [] <-> forall a, In a l -> f a = false.
Proof.
  induction l as [|a l IH]; simpl.
  - split; [intros _ a [] | reflexivity].
  - destruct (f a) eqn:E.
    + split; [discriminate|]. intros H. specialize (H a (or_introl eq_refl)).
      congruence.
    + rewrite IH. split.
      * intros H b [<-|Hb]; auto.
      * intros H b Hb. apply H. now right.
Qed.

Lemma forallb_filter_negb {A : Type} (f : A -> bool) (l : list A) :
  forallb f l = true <-> filter (fun a => negb (f a)) l = [].
Proof.
  rewrite forallb_forall, filter_nil_iff.
  split; intros H a Ha; specialize (H a Ha).
  - now rewrite H.
  - now apply negb_false_iff.
Qed.

(** X1: the passed and the failed metrics of a session split its metrics;
    the session is PASS exactly when it has metrics and none failed, FAIL
    exactly when some metric failed, ERROR exactly when it has none. *)
Theorem session_metrics_split :
  forall s : SessionResult.t,
    (length (SessionResult.passed_metrics s)
     + length (SessionResult.failed_metrics s))%nat
    = length (SessionResult.metrics s)
    /\ (SessionResult.verdict s = PASS <->
        SessionResult.metrics s <> [] /\ SessionResult.failed_metrics s = [])
    /\ (SessionResult.verdict s = FAIL <-> SessionResult.failed_metrics s <> [])
    /\ (SessionResult.verdict s = ERROR <-> SessionResult.metrics s = []).
Proof.
  intros s. unfold SessionResult.passed_metrics, SessionResult.failed_metrics,
              SessionResult.verdict.
  split; [apply filter_split_length|].
  destruct (SessionResult.metrics s) as [|m ms] eqn:E.
  - simpl. repeat split; try discriminate; try tauto.
  - destruct (forallb MetricResult.passed (m :: ms)) eqn:F.
    + pose proof (proj1 (forallb_filter_negb _ _) F) as Hn.
      rewrite Hn. repeat split; try discriminate; auto.
      intros H. now destruct H.
    + assert (Hn : filter (fun m0 => negb (MetricResult.passed m0)) (m :: ms)
                   <> []).
      { intros Hn. apply forallb_filter_negb in Hn. congruence. }
      repeat split; try discriminate; auto.
      intros [_ H]. now destruct Hn.
Qed.

End SessionMetrics.

Section SummaryCounts.

Import evaluation.

Lemma sum_int_acc (xs : list Z) (a : Z) :
  fold_left Z.add xs a = (a + fold_left Z.add xs 0)%Z.
Proof.
  revert a. induction xs as [|x xs IH]; intros a; simpl; [lia|].
  rewrite (IH (a + x)%Z), (IH x). lia.
Qed.

Lemma sum_int_cons (x : Z) (xs : list Z) :
  EvaluationResult.sum_int (x :: xs) = (x + EvaluationResult.sum_int xs)%Z.
Proof. unfold EvaluationResult.sum_int. simpl. apply sum_int_acc. Qed.

Lemma sum_int_ones {A : Type} (l : list A) :
  EvaluationResult.sum_int (map (fun _ => 1%Z) l) = Z.of_nat (length l).
Proof.
  induction l as [|a l IH]; [reflexivity|].
  cbn [map length]. rewrite sum_int_cons, IH. lia.
Qed.

Lemma count_verdict_length (v : Verdict) (r : EvaluationResult.t) :
  EvaluationResult.count_verdict v r
  = Z.of_nat (length (filter (fun s => Verdict_eqb (SessionResult.verdict s) v)
                             (EvaluationResult.sessions r))).
Proof. apply sum_int_ones. Qed.

(** Every session counts for exactly one verdict. *)
Lemma verdicts_split (ss : list SessionResult.t) :
  length ss
  = (length (filter (fun s => Verdict_eqb (SessionResult.verdict s) PASS) ss)
     + length (filter (fun s => Verdict_eqb (SessionResult.verdict s) FAIL) ss)
     + length (filter (fun s => Verdict_eqb (SessionResult.verdict s) ERROR) ss))%nat.
Proof.
  induction ss as [|s ss IH]; [reflexivity|].
  cbn [filter length]. destruct (SessionResult.verdict s); simpl; lia.
Qed.

Lemma not_pass_split (ss : list SessionResult.t) :
  length (filter (fun s => negb (Verdict_eqb (SessionResult.verdict s) PASS)) ss)
  = (length (filter (fun s => Verdict_eqb (SessionResult.verdict s) FAIL) ss)
     + length (filter (fun s => Verdict_eqb (SessionResult.verdict s) ERROR) ss))%nat.
Proof.
  induction ss as [|s ss IH]; [reflexivity|].
  cbn [filter length]. destruct (SessionResult.verdict s); simpl; lia.
Qed.

Lemma passed_metrics_bounds (ss : list SessionResult.t) :
  (0 <= EvaluationResult.sum_int
          (map (fun s => Z.of_nat (length (SessionResult.passed_metrics s))) ss)
   <= EvaluationResult.sum_int
        (map (fun s => Z.of_nat (length (SessionResult.metrics s))) ss))%Z.
Proof.
  induction ss as [|s ss IH]; [cbn; lia|].
  cbn [map]. rewrite !sum_int_cons.
  pose proof (filter_split_length MetricResult.passed (SessionResult.metrics s))
    as H.
  unfold SessionResult.passed_metrics in *. lia.
Qed.

(** X2: in the summary of an evaluation the passed, failed and error
    sessions add up to the total of sessions, the passed and failed metrics
    add up to the total of metrics, no count is negative, and the list
    failed_sessions has as many sessions as the failed and error counts
    together. *)
Theorem summary_counts_add_up :
  forall r : EvaluationResult.t,
    let s := EvaluationResult.summary r in
    EvaluationResult.Summary.total_sessions s
    = (EvaluationResult.Summary.passed_sessions s
       + EvaluationResult.Summary.failed_sessions s
       + EvaluationResult.Summary.error_sessions s)%Z
    /\ EvaluationResult.Summary.total_metrics s
       = (EvaluationResult.Summary.passed_metrics s
          + EvaluationResult.Summary.failed_metrics s)%Z
    /\ (0 <= EvaluationResult.Summary.passed_sessions s)%Z
    /\ (0 <= EvaluationResult.Summary.failed_sessions s)%Z
    /\ (0 <= EvaluationResult.Summary.error_sessions s)%Z
    /\ (0 <= EvaluationResult.Summary.passed_metrics s)%Z
    /\ (0 <= EvaluationResult.Summary.failed_metrics s)%Z
    /\ Z.of_nat (length (EvaluationResult.failed_sessions r))
       = (EvaluationResult.Summary.failed_sessions s
          + EvaluationResult.Summary.error_sessions s)%Z
    /\ (EvaluationResult.passed r + EvaluationResult.failed r)%Z
       = EvaluationResult.total r.
Proof.
  intros r s. subst s.
  unfold EvaluationResult.passed, EvaluationResult.failed,
    EvaluationResult.total, EvaluationResult.failed_sessions,
    EvaluationResult.summary.
  cbn [EvaluationResult.Summary.total_sessions
       EvaluationResult.Summary.passed_sessions
       EvaluationResult.Summary.failed_sessions
       EvaluationResult.Summary.error_sessions
       EvaluationResult.Summary.total_metrics
       EvaluationResult.Summary.passed_metrics
       EvaluationResult.Summary.failed_metrics].
  rewrite !count_verdict_length.
  pose proof (verdicts_split (EvaluationResult.sessions r)) as H1.
  pose proof (not_pass_split (EvaluationResult.sessions r)) as H2.
  pose proof (passed_metrics_bounds (EvaluationResult.sessions r)) as H3.
  repeat split; lia.
Qed.

End SummaryCounts.

Section ExitCode.

Import evaluation.

Lemma session_pass_iff (s : SessionResult.t) :
  SessionResult.verdict s = PASS <->
  SessionResult.metrics s <> []
  /\ forall m, In m (SessionResult.metrics s) -> MetricResult.passed m = true.
Proof.
  unfold SessionResult.verdict.
  destruct (SessionResult.metrics s) as [|m ms].
  - split; [discriminate | intros [H _]; now destruct H].
  - destruct (forallb MetricResult.passed (m :: ms)) eqn:F.
    + split; [|reflexivity]. intros _. split; [discriminate|].
      now apply forallb_forall.
    + split; [discriminate|]. intros [_ H]. apply forallb_forall in H.
      congruence.
Qed.

Lemma session_error_iff (s : SessionResult.t) :
  SessionResult.verdict s = ERROR <-> SessionResult.metrics s = [].
Proof.
  unfold SessionResult.verdict.
  destruct (SessionResult.metrics s) as [|m ms]; [tauto|].
  destruct (forallb MetricResult.passed (m :: ms)); split; discriminate.
Qed.

Lemma evaluation_verdict_pass_iff (r : EvaluationResult.t) :
  EvaluationResult.verdict r = PASS <->
  EvaluationResult.sessions r <> []
  /\ forall s, In s (EvaluationResult.sessions r) ->
               SessionResult.verdict s = PASS.
Proof.
  unfold EvaluationResult.verdict.
  destruct (EvaluationResult.sessions r) as [|s0 ss] eqn:E.
  - split; [discriminate | intros [H _]; now destruct H].
  - destruct (existsb _ (s0 :: ss)) eqn:E1.
    + split; [discriminate|]. intros [_ H].
      apply existsb_verdict in E1. destruct E1 as [s [Hin Hs]].
      rewrite (H s Hin) in Hs. discriminate.
    + destruct (existsb (fun s => Verdict_eqb (SessionResult.verdict s) FAIL)
                        (s0 :: ss)) eqn:E2.
      * split; [discriminate|]. intros [_ H].
        apply existsb_verdict in E2. destruct E2 as [s [Hin Hs]].
        rewrite (H s Hin) in Hs. discriminate.
      * split; [|reflexivity]. intros _. split; [discriminate|].
        intros s Hin. destruct (SessionResult.verdict s) eqn:V; auto.
        -- assert (existsb (fun s => Verdict_eqb (SessionResult.verdict s) FAIL)
                           (s0 :: ss) = true) by (apply existsb_verdict; eauto).
           congruence.
        -- assert (existsb (fun s => Verdict_eqb (SessionResult.verdict s) ERROR)
                           (s0 :: ss) = true) by (apply existsb_verdict; eauto).
           congruence.
Qed.

Lemma evaluation_verdict_error_iff (r : EvaluationResult.t) :
  EvaluationResult.verdict r = ERROR <->
  EvaluationResult.sessions r = []
  \/ exists s, In s (EvaluationResult.sessions r)
               /\ SessionResult.verdict s = ERROR.
Proof.
  unfold EvaluationResult.verdict.
  destruct (EvaluationResult.sessions r) as [|s0 ss] eqn:E.
  - split; auto.
  - destruct (existsb _ (s0 :: ss)) eqn:E1.
    + split; [|reflexivity]. intros _. right. now apply existsb_verdict.
    + assert (Hn : ~ exists s, In s (s0 :: ss)
                               /\ SessionResult.verdict s = ERROR).
      { intros H. apply existsb_verdict in H. congruence. }
      clear E1.
      destruct (existsb _ (s0 :: ss));
        (split; [intros H; discriminate H|]);
        intros [H|H]; try discriminate H; now destruct Hn.
Qed.

(** X3: the exit code of an evaluation is 0, 1 or 2.  It is 0 exactly when
    there is at least one session and every session has at least one metric
    and only passed metrics, which is also when there are sessions and
    failed_sessions is empty; it is 2 exactly when there is no session or
    some session has no metric. *)
Theorem exit_code_meaning :
  forall r : EvaluationResult.t,
    (EvaluationResult.exit_code r = 0%Z
     \/ EvaluationResult.exit_code r = 1%Z
     \/ EvaluationResult.exit_code r = 2%Z)
    /\ (EvaluationResult.exit_code r = 0%Z <->
        EvaluationResult.sessions r <> []
        /\ forall s, In s (EvaluationResult.sessions r) ->
             SessionResult.metrics s <> []
             /\ forall m, In m (SessionResult.metrics s) ->
                          MetricResult.passed m = true)
    /\ (EvaluationResult.exit_code r = 0%Z <->
        EvaluationResult.sessions r <> []
        /\ EvaluationResult.failed_sessions r = [])
    /\ (EvaluationResult.exit_code r = 2%Z <->
        EvaluationResult.sessions r = []
        \/ exists s, In s (EvaluationResult.sessions r)
                     /\ SessionResult.metrics s = []).
Proof.
  intros r.
  assert (H0 : EvaluationResult.exit_code r = 0%Z
               <-> EvaluationResult.verdict r = PASS).
  { unfold EvaluationResult.exit_code.
    destruct (EvaluationResult.verdict r); split; congruence. }
  assert (H2 : EvaluationResult.exit_code r = 2%Z
               <-> EvaluationResult.verdict r = ERROR).
  { unfold EvaluationResult.exit_code.
    destruct (EvaluationResult.verdict r); split; congruence. }
  split; [|split; [|split]].
  - unfold EvaluationResult.exit_code.
    destruct (EvaluationResult.verdict r); auto.
  - rewrite H0, evaluation_verdict_pass_iff.
    split; intros [Hne H]; (split; [exact Hne|]); intros s Hin;
      now apply session_pass_iff, H.
  - rewrite H0, evaluation_verdict_pass_iff.
    unfold EvaluationResult.failed_sessions. rewrite filter_nil_iff.
    split; intros [Hne H]; (split; [exact Hne|]); intros s Hin.
    + rewrite (H s Hin). reflexivity.
    + specialize (H s Hin). apply negb_false_iff in H.
      now apply Verdict_eqb_eq.
  - rewrite H2, evaluation_verdict_error_iff.
    split; (intros [H|[s [Hin H]]]; [now left | right; exists s; split; auto]).
    + now apply session_error_iff.
    + now apply session_error_iff.
Qed.

Lemma existsb_snoc {A : Type} (f : A -> bool) (l : list A) (x : A) :
  existsb f (l ++ [x])%list = existsb f l || f x.
Proof.
  rewrite existsb_app. cbn [existsb]. now rewrite orb_false_r.
Qed.

(** X4: add_session() on an evaluation that is not finalized returns, puts
    the session at the end of the list and leaves the rest of the object as
    it was.  The verdict afterwards is the verdict of the session when the
    list was empty, and otherwise the worse of the verdict before and the
    verdict of the session. *)
Theorem add_session_appends :
  forall (r : EvaluationResult.t) (s : SessionResult.t),
    EvaluationResult._finalized r = false ->
    let r' := snd (EvaluationResult.add_session s r) in
    fst (EvaluationResult.add_session s r) = py.Return tt
    /\ EvaluationResult.sessions r' = (EvaluationResult.sessions r ++ [s])%list
    /\ EvaluationResult.metadata r' = EvaluationResult.metadata r
    /\ EvaluationResult._finalized r' = false
    /\ EvaluationResult.verdict r'
       = match EvaluationResult.sessions r with
         | [] => SessionResult.verdict s
         | _ :: _ => EvaluationResult.worst (EvaluationResult.verdict r)
                                            (SessionResult.verdict s)
         end.
Proof.
  intros r s Hf r'. subst r'. unfold EvaluationResult.add_session.
  rewrite Hf. cbn [fst snd EvaluationResult.sessions EvaluationResult.metadata
                   EvaluationResult._finalized].
  repeat split.
  unfold EvaluationResult.verdict, py.append.
  cbn [EvaluationResult.sessions].
  destruct (EvaluationResult.sessions r) as [|s0 ss].
  - simpl. destruct (SessionResult.verdict s); reflexivity.
  - destruct ((s0 :: ss) ++ [s])%list as [|s1 l] eqn:E; [discriminate E|].
    rewrite <- E, !existsb_snoc.
    destruct (existsb _ (s0 :: ss)); destruct (existsb _ (s0 :: ss));
      destruct (SessionResult.verdict s); reflexivity.
Qed.

(** Witness of X4: a failing session added to an evaluation with a passing
    session gives FAIL. *)
Lemma add_session_appends_witness :
  EvaluationResult.verdict
    (snd (EvaluationResult.add_session samples.failing_session
            (samples.pytest_evaluation 1 "t" "h" [samples.passing_session])))
  = FAIL.
Proof.
  exact (proj2 (proj2 (proj2 (proj2
           (add_session_appends
              (samples.pytest_evaluation 1 "t" "h" [samples.passing_session])
              samples.failing_session eq_refl))))).
Defined.

End ExitCode.

Section FinalizedResult.

Import evaluation.

Lemma compute_hash_reads (r1 r2 : EvaluationResult.t) :
  EvaluationResult.sessions r1 = EvaluationResult.sessions r2 ->
  EvaluationMetadata.adapter_type (EvaluationResult.metadata r1)
  = EvaluationMetadata.adapter_type (EvaluationResult.metadata r2) ->
  EvaluationMetadata.category (EvaluationResult.metadata r1)
  = EvaluationMetadata.category (EvaluationResult.metadata r2) ->
  EvaluationMetadata.project_name (EvaluationResult.metadata r1)
  = EvaluationMetadata.project_name (EvaluationResult.metadata r2) ->
  EvaluationResult._compute_hash r1 = EvaluationResult._compute_hash r2.
Proof.
  intros Hs Ha Hc Hp.
  unfold EvaluationResult._compute_hash, EvaluationResult.hash_str,
    EvaluationResult.hash_content, EvaluationResult.verdict.
  now rewrite Hs, Ha, Hc, Hp.
Qed.

(** X5: the first finalize() leaves the sessions, the verdict and the exit
    code as they were; the hash it stores is the hash of the object before
    the call and also of the object after it, so the stored duration and
    the stored hash are not part of what is hashed; the duration becomes
    the time since the start when a start time was recorded and is left
    alone when the start time is zero. *)
Theorem finalize_keeps_outcome :
  forall (now : Q) (r : EvaluationResult.t),
    EvaluationResult._finalized r = false ->
    let f := snd (EvaluationResult.finalize now r) in
    EvaluationResult.sessions f = EvaluationResult.sessions r
    /\ EvaluationResult.verdict f = EvaluationResult.verdict r
    /\ EvaluationResult.exit_code f = EvaluationResult.exit_code r
    /\ EvaluationResult.run_hash f = EvaluationResult._compute_hash r
    /\ EvaluationResult.run_hash f = EvaluationResult._compute_hash f
    /\ EvaluationResult.duration f
       = (if Qeq_bool (EvaluationResult._start_time r) 0
          then EvaluationResult.duration r
          else now - EvaluationResult._start_time r)
    /\ EvaluationResult.diagnostics f = EvaluationResult.diagnostics r
    /\ EvaluationResult.warnings f = EvaluationResult.warnings r.
Proof.
  intros now r Hf f.
  assert (Hs : EvaluationResult.sessions f = EvaluationResult.sessions r)
    by apply finalize_keeps_sessions.
  assert (Hv : EvaluationResult.verdict f = EvaluationResult.verdict r)
    by (unfold EvaluationResult.verdict; now rewrite Hs).
  assert (Hh : EvaluationResult.run_hash f = EvaluationResult._compute_hash r)
    by now apply finalize_stores_hash.
  split; [exact Hs|]. split; [exact Hv|].
  split; [unfold EvaluationResult.exit_code; now rewrite Hv|].
  split; [exact Hh|].
  subst f. unfold EvaluationResult.finalize in *. rewrite Hf in *.
  split; [|split; [|split; reflexivity]].
  - rewrite Hh. apply compute_hash_reads; cbn.
    + reflexivity.
    + now destruct (Qeq_bool (EvaluationResult._start_time r) 0).
    + now destruct (Qeq_bool (EvaluationResult._start_time r) 0).
    + now destruct (Qeq_bool (EvaluationResult._start_time r) 0).
  - unfold EvaluationResult.duration. cbn.
    now destruct (Qeq_bool (EvaluationResult._start_time r) 0).
Qed.

(** Witness of X5: finalizing the evaluation with one passing session keeps
    the exit code 0. *)
Lemma finalize_keeps_outcome_witness :
  EvaluationResult.exit_code
    (snd (EvaluationResult.finalize 5
            (samples.pytest_evaluation 1 "t" "h" [samples.passing_session])))
  = EvaluationResult.exit_code
      (samples.pytest_evaluation 1 "t" "h" [samples.passing_session]).
Proof.
  exact (proj1 (proj2 (proj2
           (finalize_keeps_outcome 5
              (samples.pytest_evaluation 1 "t" "h" [samples.passing_session])
              eq_refl)))).
Defined.

End FinalizedResult.

Section HashFormat.

Import evaluation.

(** A character that is a lower-case hexadecimal digit. *)
Let is_hex (c : ascii) : Prop := exists n, json.hex_value c = Some n.

Let chars := list_ascii_of_string.

Lemma hex_digit_is_hex (n : N) : is_hex (json.hex_digit n).
Proof.
  unfold is_hex. destruct n as [|p]; [now eexists|].
  repeat (destruct p as [p|p|]; try (now eexists)).
Qed.

Lemma chars_append (a b : string) : chars (a ++ b) = (chars a ++ chars b)%list.
Proof. induction a as [|c a IH]; simpl; [reflexivity | now rewrite IH]. Qed.

Lemma length_chars (s : string) : length (chars s) = String.length s.
Proof. induction s as [|c s IH]; simpl; [reflexivity | now rewrite IH]. Qed.

Lemma hex_word_chars (w : N) :
  Forall is_hex (chars (hashlib.hex_word w))
  /\ String.length (hashlib.hex_word w) = 8%nat.
Proof.
  unfold hashlib.hex_word. cbn [hashlib.be_bytes fold_right].
  split; [|reflexivity].
  cbn [chars list_ascii_of_string].
  repeat (constructor; [apply hex_digit_is_hex|]). constructor.
Qed.

Lemma concat_hex_words (ws : list N) :
  Forall is_hex (chars (String.concat "" (map hashlib.hex_word ws)))
  /\ String.length (String.concat "" (map hashlib.hex_word ws))
     = (8 * length ws)%nat.
Proof.
  induction ws as [|w ws [IH1 IH2]]; [split; [constructor | reflexivity]|].
  destruct (hex_word_chars w) as [H1 H2].
  destruct ws as [|w' ws].
  - cbn [map String.concat length]. split; [exact H1 | exact H2].
  - change (String.concat "" (map hashlib.hex_word (w :: w' :: ws)))
      with (hashlib.hex_word w
            ++ ("" ++ String.concat "" (map hashlib.hex_word (w' :: ws)))).
    cbn [String.append] in *. fold String.append.
    change (String.append "" ?x) with x.
    split.
    + rewrite chars_append. apply Forall_app. split; assumption.
    + rewrite <- length_chars, chars_append, length_app, !length_chars.
      rewrite H2, IH2. cbn [length]. lia.
Qed.

Lemma compress_length (h block : list N) :
  length h = 8%nat -> length (hashlib.compress h block) = 8%nat.
Proof.
  intros H. unfold hashlib.compress.
  rewrite length_map, length_combine, H. reflexivity.
Qed.

Lemma digest_words_length (msg : list N) :
  length (hashlib.digest_words msg) = 8%nat.
Proof.
  unfold hashlib.digest_words.
  generalize (hashlib.blocks_of
                (length (hashlib.words_of (length (hashlib.pad msg))
                                          (hashlib.pad msg)))
                (hashlib.words_of (length (hashlib.pad msg)) (hashlib.pad msg))).
  assert (H : length hashlib.initial_state = 8%nat) by reflexivity.
  revert H. generalize hashlib.initial_state.
  intros h H bs. revert h H.
  induction bs as [|b bs IH]; intros h H; [exact H|].
  cbn [fold_left]. apply IH. now apply compress_length.
Qed.

Lemma substring_chars (n m : nat) (s : string) :
  Forall is_hex (chars s) -> Forall is_hex (chars (substring n m s)).
Proof.
  revert n m. induction s as [|c s IH]; intros n m H.
  - destruct n, m; constructor.
  - inversion H as [|c' l Hc Hs]; subst.
    destruct n as [|n]; destruct m as [|m]; simpl.
    + constructor.
    + constructor; [exact Hc | now apply IH].
    + now apply IH.
    + now apply IH.
Qed.

Lemma substring_length (m : nat) (s : string) :
  (m <= String.length s)%nat -> String.length (substring 0 m s) = m.
Proof.
  revert m. induction s as [|c s IH]; intros m H.
  - destruct m; [reflexivity | simpl in H; lia].
  - destruct m as [|m]; [reflexivity|]. simpl. f_equal. apply IH.
    simpl in H. lia.
Qed.

(** X6: the content hash of every evaluation is a string of exactly 16
    characters, each of them one of 0-9 and a-f. *)
Theorem compute_hash_is_16_hex_digits :
  forall r : EvaluationResult.t,
    String.length (EvaluationResult._compute_hash r) = 16%nat
    /\ forall c, In c (list_ascii_of_string (EvaluationResult._compute_hash r)) ->
         exists n, json.hex_value c = Some n /\ (n < 16)%N.
Proof.
  intros r. unfold EvaluationResult._compute_hash, hashlib.sha256_hexdigest.
  destruct (concat_hex_words
              (hashlib.digest_words
                 (hashlib.encode (EvaluationResult.hash_str r)))) as [H1 H2].
  rewrite digest_words_length in H2.
  split.
  - apply substring_length. rewrite H2. simpl. lia.
  - intros c Hc.
    pose proof (substring_chars 0 16 _ H1) as H.
    rewrite Forall_forall in H. destruct (H c Hc) as [n Hn].
    exists n. split; [exact Hn|].
    unfold json.hex_value in Hn.
    destruct ((48 <=? N_of_ascii c) && (N_of_ascii c <=? 57))%N eqn:E1.
    + injection Hn as <-. apply andb_true_iff in E1. destruct E1 as [_ E].
      apply N.leb_le in E. lia.
    + destruct ((97 <=? N_of_ascii c) && (N_of_ascii c <=? 102))%N eqn:E2;
        [|discriminate].
      injection Hn as <-. apply andb_true_iff in E2. destruct E2 as [_ E].
      apply N.leb_le in E. lia.
Qed.

End HashFormat.

(* ================================================================== *)
(** * Further properties of the conversion of a test result            *)
(* ================================================================== *)

Section Conversion.

Import evaluation.

(** The evaluation before [finalize] is called in [to_evaluation]. *)
Let before_finalize (calls : types.TestResult.Calls) (adapter_type : string)
    (project_name : option string) (self : types.TestResult.t)
  : EvaluationResult.t :=
  types.TestResult.set_result_duration (types.TestResult.duration self)
    (snd (EvaluationResult.add_session
            (types.TestResult.to_session calls self)
            (create_evaluation (types.TestResult.host calls)
               (types.TestResult.evaluation_uuid calls)
               (types.TestResult.evaluation_now_iso calls)
               (types.TestResult.start_time calls)
               adapter_type (types.TestResult.category self) project_name
               None None))).

Lemma to_evaluation_returns (calls : types.TestResult.Calls)
    (adapter_type : string) (project_name : option string)
    (self : types.TestResult.t) :
  types.TestResult.to_evaluation calls adapter_type project_name self
  = py.Return
      (snd (EvaluationResult.finalize (types.TestResult.finalize_time calls)
              (before_finalize calls adapter_type project_name self))).
Proof.
  unfold types.TestResult.to_evaluation, before_finalize.
  unfold EvaluationResult.add_session at 1 2, create_evaluation.
  cbn [EvaluationResult._finalized py.bind snd].
  pose proof (finalize_returns (types.TestResult.finalize_time calls)) as H.
  match goal with
  | |- context [EvaluationResult.finalize ?t ?r] =>
      specialize (H r); destruct (EvaluationResult.finalize t r) as [o r']
  end.
  cbn [fst snd] in *. now rewrite H.
Qed.

Lemma before_finalize_sessions (calls : types.TestResult.Calls)
    (adapter_type : string) (project_name : option string)
    (self : types.TestResult.t) :
  EvaluationResult.sessions
    (before_finalize calls adapter_type project_name self)
  = [types.TestResult.to_session calls self]
  /\ EvaluationResult._finalized
       (before_finalize calls adapter_type project_name self) = false
  /\ EvaluationResult._start_time
       (before_finalize calls adapter_type project_name self)
     = types.TestResult.start_time calls
  /\ EvaluationResult.duration
       (before_finalize calls adapter_type project_name self)
     = types.TestResult.duration self.
Proof. repeat split. Qed.

Lemma to_session_verdict (calls : types.TestResult.Calls)
    (self : types.TestResult.t) :
  SessionResult.verdict (types.TestResult.to_session calls self)
  = if ((types.TestResult.passed self >? 0)%Z
        || (types.TestResult.total self =? 0)%Z)
       && (types.TestResult.failed self =? 0)%Z
       && (types.TestResult.errors self =? 0)%Z
    then PASS else FAIL.
Proof.
  unfold SessionResult.verdict, types.TestResult.to_session,
    types.TestResult.set_session_duration, types.TestResult.append_metric,
    create_session, metric, py.append.
  cbn [SessionResult.metrics app forallb MetricResult.passed].
  rewrite andb_true_r, andb_assoc. reflexivity.
Qed.

Lemma single_session_verdict (r : EvaluationResult.t) (s : SessionResult.t) :
  EvaluationResult.sessions r = [s] ->
  EvaluationResult.verdict r = SessionResult.verdict s.
Proof.
  intros H. unfold EvaluationResult.verdict. rewrite H. cbn [existsb].
  destruct (SessionResult.verdict s); reflexivity.
Qed.

(** The verdict [to_evaluation] arrives at, as a test on the counts. *)
Lemma to_evaluation_verdict_test (calls : types.TestResult.Calls)
    (adapter_type : string) (project_name : option string)
    (self : types.TestResult.t) :
  EvaluationResult.verdict
    (snd (EvaluationResult.finalize (types.TestResult.finalize_time calls)
            (before_finalize calls adapter_type project_name self)))
  = if ((types.TestResult.passed self >? 0)%Z
        || (types.TestResult.total self =? 0)%Z)
       && (types.TestResult.failed self =? 0)%Z
       && (types.TestResult.errors self =? 0)%Z
    then PASS else FAIL.
Proof.
  rewrite <- to_session_verdict with (calls := calls).
  apply single_session_verdict.
  rewrite finalize_keeps_sessions.
  apply before_finalize_sessions.
Qed.

Lemma finalize_keeps_hash (now : Q) (r : EvaluationResult.t) :
  EvaluationResult._compute_hash (snd (EvaluationResult.finalize now r))
  = EvaluationResult._compute_hash r.
Proof.
  unfold EvaluationResult.finalize.
  destruct (EvaluationResult._finalized r); [reflexivity|].
  apply compute_hash_reads; cbn;
    now destruct (Qeq_bool (EvaluationResult._start_time r) 0).
Qed.

(** X7: to_evaluation() of a test result returns a finalized evaluation
    with one session of three metrics, tests_passed, tests_failed and
    tests_errors.  Its verdict is never ERROR: it is PASS exactly when
    (passed > 0 or total = 0) and failed = 0 and errors = 0, and FAIL
    otherwise, so its exit code is 0 or 1.  The session carries the
    duration of the test result, while the duration of the evaluation is
    the time between its creation and finalize(), unless the creation
    time is zero. *)
Theorem to_evaluation_outcome :
  forall (calls : types.TestResult.Calls) (adapter_type : string)
         (project_name : option string) (self : types.TestResult.t),
  exists r : EvaluationResult.t,
    types.TestResult.to_evaluation calls adapter_type project_name self
    = py.Return r
    /\ EvaluationResult.sessions r = [types.TestResult.to_session calls self]
    /\ map MetricResult.name
           (SessionResult.metrics (types.TestResult.to_session calls self))
       = ["tests_passed"; "tests_failed"; "tests_errors"]
    /\ EvaluationResult._finalized r = true
    /\ EvaluationResult.run_hash r = EvaluationResult._compute_hash r
    /\ EvaluationResult.verdict r <> ERROR
    /\ (EvaluationResult.verdict r = PASS <->
        ((types.TestResult.passed self > 0)%Z
         \/ types.TestResult.total self = 0%Z)
        /\ types.TestResult.failed self = 0%Z
        /\ types.TestResult.errors self = 0%Z)
    /\ (EvaluationResult.exit_code r = 0%Z
        \/ EvaluationResult.exit_code r = 1%Z)
    /\ SessionResult.duration_seconds (types.TestResult.to_session calls self)
       = types.TestResult.duration self
    /\ EvaluationResult.duration r
       = (if Qeq_bool (types.TestResult.start_time calls) 0
          then types.TestResult.duration self
          else types.TestResult.finalize_time calls
               - types.TestResult.start_time calls).
Proof.
  intros calls adapter_type project_name self.
  eexists. split; [apply to_evaluation_returns|].
  pose proof (to_evaluation_verdict_test calls adapter_type project_name self)
    as Hv.
  destruct (before_finalize_sessions calls adapter_type project_name self)
    as [Hs [Hf [Ht Hd]]].
  set (b := before_finalize calls adapter_type project_name self) in *.
  set (r := snd (EvaluationResult.finalize
                   (types.TestResult.finalize_time calls) b)) in *.
  assert (Hsr : EvaluationResult.sessions r = EvaluationResult.sessions b)
    by apply finalize_keeps_sessions.
  split; [now rewrite Hsr|].
  split; [reflexivity|].
  split; [apply finalize_sets_finalized|].
  split.
  { unfold r. rewrite (finalize_stores_hash _ _ Hf).
    symmetry. apply finalize_keeps_hash. }
  split.
  { rewrite Hv. now destruct (_ && _). }
  split.
  { rewrite Hv.
    destruct (Z.gtb_spec (types.TestResult.passed self) 0);
      destruct (Z.eqb_spec (types.TestResult.total self) 0);
      destruct (Z.eqb_spec (types.TestResult.failed self) 0);
      destruct (Z.eqb_spec (types.TestResult.errors self) 0);
      cbn [orb andb];
      (split; [intros Hx; try discriminate Hx; lia
              | intros Hx; try reflexivity; exfalso; lia]). }
  split.
  { unfold EvaluationResult.exit_code. rewrite Hv.
    destruct (_ && _); auto. }
  split; [reflexivity|].
  unfold r, EvaluationResult.finalize. rewrite Hf, Ht.
  unfold EvaluationResult.duration in *. cbn.
  destruct (Qeq_bool (types.TestResult.start_time calls) 0); cbn;
    [exact Hd | reflexivity].
Qed.

(** X8: a test result whose own verdict is ERROR (exit code 2, no tests,
    or a failed run counted by the fallback) and that reports no failed
    and no errored test, with a passed test or a total of zero, is turned
    by to_evaluation() into an evaluation with the verdict PASS and the
    exit code 0. *)
Theorem error_result_converts_to_pass :
  forall (calls : types.TestResult.Calls) (adapter_type : string)
         (project_name : option string) (self : types.TestResult.t),
    types.TestResult.verdict self = types.ERROR ->
    (types.TestResult.passed self > 0)%Z
    \/ types.TestResult.total self = 0%Z ->
    types.TestResult.failed self = 0%Z ->
    types.TestResult.errors self = 0%Z ->
    exists r : EvaluationResult.t,
      types.TestResult.to_evaluation calls adapter_type project_name self
      = py.Return r
      /\ EvaluationResult.verdict r = PASS
      /\ EvaluationResult.exit_code r = 0%Z.
Proof.
  intros calls adapter_type project_name self _ Hp Hf He.
  eexists. split; [apply to_evaluation_returns|].
  assert (Hv : EvaluationResult.verdict
                 (snd (EvaluationResult.finalize
                         (types.TestResult.finalize_time calls)
                         (before_finalize calls adapter_type project_name
                                          self))) = PASS).
  { rewrite to_evaluation_verdict_test, Hf, He. cbn [Z.eqb andb].
    rewrite andb_true_r.
    destruct Hp as [Hp|Hp].
    - apply Z.gt_lt, Z.gtb_lt in Hp. now rewrite Hp.
    - rewrite Hp. cbn [Z.eqb]. now rewrite orb_true_r. }
  split; [exact Hv|].
  unfold EvaluationResult.exit_code. now rewrite Hv.
Qed.

(** X9: a test result whose own verdict is PASS but that counts no passed
    test (all its tests were skipped) is turned by to_evaluation() into an
    evaluation with the verdict FAIL and the exit code 1. *)
Theorem skipped_only_result_converts_to_fail :
  forall (calls : types.TestResult.Calls) (adapter_type : string)
         (project_name : option string) (self : types.TestResult.t),
    types.TestResult.verdict self = types.PASS ->
    (types.TestResult.passed self <= 0)%Z ->
    exists r : EvaluationResult.t,
      types.TestResult.to_evaluation calls adapter_type project_name self
      = py.Return r
      /\ EvaluationResult.verdict r = FAIL
      /\ EvaluationResult.exit_code r = 1%Z.
Proof.
  intros calls adapter_type project_name self Hpass Hp.
  eexists. split; [apply to_evaluation_returns|].
  assert (Hv : EvaluationResult.verdict
                 (snd (EvaluationResult.finalize
                         (types.TestResult.finalize_time calls)
                         (before_finalize calls adapter_type project_name
                                          self))) = FAIL).
  { rewrite to_evaluation_verdict_test.
    unfold types.TestResult.verdict in Hpass.
    destruct (types.TestResult.exit_code self =? 2)%Z; [discriminate|].
    destruct (types.TestResult.total self =? 0)%Z; [discriminate|].
    destruct (Z.gtb_spec (types.TestResult.passed self) 0); [lia|].
    reflexivity. }
  split; [exact Hv|].
  unfold EvaluationResult.exit_code. now rewrite Hv.
Qed.

End Conversion.

(** Witness of X8: five passed tests reported with the exit code 2. *)
Lemma error_result_converts_to_pass_witness :
  exists r : evaluation.EvaluationResult.t,
    types.TestResult.to_evaluation samples.calls "pytest" None
      (types.TestResult.init 5 0 0 0 1 2)
    = py.Return r
    /\ evaluation.EvaluationResult.verdict r = evaluation.PASS
    /\ evaluation.EvaluationResult.exit_code r = 0%Z.
Proof.
  exact (error_result_converts_to_pass samples.calls "pytest" None
           (types.TestResult.init 5 0 0 0 1 2)
           eq_refl (or_introl eq_refl) eq_refl eq_refl).
Defined.

(** Witness of X9: three skipped tests and the exit code 0. *)
Lemma skipped_only_result_converts_to_fail_witness :
  exists r : evaluation.EvaluationResult.t,
    types.TestResult.to_evaluation samples.calls "pytest" None
      (types.TestResult.init 0 0 0 3 1 0)
    = py.Return r
    /\ evaluation.EvaluationResult.verdict r = evaluation.FAIL
    /\ evaluation.EvaluationResult.exit_code r = 1%Z.
Proof.
  refine (skipped_only_result_converts_to_fail samples.calls "pytest" None
            (types.TestResult.init 0 0 0 3 1 0) eq_refl _).
  discriminate.
Defined.

(* ================================================================== *)
(** * Further properties of the executors                              *)
(* ================================================================== *)

Section WorkingDirectory.

Import executor.

Context {World : Type} (os : System World).

(** X10: when the working directory of the executor does not exist, a
    single command gives the exit code 2, no output, a message that names
    the directory and the duration zero; a sequence gives the exit code 2
    after its first command; and in both cases nothing is run: the
    machine and the executor are left as they were. *)
Theorem missing_working_directory_runs_nothing :
  forall (cmd : string) (rest : list string) (timeout : option Z)
         (env : option (list (string * string))) (stream shell : bool)
         (self : TestExecutor.t) (w : World),
    path_exists os (TestExecutor.working_dir self) w = false ->
    let msg := "Working directory does not exist: "
               ++ TestExecutor.working_dir self in
    TestExecutor.execute os (Single cmd) timeout env stream shell self w
    = (ExecutionResult.mk 2 "" msg 0 cmd, self, w)
    /\ (exists R,
          TestExecutor.execute os (Sequence (cmd :: rest)) timeout env stream
                               shell self w
          = (R, self, w)
          /\ ExecutionResult.exit_code R = 2%Z
          /\ ExecutionResult.stdout R = block cmd ""
          /\ ExecutionResult.stderr R = block cmd msg
          /\ (ExecutionResult.duration R == 0)%Q
          /\ ExecutionResult.command R = py.join " && " (cmd :: rest)).
Proof.
  intros cmd rest timeout env stream shell self w H msg.
  assert (E : TestExecutor._execute_single os cmd timeout env stream shell
                                           self w
              = (ExecutionResult.mk 2 "" msg 0 cmd, self, w)).
  { unfold TestExecutor._execute_single. now rewrite H. }
  split; [exact E|].
  cbn [TestExecutor.execute]. unfold TestExecutor._execute_sequence.
  cbn [TestExecutor.sequence_loop]. rewrite E.
  cbn [ExecutionResult.stdout ExecutionResult.stderr ExecutionResult.duration
       ExecutionResult.success ExecutionResult.exit_code Z.eqb negb].
  unfold msg at 1. cbn [String.append].
  eexists. split; [reflexivity|].
  cbn [ExecutionResult.stdout ExecutionResult.stderr ExecutionResult.duration
       ExecutionResult.exit_code ExecutionResult.command py.append app py.join].
  repeat split.
Qed.

End WorkingDirectory.

(** Witness of X10: "pytest" run by an executor whose directory is not on
    the machine. *)
Lemma missing_working_directory_runs_nothing_witness :
  executor.TestExecutor.execute samples.small_machine
    (executor.Single "pytest") None None true true samples.lost_executor []
  = (executor.ExecutionResult.mk
       2 "" "Working directory does not exist: /srv/gone" 0 "pytest",
     samples.lost_executor, []).
Proof.
  exact (proj1 (missing_working_directory_runs_nothing samples.small_machine
                  "pytest" [] None None true true samples.lost_executor []
                  eq_refl)).
Defined.

Section DockerSequence.

Import executor.

Context {World : Type} (os : System World).
Context (timeout : option Z) (env : option (list (string * string)))
        (stream : bool).

Lemma exec_loop_through_successes (self : DockerExecutor.t) :
  forall (pre left : list string) (acc rs : list ExecutionResult.t)
         (w w1 : World),
    DockerExecutor.exec_each os pre timeout env stream self w = (rs, w1) ->
    forallb ExecutionResult.success rs = true ->
    DockerExecutor.exec_loop os (pre ++ left) timeout env stream acc self w
    = DockerExecutor.exec_loop os left timeout env stream (acc ++ rs)%list
                               self w1.
Proof.
  induction pre as [|c pre IH]; intros left acc rs w w1 He Hok.
  - cbn in He. inversion He; subst. now rewrite app_nil_r.
  - cbn [DockerExecutor.exec_each] in He.
    destruct (DockerExecutor._docker_exec os c timeout env stream self w)
      as [r w'] eqn:Er.
    destruct (DockerExecutor.exec_each os pre timeout env stream self w')
      as [rs' w''] eqn:Ers.
    inversion He; subst. cbn [forallb] in Hok.
    apply andb_true_iff in Hok. destruct Hok as [Hr Hrs].
    cbn [app DockerExecutor.exec_loop]. rewrite Er, Hr. cbn [negb].
    rewrite (IH left (py.append acc r) rs' w' w1 Ers Hrs).
    unfold py.append. now rewrite <- app_assoc.
Qed.

Lemma last_exit_code_snoc (rs : list ExecutionResult.t)
    (r : ExecutionResult.t) :
  DockerExecutor.last_exit_code (rs ++ [r]) = ExecutionResult.exit_code r.
Proof.
  unfold DockerExecutor.last_exit_code.
  destruct rs as [|r0 rs]; [reflexivity|].
  cbn [app]. now rewrite last_last.
Qed.

Lemma last_success (rs : list ExecutionResult.t) :
  forall d : ExecutionResult.t,
    ExecutionResult.success d = true ->
    forallb ExecutionResult.success rs = true ->
    ExecutionResult.success (last rs d) = true.
Proof.
  induction rs as [|r rs IH]; intros d Hd H; [exact Hd|].
  cbn [forallb] in H. apply andb_true_iff in H. destruct H as [Hr H].
  destruct rs as [|r' rs]; [exact Hr|].
  change (last (r :: r' :: rs) d) with (last (r' :: rs) d).
  now apply IH.
Qed.

Lemma last_exit_code_success (rs : list ExecutionResult.t) :
  forallb ExecutionResult.success rs = true ->
  DockerExecutor.last_exit_code rs = 0%Z.
Proof.
  unfold DockerExecutor.last_exit_code.
  destruct rs as [|r0 rs]; [reflexivity|]. intros H.
  cbn [forallb] in H. apply andb_true_iff in H. destruct H as [H0 H].
  apply Z.eqb_eq. now apply (last_success rs r0).
Qed.

(** X11: a list of commands given to the Docker executor is run in the
    container one command after the other up to the first one whose exit
    code is not zero.  The result has the exit code of that command, the
    outputs of the commands run joined by line feeds with no header
    between them, and the sum of their durations, and the machine is left
    as that command left it, so no later command is run.  When every
    command exits with zero the exit code is 0, and an empty list gives
    the exit code 0 without running anything. *)
Theorem docker_sequence_stops_at_first_failure :
  forall (shell : bool) (self : DockerExecutor.t),
  (forall (pre : list string) (c : string) (post : list string)
          (w : World) (rs : list ExecutionResult.t) (w1 : World)
          (rc : ExecutionResult.t) (w2 : World),
      DockerExecutor.exec_each os pre timeout env stream self w = (rs, w1) ->
      forallb ExecutionResult.success rs = true ->
      DockerExecutor._docker_exec os c timeout env stream self w1 = (rc, w2) ->
      ExecutionResult.success rc = false ->
      DockerExecutor.execute os (Sequence (pre ++ c :: post)) timeout env
                             stream shell self w
      = (ExecutionResult.mk
           (ExecutionResult.exit_code rc)
           (py.join newline (map ExecutionResult.stdout (rs ++ [rc])))
           (py.join newline (DockerExecutor.nonempty_stderr (rs ++ [rc])))
           (TestExecutor.total_duration (rs ++ [rc]) 0)
           (py.join " && " (pre ++ c :: post)),
         w2))
  /\ (forall (cmds : list string) (w : World)
             (rs : list ExecutionResult.t) (w1 : World),
         DockerExecutor.exec_each os cmds timeout env stream self w = (rs, w1) ->
         forallb ExecutionResult.success rs = true ->
         DockerExecutor.execute os (Sequence cmds) timeout env stream shell
                                self w
         = (ExecutionResult.mk
              0
              (py.join newline (map ExecutionResult.stdout rs))
              (py.join newline (DockerExecutor.nonempty_stderr rs))
              (TestExecutor.total_duration rs 0)
              (py.join " && " cmds),
            w1))
  /\ (forall w : World,
         DockerExecutor.execute os (Sequence []) timeout env stream shell
                                self w
         = (ExecutionResult.mk 0 "" "" 0 "", w)).
Proof.
  intros shell self. split; [|split].
  - intros pre c post w rs w1 rc w2 He Hok Hc Hfail.
    cbn [DockerExecutor.execute].
    rewrite (exec_loop_through_successes self pre (c :: post) [] rs w w1 He Hok).
    cbn [DockerExecutor.exec_loop app]. rewrite Hc, Hfail. cbn [negb].
    unfold py.append. now rewrite last_exit_code_snoc.
  - intros cmds w rs w1 He Hok.
    cbn [DockerExecutor.execute].
    pose proof (exec_loop_through_successes self cmds [] [] rs w w1 He Hok)
      as H.
    rewrite app_nil_r in H. rewrite H.
    cbn [DockerExecutor.exec_loop app].
    now rewrite (last_exit_code_success rs Hok).
  - intros w. reflexivity.
Qed.

End DockerSequence.

(** Witness of X11: "echo first", "exit 1", "echo never" in the container
    of the sample machine. *)
Lemma docker_sequence_stops_at_first_failure_witness :
  executor.DockerExecutor.execute samples.machine
    (executor.Sequence ["echo first"; "exit 1"; "echo never"])
    None None false true samples.docker_executor []
  = (executor.ExecutionResult.mk
       1
       (py.join executor.newline ["first" ++ executor.newline; ""])
       ""
       (executor.TestExecutor.total_duration
          [executor.ExecutionResult.mk 0 ("first" ++ executor.newline) ""
             (1 - 0) "echo first";
           executor.ExecutionResult.mk 1 "" "" (2 - 1) "exit 1"] 0)
       "echo first && exit 1 && echo never",
     [ "docker compose -f docker-compose.yml exec -T django sh -c echo first";
       "docker compose -f docker-compose.yml exec -T django sh -c exit 1" ]).
Proof.
  exact (proj1 (docker_sequence_stops_at_first_failure samples.machine
                  None None false true samples.docker_executor)
               ["echo first"] "exit 1" ["echo never"] []
               [executor.ExecutionResult.mk 0 ("first" ++ executor.newline) ""
                  (1 - 0) "echo first"]
               ["docker compose -f docker-compose.yml exec -T django sh -c echo first"]
               (executor.ExecutionResult.mk 1 "" "" (2 - 1) "exit 1")
               [ "docker compose -f docker-compose.yml exec -T django sh -c echo first";
                 "docker compose -f docker-compose.yml exec -T django sh -c exit 1" ]
               eq_refl eq_refl eq_refl eq_refl).
Defined.

Section OutputBuffer.

Import executor.

Context {World : Type} (os : System World).

Lemma buffered_timeout (cmd : string) (timeout : option Z)
    (env : option (list (string * string))) (shell : bool)
    (self : TestExecutor.t) (w w' : World) :
  path_exists os (TestExecutor.working_dir self) w = true ->
  run os (TestExecutor.subprocess_call os cmd timeout env shell self w) w
  = (CaptureTimeout, w') ->
  TestExecutor._execute_single os cmd timeout env false shell self w
  = (ExecutionResult.mk 124
       (py.join newline (TestExecutor._output_buffer self))
       (timed_out_message timeout) (time os w' - time os w) cmd,
     self, w').
Proof.
  intros Hd Hr. unfold TestExecutor._execute_single.
  rewrite Hd. cbn [negb]. now rewrite Hr.
Qed.

(** X12: the standard output reported for a buffered command that runs
    into the timeout is not output of that command: it is the lines that
    the last streamed command of the same executor printed, joined by
    line feeds.  A streamed command that ends leaves its lines in the
    buffer of the executor, and a buffered command that times out next
    reports them with the exit code 124. *)
Theorem buffered_timeout_reports_earlier_output :
  forall (cmd1 cmd2 : string) (timeout1 timeout2 : option Z)
         (env1 env2 : option (list (string * string))) (shell1 shell2 : bool)
         (self : TestExecutor.t) (w w1 w2 : World)
         (lines : list string) (returncode : Z),
    path_exists os (TestExecutor.working_dir self) w = true ->
    popen os (TestExecutor.subprocess_call os cmd1 timeout1 env1 shell1 self w)
          w
    = (StreamExit lines returncode, w1) ->
    path_exists os (TestExecutor.working_dir self) w1 = true ->
    run os (TestExecutor.subprocess_call os cmd2 timeout2 env2 shell2 self w1)
        w1
    = (CaptureTimeout, w2) ->
    let first :=
      TestExecutor.execute os (Single cmd1) timeout1 env1 true shell1 self w in
    let second :=
      TestExecutor.execute os (Single cmd2) timeout2 env2 false shell2
                           (snd (fst first)) (snd first) in
    ExecutionResult.stdout (fst (fst first)) = String.concat "" lines
    /\ TestExecutor._output_buffer (snd (fst first)) = lines
    /\ ExecutionResult.exit_code (fst (fst second)) = 124%Z
    /\ ExecutionResult.stdout (fst (fst second)) = py.join newline lines
    /\ snd second = w2.
Proof.
  intros cmd1 cmd2 timeout1 timeout2 env1 env2 shell1 shell2 self w w1 w2
         lines returncode Hd Hp Hd1 Hr first second.
  assert (E1 : first
               = (ExecutionResult.mk returncode (String.concat "" lines) ""
                    (time os w1 - time os w) cmd1,
                  TestExecutor.set_output_buffer lines self, w1)).
  { unfold first, TestExecutor.execute, TestExecutor._execute_single.
    rewrite Hd. cbn [negb]. now rewrite Hp. }
  assert (E2 : second
               = (ExecutionResult.mk 124 (py.join newline lines)
                    (timed_out_message timeout2)
                    (time os w2 - time os w1) cmd2,
                  TestExecutor.set_output_buffer lines self, w2)).
  { unfold second. rewrite E1. cbn [fst snd TestExecutor.execute].
    apply (buffered_timeout cmd2 timeout2 env2 shell2
             (TestExecutor.set_output_buffer lines self) w1 w2 Hd1 Hr). }
  rewrite E2, E1. repeat split.
Qed.

End OutputBuffer.

(** Witness of X12: "echo hello" streamed and then "sleep 10" buffered
    with a timeout of one second, on the sample machine: the second result
    has the output of the first. *)
Lemma buffered_timeout_reports_earlier_output_witness :
  let first :=
    executor.TestExecutor.execute samples.machine (executor.Single "echo hello")
      None None true true samples.local_executor [] in
  let second :=
    executor.TestExecutor.execute samples.machine (executor.Single "sleep 10")
      (Some 1%Z) None false true (snd (fst first)) (snd first) in
  executor.ExecutionResult.stdout (fst (fst second))
  = py.join executor.newline ["hello" ++ executor.newline].
Proof.
  exact (proj1 (proj2 (proj2 (proj2
           (buffered_timeout_reports_earlier_output samples.machine
              "echo hello" "sleep 10" None (Some 1%Z) None None true true
              samples.local_executor [] ["echo hello"]
              ["echo hello"; "sleep 10"]
              ["hello" ++ executor.newline] 0
              eq_refl eq_refl eq_refl eq_refl))))).
Defined.

Section ParsedResult.

Import executor.

Lemma bind_returns {A B : Type} (o : py.Outcome A) (k : A -> py.Outcome B)
    (b : B) :
  py.bind o k = py.Return b -> exists a, o = py.Return a /\ k a = py.Return b.
Proof. destruct o as [a|e]; [eauto | discriminate]. Qed.

Lemma exit_code_step_counted (exit_code : Z) (v : TestExecutor.counts) :
  let v' := TestExecutor.exit_code_step exit_code v in
  ~ (TestExecutor.passed v' = 0%Z /\ TestExecutor.failed v' = 0%Z
     /\ TestExecutor.errors v' = 0%Z).
Proof.
  unfold TestExecutor.exit_code_step.
  destruct (Z.eqb_spec (TestExecutor.passed v) 0);
    destruct (Z.eqb_spec (TestExecutor.failed v) 0);
    destruct (Z.eqb_spec (TestExecutor.errors v) 0);
    cbn [andb]; try (intros [? [? ?]]; contradiction).
  destruct (exit_code =? 0)%Z; cbn; intros [? [? ?]]; discriminate.
Qed.

(** X13: whatever the output is, a result that parse_test_results returns
    carries the exit code it was given, has no parsed_from marker and no
    parsing warning, has as total the sum of its four counts, and does not
    have passed, failed and errors all zero.  So its verdict is ERROR when
    the exit code is 2, and otherwise only when the total is zero: the
    rule for results counted by the fallback never applies to it. *)
Theorem parsed_result_is_unmarked :
  forall (output : string) (exit_code : Z) (t : types.TestResult.t),
    TestExecutor.parse_test_results output exit_code = py.Return t ->
    types.TestResult.exit_code t = exit_code
    /\ types.TestResult.parsed_from t = None
    /\ types.TestResult.parsing_warning t = None
    /\ types.TestResult.total t
       = (types.TestResult.passed t + types.TestResult.failed t
          + types.TestResult.errors t + types.TestResult.skipped t)%Z
    /\ ~ (types.TestResult.passed t = 0%Z /\ types.TestResult.failed t = 0%Z
          /\ types.TestResult.errors t = 0%Z)
    /\ (types.TestResult.verdict t = types.ERROR <->
        exit_code = 2%Z \/ types.TestResult.total t = 0%Z).
Proof.
  intros output exit_code t H.
  unfold TestExecutor.parse_test_results in H.
  apply bind_returns in H. destruct H as [v1 [_ H]].
  apply bind_returns in H. destruct H as [v2 [_ H]].
  apply bind_returns in H. destruct H as [v3 [_ H]].
  apply bind_returns in H. destruct H as [v4 [_ H]].
  cbv zeta in H. injection H as <-.
  pose proof (exit_code_step_counted exit_code v4) as Hc.
  unfold types.TestResult.init.
  cbn [types.TestResult.exit_code types.TestResult.parsed_from
       types.TestResult.parsing_warning types.TestResult.total
       types.TestResult.passed types.TestResult.failed
       types.TestResult.errors types.TestResult.skipped].
  do 4 (split; [reflexivity|]). split; [exact Hc|].
  unfold types.TestResult.verdict.
  cbn [types.TestResult.exit_code types.TestResult.parsed_from
       types.TestResult.total types.TestResult.is_fallback andb].
  destruct (Z.eqb_spec exit_code 2) as [E2|E2]; [tauto|].
  match goal with
  | |- context [(?x =? 0)%Z] => destruct (Z.eqb_spec x 0) as [E0|E0]
  end; [tauto|].
  split.
  - destruct (_ || _); discriminate.
  - intros [?|?]; contradiction.
Qed.

End ParsedResult.

(** Witness of X13: the summary line read with the exit code 1. *)
Lemma parsed_result_is_unmarked_witness :
  types.TestResult.parsed_from (types.TestResult.init 12 3 1 0 (9 # 2) 1) = None.
Proof.
  exact (proj1 (proj2
           (parsed_result_is_unmarked samples.summary_line 1
              (types.TestResult.init 12 3 1 0 (9 # 2) 1) eq_refl))).
Defined.

(* ================================================================== *)
(** * Further properties of the configuration                          *)
(* ================================================================== *)

Section FindConfigFile.

Import config.

Context (exists_ : Path -> bool).

Lemma removelast_shorter {A : Type} (l : list A) :
  l <> [] -> length l = S (length (removelast l)).
Proof.
  induction l as [|a l IH]; intros H; [now destruct H|].
  destruct l as [|b l]; [reflexivity|].
  change (removelast (a :: b :: l)) with (a :: removelast (b :: l)).
  cbn [length]. f_equal. apply IH. discriminate.
Qed.

Lemma parent_fixed (p : Path) : parent p = p <-> parts p = [].
Proof.
  destruct p as [a l]. unfold parent. cbn [anchor parts]. split.
  - intros H. injection H as H. destruct l as [|b l]; [reflexivity|].
    pose proof (removelast_shorter (b :: l)) as E. rewrite H in E.
    specialize (E ltac:(discriminate)). lia.
  - intros ->. reflexivity.
Qed.

Lemma parent_depth (p : Path) :
  parts p <> [] -> length (parts p) = S (length (parts (parent p))).
Proof. intros H. cbn [parent parts]. now apply removelast_shorter. Qed.

Lemma search_up_spec (n : nat) :
  forall (current p : Path),
    search_up exists_ n current = Some p <->
    exists k : nat,
      (k < n)%nat /\ (k <= length (parts current))%nat
      /\ p = joinpath (ancestor k current) "systemeval.yaml"
      /\ exists_ p = true
      /\ forall j : nat,
           (j < k)%nat ->
           exists_ (joinpath (ancestor j current) "systemeval.yaml") = false.
Proof.
  induction n as [|n IH]; intros current p.
  - cbn. split; [discriminate | intros [k [H _]]; lia].
  - cbn [search_up].
    destruct (exists_ (joinpath current "systemeval.yaml")) eqn:E.
    + split.
      * intros H. injection H as <-. exists 0%nat.
        repeat split; try lia. exact E.
      * intros [k [_ [_ [Hp [_ Hj]]]]]. destruct k as [|k].
        -- now rewrite Hp.
        -- specialize (Hj 0%nat (Nat.lt_0_succ k)). cbn in Hj. congruence.
    + destruct (Path_eq_dec (parent current) current) as [Hroot|Hup].
      * split; [discriminate|].
        intros [k [_ [Hk [Hp [He _]]]]].
        apply parent_fixed in Hroot. rewrite Hroot in Hk.
        assert (k = 0%nat) by (cbn in Hk; lia). subst k.
        cbn in Hp. congruence.
      * assert (Hne : parts current <> [])
          by (intros H; apply Hup; now apply parent_fixed).
        pose proof (parent_depth current Hne) as Hd.
        rewrite IH. split.
        -- intros [k [Hk [Hl [Hp [He Hj]]]]]. exists (S k).
           repeat split; try lia; try assumption.
           intros j Hjk. destruct j as [|j]; [exact E|].
           apply Hj. lia.
        -- intros [k [Hk [Hl [Hp [He Hj]]]]]. destruct k as [|k].
           ++ cbn in Hp. congruence.
           ++ exists k. repeat split; try lia; try assumption.
              intros j Hjk. apply (Hj (S j)). lia.
Qed.

(** X14: find_config_file looks for "systemeval.yaml" in the start
    directory and in at most four directories above it, and stops at the
    root.  It returns a path exactly when one of these directories has the
    file, and then the path of the file in the nearest of them; a file
    five or more levels above the start directory is not found. *)
Theorem find_config_file_nearest :
  forall (cwd start : Path),
    (forall p : Path,
        find_config_file exists_ cwd (Some start) = Some p <->
        exists k : nat,
          (k < 5)%nat /\ (k <= length (parts start))%nat
          /\ p = joinpath (ancestor k start) "systemeval.yaml"
          /\ exists_ p = true
          /\ forall j : nat,
               (j < k)%nat ->
               exists_ (joinpath (ancestor j start) "systemeval.yaml") = false)
    /\ (find_config_file exists_ cwd (Some start) = None <->
        forall k : nat,
          (k < 5)%nat -> (k <= length (parts start))%nat ->
          exists_ (joinpath (ancestor k start) "systemeval.yaml") = false)
    /\ find_config_file exists_ cwd None
       = find_config_file exists_ cwd (Some cwd).
Proof.
  intros cwd start. split; [|split; [|reflexivity]].
  - intros p. apply search_up_spec.
  - unfold find_config_file. split.
    + intros Hnone k Hk Hl.
      destruct (exists_ (joinpath (ancestor k start) "systemeval.yaml")) eqn:E;
        [|reflexivity].
      exfalso.
      assert (Hex : exists k : nat,
                 (k < 5)%nat /\ (k <= length (parts start))%nat
                 /\ exists_ (joinpath (ancestor k start) "systemeval.yaml")
                    = true) by eauto.
      clear k Hk Hl E.
      assert (Hmin : exists k : nat,
                 (k < 5)%nat /\ (k <= length (parts start))%nat
                 /\ exists_ (joinpath (ancestor k start) "systemeval.yaml")
                    = true
                 /\ forall j : nat,
                      (j < k)%nat ->
                      exists_ (joinpath (ancestor j start) "systemeval.yaml")
                      = false).
      { destruct Hex as [k Hk]. revert Hk.
        induction k as [k IHk] using lt_wf_ind. intros [Hk [Hl He]].
        destruct (forallb
                    (fun j => negb (exists_ (joinpath (ancestor j start)
                                                      "systemeval.yaml")))
                    (seq 0 k)) eqn:F.
        - exists k. repeat split; try assumption.
          intros j Hj. rewrite forallb_forall in F.
          specialize (F j). rewrite in_seq in F.
          apply negb_true_iff, F. lia.
        - assert (Hx : exists j, In j (seq 0 k)
                         /\ exists_ (joinpath (ancestor j start)
                                              "systemeval.yaml") = true).
          { clear - F. induction (seq 0 k) as [|a l IHl]; [discriminate|].
            cbn [forallb] in F. apply andb_false_iff in F.
            destruct F as [F|F].
            - exists a. split; [now left|]. now apply negb_false_iff.
            - destruct (IHl F) as [j [Hj1 Hj2]]. exists j. split; auto.
              now right. }
          destruct Hx as [j [Hj He']]. rewrite in_seq in Hj.
          apply (IHk j); [lia|]. repeat split; try lia. exact He'. }
      destruct Hmin as [k [Hk [Hl [He Hj]]]].
      assert (Hs : search_up exists_ 5 start
                   = Some (joinpath (ancestor k start) "systemeval.yaml")).
      { apply search_up_spec. exists k. repeat split; assumption. }
      congruence.
    + intros Hall.
      destruct (search_up exists_ 5 start) as [p|] eqn:E; [|reflexivity].
      apply search_up_spec in E.
      destruct E as [k [Hk [Hl [Hp [He _]]]]].
      rewrite Hp, (Hall k Hk Hl) in He. discriminate.
Qed.

End FindConfigFile.

(* ================================================================== *)
(** * Further properties of the test command                           *)
(* ================================================================== *)

Section TestCommand.

Import executor commands.

Lemma prefix_spec (n h : string) :
  String.prefix n h = true <-> exists rest, h = n ++ rest.
Proof.
  revert h. induction n as [|c n IH]; intros h.
  - destruct h; cbn; split; eauto.
  - destruct h as [|d h]; cbn.
    + split; [discriminate | intros [rest H]; discriminate].
    + destruct (Ascii.ascii_dec c d) as [->|Hne].
      * rewrite IH. split; intros [rest H]; exists rest.
        -- now rewrite H.
        -- now injection H.
      * split; [discriminate|]. intros [rest H]. injection H as H1 _.
        now destruct Hne.
Qed.

(** [has] is the substring test. *)
Lemma has_spec (hay needle : string) :
  has hay needle = true <-> py.contains hay needle.
Proof.
  induction hay as [|c hay IH].
  - cbn [has]. rewrite orb_false_r, prefix_spec. split.
    + intros [rest H]. exists "", rest. exact H.
    + intros [before [after H]]. destruct before; [now exists after|].
      discriminate.
  - cbn [has]. rewrite orb_true_iff, IH, prefix_spec. split.
    + intros [[rest H]|[before [after H]]].
      * exists "", rest. exact H.
      * exists (String c before), after. cbn. now rewrite H.
    + intros [before [after H]]. destruct before as [|d before].
      * left. now exists after.
      * right. cbn in H. injection H as _ H. now exists before, after.
Qed.

Lemma script_command_contains (cmd : string) (suite category : option string)
    (verbose : bool) :
  py.contains (script_command cmd suite category verbose) cmd.
Proof.
  unfold script_command.
  assert (H : forall a b hay, py.contains hay cmd ->
                              py.contains (a ++ b ++ " " ++ hay) cmd).
  { intros a b hay Hc. now do 3 apply contains_append_l. }
  destruct verbose; [apply contains_append_r|];
    destruct (given suite), (given category);
    repeat apply H; apply contains_refl.
Qed.

Lemma framework_command_contains (cmd : string)
    (suite category : option string) (verbose : bool) :
  py.contains (framework_command cmd suite category verbose) cmd.
Proof.
  unfold framework_command.
  destruct (has cmd "pytest").
  - destruct (given suite), (given category), verbose; cbn [andb];
      try match goal with
          | |- context [if negb ?b then _ else _] => destruct b; cbn [negb]
          end;
      repeat first [ apply contains_refl | apply contains_append_r ].
  - destruct (has cmd "npm test" || has cmd "jest");
      [|destruct (has cmd "playwright")];
      destruct (given suite);
      repeat first [ apply contains_refl | apply contains_append_r ].
Qed.

(** X15: build_test_command returns a list of commands as it is, and a
    single command with no suite, no category and verbose off as it is.
    For a single command the result is a single command that contains the
    given one.  An empty suite or category counts as none. *)
Theorem build_test_command_keeps_command :
  (forall (cmds : list string) (suite category : option string)
          (verbose : bool),
      build_test_command (Sequence cmds) suite category verbose
      = Sequence cmds)
  /\ (forall base : command,
         build_test_command base None None false = base)
  /\ (forall (cmd : string) (suite category : option string) (verbose : bool),
         exists out : string,
           build_test_command (Single cmd) suite category verbose = Single out
           /\ py.contains out cmd)
  /\ (forall (base : command) (verbose : bool),
         build_test_command base (Some "") (Some "") verbose
         = build_test_command base None None verbose).
Proof.
  split; [reflexivity|]. split; [|split].
  - intros [cmd|cmds]; [|reflexivity].
    unfold build_test_command, script_command, framework_command.
    cbn [given andb].
    destruct (startswith cmd "./" || startswith cmd "/"); [reflexivity|].
    destruct (has cmd "pytest"); [reflexivity|].
    destruct (has cmd "npm test" || has cmd "jest"); [reflexivity|].
    destruct (has cmd "playwright"); reflexivity.
  - intros cmd suite category verbose. unfold build_test_command.
    destruct (startswith cmd "./" || startswith cmd "/"); eexists;
      (split; [reflexivity|]).
    + apply script_command_contains.
    + apply framework_command_contains.
  - intros base verbose. reflexivity.
Qed.

(** X16: for a command that is not a script and does not contain
    "pytest", the category and the verbose flag are not used: the result
    is the one for the suite alone.  When the command contains none of
    "npm test", "jest" and "playwright" either, the suite is not used and
    the command is returned as it is. *)
Theorem filters_dropped_for_other_runners :
  forall (cmd : string) (suite category : option string) (verbose : bool),
    startswith cmd "./" = false ->
    startswith cmd "/" = false ->
    has cmd "pytest" = false ->
    build_test_command (Single cmd) suite category verbose
    = build_test_command (Single cmd) suite None false
    /\ (has cmd "npm test" = false -> has cmd "jest" = false ->
        has cmd "playwright" = false ->
        build_test_command (Single cmd) suite category verbose = Single cmd).
Proof.
  intros cmd suite category verbose H1 H2 H3.
  unfold build_test_command, framework_command.
  rewrite H1, H2, H3. cbn [orb]. split; [reflexivity|].
  intros H4 H5 H6. now rewrite H4, H5, H6.
Qed.

Lemma has_append_r (a b needle : string) :
  has b needle = true -> has (a ++ b) needle = true.
Proof. rewrite !has_spec. apply contains_append_l. Qed.

(** X17: for a pytest command that is not a script, the flag "-v" is
    added for verbose only when the command built so far, with the suite
    and the category in it, does not contain "-v".  So a suite whose name
    contains "-v" keeps the verbose flag from being added. *)
Theorem verbose_flag_lost_to_suite_name :
  forall (cmd suite : string) (category : option string),
    startswith cmd "./" = false ->
    startswith cmd "/" = false ->
    has cmd "pytest" = true ->
    has suite "-v" = true ->
    build_test_command (Single cmd) (Some suite) category true
    = build_test_command (Single cmd) (Some suite) category false.
Proof.
  intros cmd suite category H1 H2 H3 H4.
  unfold build_test_command, framework_command.
  rewrite H1, H2, H3. cbn [orb andb].
  assert (Hs : given (Some suite) = Some suite).
  { destruct suite; [discriminate H4 | reflexivity]. }
  rewrite Hs.
  assert (Hv : has (cmd ++ " -m " ++ suite) "-v" = true).
  { apply has_append_r, has_append_r, H4. }
  destruct (given category) as [c|].
  - assert (Hc : has ((cmd ++ " -m " ++ suite) ++ " -m " ++ c) "-v" = true).
    { apply has_spec, contains_append_r, has_spec, Hv. }
    now rewrite Hc.
  - now rewrite Hv.
Qed.

End TestCommand.

(** Witness of X16: "make test" with a suite, a category and verbose. *)
Lemma filters_dropped_for_other_runners_witness :
  commands.build_test_command (executor.Single "make test") (Some "unit")
    (Some "fast") true
  = executor.Single "make test".
Proof.
  exact (proj2 (filters_dropped_for_other_runners "make test" (Some "unit")
                  (Some "fast") true eq_refl eq_refl eq_refl)
               eq_refl eq_refl eq_refl).
Defined.

(** Witness of X17: "pytest" with the suite "dev-v2". *)
Lemma verbose_flag_lost_to_suite_name_witness :
  commands.build_test_command (executor.Single "pytest") (Some "dev-v2")
    None true
  = commands.build_test_command (executor.Single "pytest") (Some "dev-v2")
      None false.
Proof.
  exact (verbose_flag_lost_to_suite_name "pytest" "dev-v2" None
           eq_refl eq_refl eq_refl eq_refl).
Defined.

(* ================================================================== *)
(** * Further properties of the Docker Compose environment             *)
(* ================================================================== *)

Section ComposeEnvironment.

Import docker_compose.

Context {World : Type} (os : executor.System World) (docker : Manager World).

(** X18: _build_test_command of the Docker Compose environment and the
    shared function build_test_command give the same command for every
    test command, suite, category and verbose flag. *)
Theorem compose_command_agrees_with_shared :
  forall (self : DockerComposeEnvironment.t) (suite category : option string)
         (verbose : bool),
    DockerComposeEnvironment._build_test_command suite category verbose self
    = commands.build_test_command
        (DockerComposeEnvironment.test_command self) suite category verbose.
Proof.
  intros self suite category verbose.
  unfold DockerComposeEnvironment._build_test_command,
    commands.build_test_command, commands.script_command,
    commands.framework_command.
  destruct (DockerComposeEnvironment.test_command self) as [cmd|cmds];
    [|reflexivity].
  destruct (commands.startswith cmd "./" || commands.startswith cmd "/");
    [reflexivity|].
  destruct (commands.has cmd "pytest"); [reflexivity|].
  destruct (commands.has cmd "npm test" || commands.has cmd "jest");
    [reflexivity|].
  destruct (commands.has cmd "playwright"); reflexivity.
Qed.

(** X19: an environment that is not up does nothing: is_ready and
    wait_ready answer False without asking Docker, run_tests returns a
    result with one error and the exit code 2, whose verdict is ERROR,
    without running a command, and _cleanup does not call down.  The
    machine and the environment are left as they were. *)
Theorem environment_not_up_does_nothing :
  forall (self : DockerComposeEnvironment.t) (w : World) (timeout : Z)
         (suite category : option string) (verbose : bool),
    DockerComposeEnvironment._is_up self = false ->
    DockerComposeEnvironment.is_ready docker self w = (false, w)
    /\ DockerComposeEnvironment.wait_ready os docker timeout self w
       = (false, self, w)
    /\ DockerComposeEnvironment.run_tests os suite category verbose self w
       = (py.Return (types.TestResult.init 0 0 1 0 0 2), self, w)
    /\ types.TestResult.verdict (types.TestResult.init 0 0 1 0 0 2)
       = types.ERROR
    /\ DockerComposeEnvironment._cleanup docker self w = (self, w).
Proof.
  intros self w timeout suite category verbose H.
  unfold DockerComposeEnvironment.is_ready,
    DockerComposeEnvironment.wait_ready, DockerComposeEnvironment.run_tests,
    DockerComposeEnvironment._cleanup.
  rewrite H. repeat split.
Qed.

(** X20: teardown calls down exactly when the environment is up and
    keep_running is off, and the environment is up afterwards exactly
    when it was up and keep_running is on.  After a teardown with
    keep_running off, another teardown and _cleanup do not call down
    again. *)
Theorem teardown_stops_once :
  forall (self : DockerComposeEnvironment.t) (w : World) (keep_running : bool),
    let after := DockerComposeEnvironment.teardown os docker keep_running
                                                   self w in
    DockerComposeEnvironment._is_up (fst after)
    = DockerComposeEnvironment._is_up self && keep_running
    /\ snd after
       = restore_signal_handlers docker
           (if DockerComposeEnvironment._is_up self && negb keep_running
            then down docker w else w)
    /\ (keep_running = false ->
        forall (again : bool) (w' : World),
          snd (DockerComposeEnvironment.teardown os docker again (fst after) w')
          = restore_signal_handlers docker w'
          /\ snd (DockerComposeEnvironment._cleanup docker (fst after) w')
             = w').
Proof.
  intros self w keep_running after. subst after.
  unfold DockerComposeEnvironment.teardown.
  destruct (DockerComposeEnvironment._is_up self) eqn:Hup;
    destruct keep_running; cbn [andb negb fst snd];
    (split; [cbn; try exact Hup; reflexivity|]);
    (split; [reflexivity|]); intros Hk; try discriminate Hk;
    intros again w'; unfold DockerComposeEnvironment._cleanup;
    cbn [DockerComposeEnvironment._is_up DockerComposeEnvironment.set_timings
         DockerComposeEnvironment.set_is_up andb fst snd];
    rewrite ?Hup; cbn [andb fst snd]; split; reflexivity.
Qed.

(** X21: setup builds first unless skip_build is set, and starts the
    containers only when the build succeeded.  When the build fails the
    result is a failure with the message "Build failed: <error>", up is
    not called and the environment is not marked up; with skip_build the
    build is not called; and the result is a success exactly when up
    succeeded, in which case the environment is marked up. *)
Theorem setup_builds_before_starting :
  forall (self : DockerComposeEnvironment.t) (w : World),
    let w0 := install_signal_handlers docker w in
    let services := DockerComposeEnvironment.services_or_none self in
    let result := DockerComposeEnvironment.setup os docker self w in
    (DockerComposeEnvironment.skip_build self = false ->
     build_success (fst (build docker services w0)) = false ->
     success (fst (fst result)) = false
     /\ message (fst (fst result))
        = "Build failed: " ++ build_error (fst (build docker services w0))
     /\ snd result = snd (build docker services w0)
     /\ DockerComposeEnvironment._is_up (snd (fst result))
        = DockerComposeEnvironment._is_up self)
    /\ (DockerComposeEnvironment.skip_build self = false ->
        build_success (fst (build docker services w0)) = true ->
        let w1 := snd (build docker services w0) in
        snd result = snd (up docker services w1)
        /\ success (fst (fst result)) = up_success (fst (up docker services w1))
        /\ DockerComposeEnvironment._is_up (snd (fst result))
           = up_success (fst (up docker services w1))
             || DockerComposeEnvironment._is_up self)
    /\ (DockerComposeEnvironment.skip_build self = true ->
        snd result = snd (up docker services w0)
        /\ success (fst (fst result)) = up_success (fst (up docker services w0))
        /\ DockerComposeEnvironment._is_up (snd (fst result))
           = up_success (fst (up docker services w0))
             || DockerComposeEnvironment._is_up self).
Proof.
  intros self w w0 services result. subst result services.
  unfold DockerComposeEnvironment.setup. fold w0.
  split; [|split].
  - intros Hs Hb. rewrite Hs. cbn [negb].
    destruct (build docker (DockerComposeEnvironment.services_or_none self) w0)
      as [b w1].
    cbn [fst snd] in *. rewrite Hb. cbn [negb fst snd success message].
    repeat split.
  - intros Hs Hb. rewrite Hs. cbn [negb].
    destruct (build docker (DockerComposeEnvironment.services_or_none self) w0)
      as [b w1].
    cbn [fst snd] in *. rewrite Hb. cbn [negb].
    change (DockerComposeEnvironment.services_or_none
              (DockerComposeEnvironment.set_timings
                 (DockerComposeEnvironment.set_build
                    (executor.time os w1 - executor.time os w0)
                    (DockerComposeEnvironment.timings self)) self))
      with (DockerComposeEnvironment.services_or_none self).
    destruct (up docker (DockerComposeEnvironment.services_or_none self) w1)
      as [u w2].
    cbn [fst snd].
    destruct (up_success u); cbn [negb fst snd success orb];
      repeat split; reflexivity.
  - intros Hs. rewrite Hs. cbn [negb].
    destruct (up docker (DockerComposeEnvironment.services_or_none self) w0)
      as [u w2].
    cbn [fst snd].
    destruct (up_success u); cbn [negb fst snd success orb];
      repeat split; reflexivity.
Qed.

(** X22: run_tests does not enforce test_timeout.  The test command is
    streamed, so the timeout is given to process.wait only, after the
    output has been read to its end.  On the machine with a clock, when
    the command run in the container has exited by the time its output
    ends, run_tests returns what parse_test_results makes of the whole
    output and of the command's own return code, whatever test_timeout
    is; the call takes the whole running time of the command,
    timings.tests is that time, and nothing is killed. *)
Theorem compose_test_timeout_not_enforced :
  forall (behaviour : executor.call -> subprocess.Process)
         (self : DockerComposeEnvironment.t) (m : subprocess.Machine)
         (suite category : option string) (verbose : bool) (cmd : string),
    DockerComposeEnvironment._is_up self = true ->
    DockerComposeEnvironment._build_test_command suite category verbose self
    = executor.Single cmd ->
    let p :=
      behaviour
        (executor.DockerExecutor.subprocess_call cmd
           (DockerComposeEnvironment.test_timeout self)
           (Some (DockerComposeEnvironment.test_env self))
           (DockerComposeEnvironment.test_executor verbose self)) in
    (subprocess.exits_after p <= subprocess.closes_after p)%Q ->
    let result :=
      DockerComposeEnvironment.run_tests (subprocess.system behaviour)
        suite category verbose self m in
    fst (fst result)
    = executor.TestExecutor.parse_test_results
        (String.concat "" (subprocess.lines p)) (subprocess.returncode p)
    /\ snd result = subprocess.later (subprocess.closes_after p) m
    /\ (t_tests (DockerComposeEnvironment.timings (snd (fst result)))
        == subprocess.closes_after p)%Q.
Proof.
  intros behaviour self m suite category verbose cmd Hup Hc p Hheld result.
  subst result. unfold DockerComposeEnvironment.run_tests.
  rewrite Hup, Hc. cbn [negb executor.DockerExecutor.execute].
  unfold executor.DockerExecutor._docker_exec.
  change (executor.popen (subprocess.system behaviour))
    with (subprocess.popen behaviour).
  rewrite (popen_output_held behaviour _ m Hheld). fold p.
  cbn [fst snd executor.ExecutionResult.stdout
       executor.ExecutionResult.exit_code].
  split; [reflexivity|]. split; [reflexivity|].
  cbn [DockerComposeEnvironment.timings DockerComposeEnvironment.set_timings
       DockerComposeEnvironment.set_tests t_tests executor.time
       subprocess.system subprocess.later subprocess.clock].
  ring.
Qed.

(** X28: _parse_test_output of the Docker Compose environment has no
    fallback on the exit code: for an output in which none of its patterns
    matches, it returns a result with all counts zero, so with the total
    zero and the verdict ERROR, whatever the exit code is, where
    parse_test_results of the executor counts one passed or one failed
    test. *)
Theorem compose_parser_has_no_fallback :
  forall (output : string) (exit_code : Z) (self : DockerComposeEnvironment.t),
    re.search "(\d+) passed" false output = None ->
    re.search "(\d+) failed" false output = None ->
    re.search "(\d+) error" false output = None ->
    re.search "(\d+) skipped" false output = None ->
    re.search "in ([\d.]+)s" false output = None ->
    DockerComposeEnvironment._parse_test_output output exit_code self
    = py.Return
        (types.TestResult.init 0 0 0 0
           (t_tests (DockerComposeEnvironment.timings self)) exit_code)
    /\ types.TestResult.verdict
         (types.TestResult.init 0 0 0 0
            (t_tests (DockerComposeEnvironment.timings self)) exit_code)
       = types.ERROR.
Proof.
  intros output exit_code self H1 H2 H3 H4 H5.
  unfold DockerComposeEnvironment._parse_test_output,
    executor.TestExecutor.when_int.
  rewrite H1, H2, H3, H4, H5. cbn [py.bind]. split; [reflexivity|].
  unfold types.TestResult.verdict, types.TestResult.init.
  cbn [types.TestResult.exit_code types.TestResult.total Z.add Z.eqb].
  now destruct (exit_code =? 2)%Z.
Qed.

End ComposeEnvironment.

(** Witness of X28: the output "ok" with the exit code 0. *)
Lemma compose_parser_has_no_fallback_witness :
  docker_compose.DockerComposeEnvironment._parse_test_output "ok" 0
    samples.compose_env
  = py.Return (types.TestResult.init 0 0 0 0 0 0).
Proof.
  exact (proj1 (compose_parser_has_no_fallback "ok" 0 samples.compose_env
                  eq_refl eq_refl eq_refl eq_refl eq_refl)).
Defined.

(** Witness of X19: the sample environment before setup. *)
Lemma environment_not_up_does_nothing_witness :
  docker_compose.DockerComposeEnvironment.run_tests samples.machine
    None None false samples.compose_env []
  = (py.Return (types.TestResult.init 0 0 1 0 0 2), samples.compose_env, []).
Proof.
  exact (proj1 (proj2 (proj2
           (environment_not_up_does_nothing samples.machine samples.manager
              samples.compose_env [] 120 None None false eq_refl)))).
Defined.

(** Witness of X22: "sleep 10" with a test_timeout of one second in the
    sample environment, once it is up: after ten seconds run_tests returns
    one passed test and the exit code 0, and nothing was killed. *)
Lemma compose_test_timeout_not_enforced_witness :
  let result :=
    docker_compose.DockerComposeEnvironment.run_tests
      (subprocess.system samples.child) None None false
      (docker_compose.DockerComposeEnvironment.set_is_up
         true samples.compose_env)
      samples.idle in
  fst (fst result) = py.Return (types.TestResult.init 1 0 0 0 0 0)
  /\ snd result = subprocess.MkMachine (0 + 10) [] [].
Proof.
  exact (let H := compose_test_timeout_not_enforced samples.child
                    (docker_compose.DockerComposeEnvironment.set_is_up
                       true samples.compose_env)
                    samples.idle None None false "sleep 10" eq_refl eq_refl
                    (fun H => match H with eq_refl => I end) in
         conj (proj1 H) (proj1 (proj2 H))).
Defined.

(** The verdict of that result is PASS. *)
Example sleeping_tests_pass :
  types.TestResult.verdict (types.TestResult.init 1 0 0 0 0 0) = types.PASS.
Proof. reflexivity. Qed.

(* ================================================================== *)
(** * Further properties of the retry helpers                          *)
(* ================================================================== *)

Section Retry.

Import retry.

Context {World A E : Type}.
Context (func : World -> (A + E) * World).
Context (caught : E -> bool).
Context (pause : RetryConfig.t -> Z -> World -> option E * World).

(** The outcome of the call that ends the loop. *)
Let ending (x : A + E) : Result A E :=
  match x with
  | inl a => Returned a
  | inr e => Raised e
  end.

(** The attempts before the one numbered [k] each raised a caught
    exception and were followed by a pause that ended. *)
Let retried (config : RetryConfig.t) (i k : nat) (w : World) : Prop :=
  forall j : nat,
    (j < k)%nat ->
    exists e,
      fst (func (after_retries func pause config j (Z.of_nat i) w)) = inr e
      /\ caught e = true
      /\ fst (pause config (Z.of_nat (i + j))
                    (snd (func (after_retries func pause config j
                                              (Z.of_nat i) w))))
         = None.

Lemma retried_step (config : RetryConfig.t) (i k : nat) (w : World) :
  retried config i (S k) w ->
  exists e w1 w2,
    func w = (inr e, w1) /\ caught e = true
    /\ pause config (Z.of_nat i) w1 = (None, w2)
    /\ retried config (S i) k w2
    /\ forall n, after_retries func pause config (S n) (Z.of_nat i) w
                 = after_retries func pause config n (Z.of_nat (S i)) w2.
Proof.
  intros H. destruct (H 0%nat (Nat.lt_0_succ k)) as [e [He [Hc Hp]]].
  cbn [after_retries] in He, Hp. rewrite Nat.add_0_r in Hp.
  destruct (func w) as [y w1] eqn:Hf. cbn [fst snd] in *. subst y.
  destruct (pause config (Z.of_nat i) w1) as [o w2] eqn:Hq.
  cbn [fst] in Hp. subst o.
  assert (Hn : forall n,
             after_retries func pause config (S n) (Z.of_nat i) w
             = after_retries func pause config n (Z.of_nat (S i)) w2).
  { intros n. cbn [after_retries]. rewrite Hf. cbn [snd]. rewrite Hq.
    cbn [snd]. now replace (Z.of_nat (S i)) with (Z.of_nat i + 1)%Z by lia. }
  exists e, w1, w2. repeat split; try assumption.
  intros j Hj. specialize (H (S j) ltac:(lia)).
  rewrite Hn in H. now replace (i + S j)%nat with (S i + j)%nat in H by lia.
Qed.

Lemma backoff_loop_ends (config : RetryConfig.t) :
  forall (k i n : nat) (last : option E) (w w' : World) (x : A + E),
    (k < n)%nat ->
    (Z.of_nat (i + k) < RetryConfig.max_attempts config)%Z ->
    retried config i k w ->
    func (after_retries func pause config k (Z.of_nat i) w) = (x, w') ->
    match x with
    | inl _ => True
    | inr e =>
        caught e = false
        \/ (Z.of_nat (i + k) + 1 >= RetryConfig.max_attempts config)%Z
    end ->
    backoff_loop func caught pause config (map Z.of_nat (seq i n)) last w
    = (ending x, w').
Proof.
  induction k as [|k IH]; intros i n last w w' x Hn Hmax Hfail Hend Hx.
  - destruct n as [|n]; [lia|]. cbn [seq map backoff_loop].
    cbn [after_retries] in Hend. rewrite Hend.
    destruct x as [a|e]; [reflexivity|]. cbn [ending].
    destruct (caught e) eqn:Hc; [|reflexivity].
    destruct Hx as [Hx|Hx]; [discriminate|].
    rewrite Nat.add_0_r in Hx.
    destruct (Z.geb_spec (Z.of_nat i + 1) (RetryConfig.max_attempts config));
      [reflexivity | lia].
  - destruct n as [|n]; [lia|]. cbn [seq map backoff_loop].
    destruct (retried_step config i k w Hfail)
      as [e [w1 [w2 [Hf [Hc [Hq [Hrest Hafter]]]]]]].
    rewrite Hf, Hc.
    destruct (Z.geb_spec (Z.of_nat i + 1) (RetryConfig.max_attempts config));
      [lia|].
    rewrite Hq.
    apply (IH (S i) n (Some e) w2 w' x).
    + lia.
    + replace (S i + k)%nat with (i + S k)%nat by lia. exact Hmax.
    + exact Hrest.
    + rewrite <- Hafter. exact Hend.
    + replace (S i + k)%nat with (i + S k)%nat by lia. exact Hx.
Qed.

Lemma backoff_loop_pause_raises (config : RetryConfig.t) :
  forall (k i n : nat) (last : option E) (w w1 w2 : World) (e raised : E),
    (k < n)%nat ->
    (Z.of_nat (i + k) + 1 < RetryConfig.max_attempts config)%Z ->
    retried config i k w ->
    func (after_retries func pause config k (Z.of_nat i) w) = (inr e, w1) ->
    caught e = true ->
    pause config (Z.of_nat (i + k)) w1 = (Some raised, w2) ->
    backoff_loop func caught pause config (map Z.of_nat (seq i n)) last w
    = (Raised raised, w2).
Proof.
  induction k as [|k IH]; intros i n last w w1 w2 e raised Hn Hmax Hfail Hend
                                 Hc Hp.
  - destruct n as [|n]; [lia|]. cbn [seq map backoff_loop].
    cbn [after_retries] in Hend. rewrite Hend, Hc.
    rewrite Nat.add_0_r in Hmax, Hp.
    destruct (Z.geb_spec (Z.of_nat i + 1) (RetryConfig.max_attempts config));
      [lia|].
    now rewrite Hp.
  - destruct n as [|n]; [lia|]. cbn [seq map backoff_loop].
    destruct (retried_step config i k w Hfail)
      as [e0 [v1 [v2 [Hf [Hc0 [Hq [Hrest Hafter]]]]]]].
    rewrite Hf, Hc0.
    destruct (Z.geb_spec (Z.of_nat i + 1) (RetryConfig.max_attempts config));
      [lia|].
    rewrite Hq.
    apply (IH (S i) n (Some e0) v2 w1 w2 e raised).
    + lia.
    + replace (S i + k)%nat with (i + S k)%nat by lia. exact Hmax.
    + exact Hrest.
    + rewrite <- Hafter. exact Hend.
    + exact Hc.
    + replace (S i + k)%nat with (i + S k)%nat by lia. exact Hp.
Qed.


(** X24: with max_attempts of zero or less the function is never called:
    execute_with_retry returns None, and the wrapper of retry_on_condition
    raises UnboundLocalError at its last line.  The machine is left as it
    was. *)
Theorem no_attempt_without_budget :
  forall (config : RetryConfig.t) (condition : A -> bool) (w : World),
    (RetryConfig.max_attempts config <= 0)%Z ->
    execute_with_retry func caught pause (Some config) w = (ReturnedNone, w)
    /\ retry_on_condition func pause condition
         (RetryConfig.max_attempts config) (RetryConfig.initial_delay config)
         (RetryConfig.max_delay config) (RetryConfig.exponential_base config) w
       = (UnboundLocalError, w).
Proof.
  intros config condition w H.
  unfold execute_with_retry, retry_on_condition, range.
  cbn [RetryConfig.max_attempts].
  replace (Z.to_nat (RetryConfig.max_attempts config)) with 0%nat by lia.
  split; reflexivity.
Qed.

(** The attempts before the one numbered [k] each returned a result that
    met the condition and were followed by a pause that ended. *)
Let tried_again (condition : A -> bool) (config : RetryConfig.t) (i k : nat)
    (w : World) : Prop :=
  forall j : nat,
    (j < k)%nat ->
    exists a,
      fst (func (after_retries func pause config j (Z.of_nat i) w)) = inl a
      /\ condition a = true
      /\ fst (pause config (Z.of_nat (i + j))
                    (snd (func (after_retries func pause config j
                                              (Z.of_nat i) w))))
         = None.

Lemma tried_again_step (condition : A -> bool) (config : RetryConfig.t)
    (i k : nat) (w : World) :
  tried_again condition config i (S k) w ->
  exists a w1 w2,
    func w = (inl a, w1) /\ condition a = true
    /\ pause config (Z.of_nat i) w1 = (None, w2)
    /\ tried_again condition config (S i) k w2
    /\ forall n, after_retries func pause config (S n) (Z.of_nat i) w
                 = after_retries func pause config n (Z.of_nat (S i)) w2.
Proof.
  intros H. destruct (H 0%nat (Nat.lt_0_succ k)) as [a [Ha [Hc Hp]]].
  cbn [after_retries] in Ha, Hp. rewrite Nat.add_0_r in Hp.
  destruct (func w) as [y w1] eqn:Hf. cbn [fst snd] in *. subst y.
  destruct (pause config (Z.of_nat i) w1) as [o w2] eqn:Hq.
  cbn [fst] in Hp. subst o.
  assert (Hn : forall n,
             after_retries func pause config (S n) (Z.of_nat i) w
             = after_retries func pause config n (Z.of_nat (S i)) w2).
  { intros n. cbn [after_retries]. rewrite Hf. cbn [snd]. rewrite Hq.
    cbn [snd]. now replace (Z.of_nat (S i)) with (Z.of_nat i + 1)%Z by lia. }
  exists a, w1, w2. repeat split; try assumption.
  intros j Hj. specialize (H (S j) ltac:(lia)).
  rewrite Hn in H. now replace (i + S j)%nat with (S i + j)%nat in H by lia.
Qed.

Lemma condition_loop_ends (condition : A -> bool) (config : RetryConfig.t) :
  forall (k i n : nat) (last : option A) (w w' : World) (x : A + E),
    (k < n)%nat ->
    (Z.of_nat (i + k) < RetryConfig.max_attempts config)%Z ->
    tried_again condition config i k w ->
    func (after_retries func pause config k (Z.of_nat i) w) = (x, w') ->
    match x with
    | inr _ => True
    | inl a =>
        condition a = false
        \/ (Z.of_nat (i + k) + 1 >= RetryConfig.max_attempts config)%Z
    end ->
    condition_loop func pause condition config (map Z.of_nat (seq i n)) last w
    = (ending x, w').
Proof.
  induction k as [|k IH]; intros i n last w w' x Hn Hmax Hagain Hend Hx.
  - destruct n as [|n]; [lia|]. cbn [seq map condition_loop].
    cbn [after_retries] in Hend. rewrite Hend.
    destruct x as [a|e]; [|reflexivity]. cbn [ending].
    destruct (condition a) eqn:Hc; [|reflexivity]. cbn [negb].
    destruct Hx as [Hx|Hx]; [discriminate|].
    rewrite Nat.add_0_r in Hx.
    destruct (Z.geb_spec (Z.of_nat i + 1) (RetryConfig.max_attempts config));
      [reflexivity | lia].
  - destruct n as [|n]; [lia|]. cbn [seq map condition_loop].
    destruct (tried_again_step condition config i k w Hagain)
      as [a [w1 [w2 [Hf [Hc [Hq [Hrest Hafter]]]]]]].
    rewrite Hf, Hc. cbn [negb].
    destruct (Z.geb_spec (Z.of_nat i + 1) (RetryConfig.max_attempts config));
      [lia|].
    rewrite Hq.
    apply (IH (S i) n (Some a) w2 w' x).
    + lia.
    + replace (S i + k)%nat with (i + S k)%nat by lia. exact Hmax.
    + exact Hrest.
    + rewrite <- Hafter. exact Hend.
    + replace (S i + k)%nat with (i + S k)%nat by lia. exact Hx.
Qed.

Lemma condition_loop_pause_raises (condition : A -> bool)
    (config : RetryConfig.t) :
  forall (k i n : nat) (last : option A) (w w1 w2 : World) (a : A)
         (raised : E),
    (k < n)%nat ->
    (Z.of_nat (i + k) + 1 < RetryConfig.max_attempts config)%Z ->
    tried_again condition config i k w ->
    func (after_retries func pause config k (Z.of_nat i) w) = (inl a, w1) ->
    condition a = true ->
    pause config (Z.of_nat (i + k)) w1 = (Some raised, w2) ->
    condition_loop func pause condition config (map Z.of_nat (seq i n)) last w
    = (Raised raised, w2).
Proof.
  induction k as [|k IH]; intros i n last w w1 w2 a raised Hn Hmax Hagain Hend
                                 Hc Hp.
  - destruct n as [|n]; [lia|]. cbn [seq map condition_loop].
    cbn [after_retries] in Hend. rewrite Hend, Hc. cbn [negb].
    rewrite Nat.add_0_r in Hmax, Hp.
    destruct (Z.geb_spec (Z.of_nat i + 1) (RetryConfig.max_attempts config));
      [lia|].
    now rewrite Hp.
  - destruct n as [|n]; [lia|]. cbn [seq map condition_loop].
    destruct (tried_again_step condition config i k w Hagain)
      as [a0 [v1 [v2 [Hf [Hc0 [Hq [Hrest Hafter]]]]]]].
    rewrite Hf, Hc0. cbn [negb].
    destruct (Z.geb_spec (Z.of_nat i + 1) (RetryConfig.max_attempts config));
      [lia|].
    rewrite Hq.
    apply (IH (S i) n (Some a0) v2 w1 w2 a raised).
    + lia.
    + replace (S i + k)%nat with (i + S k)%nat by lia. exact Hmax.
    + exact Hrest.
    + rewrite <- Hafter. exact Hend.
    + exact Hc.
    + replace (S i + k)%nat with (i + S k)%nat by lia. exact Hp.
Qed.


End Retry.


(** With an initial delay of -1 the first pause raises, and the function
    is called once. *)
Example negative_delay_stops_retry :
  retry.execute_with_retry samples.flaky (fun _ => true) samples.nap
    (Some (retry.RetryConfig.mk 3 (-1) 60 2)) (0%nat, [])
  = (retry.Raised "sleep length must be non-negative", (1%nat, [])).
Proof. reflexivity. Qed.

(** Witness of X24: no attempt allowed. *)
Lemma no_attempt_without_budget_witness :
  retry.execute_with_retry samples.flaky (fun _ => true) samples.nap
    (Some (retry.RetryConfig.mk 0 1 60 2)) (0%nat, [])
  = (retry.ReturnedNone, (0%nat, [])).
Proof.
  exact (proj1 (no_attempt_without_budget samples.flaky (fun _ => true)
                  samples.nap (retry.RetryConfig.mk 0 1 60 2)
                  (String.eqb "pending") (0%nat, []) (Z.le_refl 0))).
Defined.


(* ================================================================== *)
(** * Further properties of the browser environment                    *)
(* ================================================================== *)

Section BrowserLifecycle.

Import browser.

Context {World : Type} (time : World -> Q).

(** X26: setup of the browser environment starts the server first.  When
    the server does not start, the tunnel is not started, the result is a
    failure that quotes the message of the server, and the startup time is
    not recorded.  When the server starts and the tunnel does not, the
    server is stopped again, with keep_running off, and the result is a
    failure that quotes the message of the tunnel.  When both start the
    result is a success.  teardown stops the tunnel first and then the
    server. *)
Theorem browser_setup_stops_server_when_tunnel_fails :
  forall (server tunnel : Child World) (test_runner : string) (w : World),
    let started := child_setup server w in
    let tunnelled := child_setup tunnel (snd started) in
    let result := Lifecycle.setup time (Some server) (Some tunnel)
                                  test_runner w in
    (success (fst started) = false ->
     success (fst (fst result)) = false
     /\ message (fst (fst result))
        = "Server failed to start: " ++ message (fst started)
     /\ snd (fst result) = None
     /\ snd result = snd started)
    /\ (success (fst started) = true ->
        success (fst tunnelled) = false ->
        success (fst (fst result)) = false
        /\ message (fst (fst result))
           = "Tunnel failed to start: " ++ message (fst tunnelled)
        /\ snd (fst result) = None
        /\ snd result = child_teardown server false (snd tunnelled))
    /\ (success (fst started) = true ->
        success (fst tunnelled) = true ->
        success (fst (fst result)) = true
        /\ snd (fst result) = Some (time (snd tunnelled) - time w)%Q
        /\ map fst (details (fst (fst result))) = ["server"; "tunnel"]
        /\ snd result = snd tunnelled)
    /\ (forall keep_running : bool,
           snd (Lifecycle.teardown time (Some server) (Some tunnel)
                                   keep_running w)
           = child_teardown server keep_running
               (child_teardown tunnel keep_running w)).
Proof.
  intros server tunnel test_runner w started tunnelled result.
  subst result tunnelled started. unfold Lifecycle.setup.
  destruct (child_setup server w) as [r1 w1]. cbn [fst snd].
  split; [|split; [|split]].
  - intros H. rewrite H. cbn [negb fst snd success message]. repeat split.
  - intros H1. rewrite H1. cbn [negb].
    destruct (child_setup tunnel w1) as [r2 w2]. cbn [fst snd].
    intros H2. rewrite H2. cbn [negb fst snd success message]. repeat split.
  - intros H1. rewrite H1. cbn [negb].
    destruct (child_setup tunnel w1) as [r2 w2]. cbn [fst snd].
    intros H2. rewrite H2. cbn [negb fst snd success details].
    repeat split.
  - intros keep_running. reflexivity.
Qed.

End BrowserLifecycle.

(** Witness of X26: a server that starts and a tunnel that does not: the
    server is started, the tunnel fails, and the server is stopped. *)
Lemma browser_setup_stops_server_when_tunnel_fails_witness :
  snd (browser.Lifecycle.setup
         (fun w => inject_Z (Z.of_nat (List.length w)))
         (Some samples.good_server) (Some samples.bad_tunnel) "playwright" [])
  = ["server up"; "tunnel failed"; "server down"].
Proof.
  exact (proj2 (proj2 (proj2
           (proj1 (proj2
              (browser_setup_stops_server_when_tunnel_fails
                 (fun w => inject_Z (Z.of_nat (List.length w)))
                 samples.good_server samples.bad_tunnel "playwright" []))
              eq_refl eq_refl)))).
Defined.

(** A use of X21: the sample environment is built and then started. *)
Lemma setup_builds_before_starting_witness :
  snd (docker_compose.DockerComposeEnvironment.setup samples.machine
         samples.manager samples.compose_env [])
  = ["docker build"; "docker up"].
Proof.
  exact (proj1 (proj1 (proj2
           (setup_builds_before_starting samples.machine samples.manager
              samples.compose_env []))
           eq_refl eq_refl)).
Defined.

(* ================================================================== *)
(** * Further properties of dictionaries of settings                   *)
(* ================================================================== *)

Section Settings.

Lemma get_setitem {V : Type} (k k' : string) (v : V) (d : list (string * V)) :
  py.get k (py.setitem k' v d)
  = if String.eqb k k' then Some v else py.get k d.
Proof.
  induction d as [|[k1 v1] d IH]; cbn [py.setitem py.get].
  - reflexivity.
  - destruct (String.eqb_spec k' k1) as [->|Hne]; cbn [py.get].
    + now destruct (String.eqb k k1).
    + rewrite IH. destruct (String.eqb_spec k k1) as [->|Hk]; [|reflexivity].
      destruct (String.eqb_spec k1 k'); [congruence | reflexivity].
Qed.

Lemma get_absent {V : Type} (k : string) (d : list (string * V)) :
  ~ In k (map fst d) -> py.get k d = None.
Proof.
  induction d as [|[k1 v1] d IH]; intros H; [reflexivity|].
  cbn [py.get]. destruct (String.eqb_spec k k1) as [->|Hne].
  - exfalso. apply H. now left.
  - apply IH. intros Hin. apply H. now right.
Qed.

(** Looking a key up in [{**d, **u}]: the value in [u] when the key is
    there, else the value in [d]. *)
Lemma get_merge {V : Type} (k : string) (u : list (string * V)) :
  NoDup (map fst u) ->
  forall d : list (string * V),
    py.get k (py.merge d u)
    = match py.get k u with
      | Some v => Some v
      | None => py.get k d
      end.
Proof.
  unfold py.merge. induction u as [|[k1 v1] u IH]; intros Hu d.
  - reflexivity.
  - cbn [map fst] in Hu. inversion Hu as [|x l Hnot Hrest]; subst.
    cbn [fold_left fst snd py.get]. rewrite (IH Hrest), get_setitem.
    destruct (String.eqb_spec k k1) as [->|Hne]; [|reflexivity].
    now rewrite (get_absent k1 u Hnot).
Qed.

(** X27: with_extra on a configuration whose project root is absolute
    returns a new configuration that differs in extra only; get on it
    gives the value passed to with_extra for a key that was passed and the
    answer of the old configuration for any other key. *)
Theorem with_extra_then_get :
  forall (self : types.AdapterConfig.t) (kwargs : list (string * py.value)),
    types.AdapterConfig.is_absolute (types.AdapterConfig.project_root self)
    = true ->
    NoDup (map fst kwargs) ->
    exists new : types.AdapterConfig.t,
      types.AdapterConfig.with_extra kwargs self = py.Return new
      /\ (forall (key : string) (default : py.value),
             types.AdapterConfig.get key default new
             = match py.get key kwargs with
               | Some v => v
               | None => types.AdapterConfig.get key default self
               end)
      /\ types.AdapterConfig.project_root new
         = types.AdapterConfig.project_root self
      /\ types.AdapterConfig.test_directory new
         = types.AdapterConfig.test_directory self
      /\ types.AdapterConfig.markers new = types.AdapterConfig.markers self
      /\ types.AdapterConfig.parallel new = types.AdapterConfig.parallel self
      /\ types.AdapterConfig.coverage new = types.AdapterConfig.coverage self
      /\ types.AdapterConfig.timeout new = types.AdapterConfig.timeout self
      /\ types.AdapterConfig.verbose new = types.AdapterConfig.verbose self.
Proof.
  intros self kwargs Habs Hk.
  unfold types.AdapterConfig.with_extra, types.AdapterConfig.init.
  cbn [types.AdapterConfig.project_root]. rewrite Habs. cbn [negb].
  eexists. split; [reflexivity|].
  split; [|repeat split].
  intros key default. unfold types.AdapterConfig.get.
  cbn [types.AdapterConfig.extra]. rewrite (get_merge key kwargs Hk).
  now destruct (py.get key kwargs).
Qed.

End Settings.

(** Witness of X27: a setting added to a configuration without settings. *)
Lemma with_extra_then_get_witness :
  exists new : types.AdapterConfig.t,
    types.AdapterConfig.with_extra [("headed", py.Bool true)]
      (types.AdapterConfig.mk "/srv/app" None [] false false None false [])
    = py.Return new
    /\ types.AdapterConfig.get "headed" py.None_ new = py.Bool true.
Proof.
  destruct (with_extra_then_get
              (types.AdapterConfig.mk "/srv/app" None [] false false None
                                      false [])
              [("headed", py.Bool true)] eq_refl
              (NoDup_cons "headed" (fun H : In "headed" [] => H)
                          (NoDup_nil string)))
    as [new [H1 [H2 _]]].
  exists new. split; [exact H1|]. exact (H2 "headed" py.None_).
Defined.

Section HostContext.

Import evaluation.

Lemma get_setitem_same {V : Type} (k : string) (v : V)
    (d : list (string * V)) :
  py.get k (py.setitem k v d) = Some v.
Proof. rewrite get_setitem. now rewrite String.eqb_refl. Qed.

Lemma get_setitem_other {V : Type} (k k' : string) (v : V)
    (d : list (string * V)) :
  String.eqb k k' = false -> py.get k (py.setitem k' v d) = py.get k d.
Proof. intros H. rewrite get_setitem. now rewrite H. Qed.

(** X29: in the environment recorded by create_evaluation, "hostname",
    "python_version" and "platform" always hold what the machine reports,
    also when the caller passed values for them, and so do "git_commit"
    (cut to 12 characters) and "git_branch" when the git call works.
    When a git call fails, the value the caller passed for its key, if
    any, is kept.  Every other key holds what the caller passed. *)
Theorem host_context_overrides_caller :
  forall (h : Host) (uuid4 now_iso : string) (now : Q) (adapter_type : string)
         (category project_name command : option string)
         (environment : option (list (string * string))),
    let passed := match environment with Some e => e | None => [] end in
    let recorded :=
      EvaluationMetadata.environment
        (EvaluationResult.metadata
           (create_evaluation h uuid4 now_iso now adapter_type category
                              project_name command environment)) in
    py.get "hostname" recorded = Some (gethostname h)
    /\ py.get "python_version" recorded = Some (python_version h)
    /\ py.get "platform" recorded = Some (platform h)
    /\ py.get "git_commit" recorded
       = match git_head h with
         | Some commit => Some (substring 0 12 commit)
         | None => py.get "git_commit" passed
         end
    /\ py.get "git_branch" recorded
       = match git_branch h with
         | Some branch => Some branch
         | None => py.get "git_branch" passed
         end
    /\ forall key : string,
         key <> "hostname" -> key <> "python_version" -> key <> "platform" ->
         key <> "git_commit" -> key <> "git_branch" ->
         py.get key recorded = py.get key passed.
Proof.
  intros h uuid4 now_iso now adapter_type category project_name command
         environment passed recorded.
  subst recorded. unfold create_evaluation.
  cbn [EvaluationResult.metadata EvaluationMetadata.environment].
  unfold env_context. fold passed.
  repeat split.
  - rewrite get_setitem_other by reflexivity.
    rewrite get_setitem_other by reflexivity.
    apply get_setitem_same.
  - rewrite get_setitem_other by reflexivity. apply get_setitem_same.
  - apply get_setitem_same.
  - do 3 (rewrite get_setitem_other by reflexivity).
    destruct (git_branch h), (git_head h);
      rewrite ?(get_setitem_other "git_commit" "git_branch") by reflexivity;
      try apply get_setitem_same; reflexivity.
  - do 3 (rewrite get_setitem_other by reflexivity).
    destruct (git_branch h), (git_head h);
      try apply get_setitem_same;
      rewrite ?(get_setitem_other "git_branch" "git_commit") by reflexivity;
      reflexivity.
  - intros key H1 H2 H3 H4 H5.
    apply String.eqb_neq in H1, H2, H3, H4, H5.
    do 3 (rewrite get_setitem_other by assumption).
    destruct (git_branch h), (git_head h);
      rewrite ?get_setitem_other by assumption; reflexivity.
Qed.

End HostContext.
